(** * Campus social application: friendships, presence shares, reviews,
      events and memories.

    A shallow embedding of the Django models of [main/models.py] and of the
    request handlers of [main/views.py].  A database table is the list of its
    rows in insertion order together with the next value of its [AutoField]
    primary key; a queryset [filter] is a list filter, [exists] is [existsb],
    [update] maps over the matching rows, and [save] on a fetched instance
    rewrites the row that carries its primary key.

    Conventions.
    - A [DateTimeField] is the number of microseconds since the epoch, as a
      [Z].  Every call of [timezone.now()] in a handler is one argument of the
      embedded handler, so that no two readings of the clock are silently
      identified.
    - A [CharField] is a [string]: the handlers store what the form posted
      without checking it against the model's [choices].
    - A [FloatField] is a rational of [Q]: the value the float approximates.
    - A [JSONField] holding a list of user ids is a [list Z].
    - The database is SQLite, the backend of a fresh Django project: an
      [IntegerField] column takes a signed 64-bit integer and the driver
      raises [OverflowError] on any other; texts are stored whatever their
      length. *)

From Stdlib Require Import ZArith List String Bool Lia.
From Stdlib Require Import QArith Qround Qabs Lqa.
From Stdlib Require Import Permutation Sorted.
Import ListNotations.

Open Scope string_scope.
Open Scope list_scope.
Open Scope Z_scope.

(** ** Time *)

Definition DateTime := Z.

(** [timedelta(hours=h)] in microseconds. *)
Definition timedelta_hours (h : Z) : Z := h * 3600 * 1000000.

(** [timedelta(hours=h)] raises [OverflowError] unless its days, [h // 24],
    are at most 999999999 in magnitude. *)
Definition timedelta_hours_ok (h : Z) : bool := Z.abs (h / 24) <=? 999999999.

(** [datetime.min] and [datetime.max], the first microsecond of year 1 and
    the last of year 9999: a sum of a [datetime] and a [timedelta] outside
    them raises [OverflowError]. *)
Definition datetime_min : DateTime := - 62135596800000000.
Definition datetime_max : DateTime := 253402300799999999.

Definition datetime_ok (t : DateTime) : bool :=
  (datetime_min <=? t) && (t <=? datetime_max).

(** The integers a column of the database takes. *)
Definition int64_ok (n : Z) : bool :=
  (- 2 ^ 63 <=? n) && (n <=? 2 ^ 63 - 1).

(** ** The user of a request *)

(** [request.user] is a [User] row (here: its primary key) or Django's
    [AnonymousUser]. *)
Inductive RequestUser : Type :=
| AnonymousUser
| AuthUser (id : Z).

Definition is_authenticated (u : RequestUser) : bool :=
  match u with
  | AnonymousUser => false
  | AuthUser _ => true
  end.

(** [owner == user] for a [User] foreign key against [request.user]: model
    instances are equal when their primary keys are; a [User] is never equal
    to the [AnonymousUser]. *)
Definition user_eq (owner : Z) (u : RequestUser) : bool :=
  match u with
  | AnonymousUser => false
  | AuthUser id => owner =? id
  end.

(** ** Messages of the [messages] framework *)

Inductive Level : Type := success | info | error.

Definition Message : Type := (Level * string)%type.

(** ** Tables *)

Record Table (A : Type) : Type := mkTable {
  rows : list A;
  next_id : Z
}.
Arguments mkTable {A} _ _.
Arguments rows {A} _.
Arguments next_id {A} _.

(** [get_object_or_404(Model, pk=..., ...)]: every such lookup of the handlers
    names the primary key, which the database keeps unique, so the row
    found first is the only candidate; [None] is [Http404]. *)
Definition get_object_or_404 {A : Type} (p : A -> bool) (l : list A)
  : option A := find p l.

(** [queryset.first()]. *)
Definition first {A : Type} (l : list A) : option A :=
  match l with
  | [] => None
  | a :: _ => Some a
  end.

(** [queryset.update(...)]: rewrite the rows the queryset selects. *)
Definition qs_update {A : Type} (p : A -> bool) (f : A -> A) (l : list A)
  : list A :=
  map (fun r => if p r then f r else r) l.

(** [Model.objects.create(...)]: the row receives the next primary key and
    goes last. *)
Definition objects_create {A : Type} (mk_row : Z -> A) (t : Table A)
  : A * Table A :=
  let r := mk_row (next_id t) in
  (r, mkTable (rows t ++ [r]) (next_id t + 1)).

(** [instance.save()] of a fetched instance: an [UPDATE] of the row with
    its primary key. *)
Definition save_row {A : Type} (pk : A -> Z) (a : A) (l : list A) : list A :=
  map (fun r => if pk r =? pk a then a else r) l.

(** The successive readings of [timezone.now()] during one request: [now 0]
    is the first call, [now 1] the second, and so on. *)
Definition Clock := nat -> DateTime.

(** A numeric form field as posted: absent, empty, present but rejected by
    [int()] or [float()], or parsed. *)
Inductive Posted (A : Type) : Type :=
| Absent
| Empty
| Unparsable
| Parsed (a : A).
Arguments Absent {A}.
Arguments Empty {A}.
Arguments Unparsable {A}.
Arguments Parsed {A} _.

(** What [float()] returns: a finite value, or one of the infinities and
    NaNs it reads from texts such as [inf], [nan] or [1e400]. *)
Inductive PyFloat : Type :=
| Finite (q : Q)
| NotFinite.

(** Truth value of the raw form value: [None] and [''] are false. *)
Definition sent {A : Type} (p : Posted A) : bool :=
  match p with
  | Absent | Empty => false
  | _ => true
  end.

(** [request.POST.get(name, default)] before the parse. *)
Definition or_default {A : Type} (d : A) (p : Posted A) : Posted A :=
  match p with
  | Absent => Parsed d
  | _ => p
  end.

Definition truthy (s : string) : bool := negb (s =? "")%string.

(** [order_by('-key')]: an insertion sort, largest key first.  Rows of equal
    key stay in the order of the table, which is how SQLite returns them;
    SQL itself leaves their order open. *)
Fixpoint insert_desc {A : Type} (key : A -> Z) (a : A) (l : list A) : list A :=
  match l with
  | [] => [a]
  | b :: l' => if key b <=? key a then a :: l
               else b :: insert_desc key a l'
  end.

Fixpoint order_by_desc {A : Type} (key : A -> Z) (l : list A) : list A :=
  match l with
  | [] => []
  | a :: l' => insert_desc key a (order_by_desc key l')
  end.

(** ** User *)

Module User.

Record t : Type := mk {
  id : Z;
  username : string
}.

End User.

(** ** Friendship *)

Module Friendship.

Record t : Type := mk {
  friendship_id : Z;
  user1 : Z;
  user2 : Z;
  status : string;
  created_at : DateTime;
  accepted_at : option DateTime
}.

Definition accept (now : DateTime) (f : t) : t :=
  mk (friendship_id f) (user1 f) (user2 f) "accepted" (created_at f)
     (Some now).

End Friendship.

Module FriendshipManager.
Import Friendship.

(** The [Q(user1=a, user2=b, status='accepted')] of the two queries. *)
Definition accepted_from (a b : Z) (f : t) : bool :=
  (user1 f =? a) && (user2 f =? b) && (status f =? "accepted")%string.

Definition are_friends (self : list t) (user1 user2 : Z) : bool :=
  existsb (fun f => accepted_from user1 user2 f || accepted_from user2 user1 f)
          self.

(** [get_friends]: the rows of the user table that an accepted friendship
    links to [user] in either direction; [distinct()] keeps one row per
    user, which filtering the user table does. *)
Definition get_friends (self : list t) (users : list User.t) (user : Z)
  : list User.t :=
  filter (fun U =>
            existsb (fun f => accepted_from user (User.id U) f) self
            || existsb (fun f => accepted_from (User.id U) user f) self)
         users.

(** [x__in=friends]: the foreign key [x] is the key of one of the rows. *)
Definition user_in (x : Z) (friends : list User.t) : bool :=
  existsb (fun U => User.id U =? x) friends.

End FriendshipManager.

(** ** Memory *)

Module Memory.

Record t : Type := mk {
  memory_id : Z;
  user : Z;
  location : string;
  creation_date : DateTime;
  memory_title : string;
  description : string;
  media_file : option string;
  media_type : string;
  visibility : string;
  is_archived : bool;
  is_featured : bool;
  tags : list string;
  year_created : option Z;
  likes_count : Z;
  liked_by_user_ids : list Z;
  view_count : Z;
  last_modified : DateTime
}.

(** [can_view(self, user)]; the parameter is called [viewer] here, [user]
    being the author's field. *)
Definition can_view (friendships : list Friendship.t) (self : t)
  (viewer : RequestUser) : bool :=
  if negb (is_authenticated viewer) then (visibility self =? "public")%string
  else if (visibility self =? "public")%string then true
  else if (visibility self =? "private")%string then user_eq (user self) viewer
  else if (visibility self =? "friends")%string then
    if user_eq (user self) viewer then true
    else match viewer with
         | AuthUser id =>
             FriendshipManager.are_friends friendships (user self) id
         | AnonymousUser => false
         end
  else false.

Definition can_edit (self : t) (viewer : RequestUser) : bool :=
  is_authenticated viewer && user_eq (user self) viewer.

End Memory.

(** [Memory.save(update_fields=...)].  The override fills [year_created] on
    the instance when it is unset ([None] or [0]); a fetched instance always
    has its [creation_date], so the [elif] branch, for an instance that was
    never inserted, is not reached.  The [UPDATE] then writes the named
    columns only.  [year_of] is [datetime.year]. *)
Module MemorySave.
Import Memory.

Inductive field : Type :=
| f_is_archived
| f_visibility
| f_liked_by_user_ids
| f_likes_count
| f_view_count.

Definition set_year_created (y : option Z) (m : t) : t :=
  mk (memory_id m) (user m) (location m) (creation_date m) (memory_title m)
     (description m) (media_file m) (media_type m) (visibility m)
     (is_archived m) (is_featured m) (tags m) y (likes_count m)
     (liked_by_user_ids m) (view_count m) (last_modified m).

Definition set_is_archived (b : bool) (m : t) : t :=
  mk (memory_id m) (user m) (location m) (creation_date m) (memory_title m)
     (description m) (media_file m) (media_type m) (visibility m)
     b (is_featured m) (tags m) (year_created m) (likes_count m)
     (liked_by_user_ids m) (view_count m) (last_modified m).

Definition set_visibility (v : string) (m : t) : t :=
  mk (memory_id m) (user m) (location m) (creation_date m) (memory_title m)
     (description m) (media_file m) (media_type m) v
     (is_archived m) (is_featured m) (tags m) (year_created m) (likes_count m)
     (liked_by_user_ids m) (view_count m) (last_modified m).

Definition set_liked_by_user_ids (l : list Z) (m : t) : t :=
  mk (memory_id m) (user m) (location m) (creation_date m) (memory_title m)
     (description m) (media_file m) (media_type m) (visibility m)
     (is_archived m) (is_featured m) (tags m) (year_created m) (likes_count m)
     l (view_count m) (last_modified m).

Definition set_likes_count (n : Z) (m : t) : t :=
  mk (memory_id m) (user m) (location m) (creation_date m) (memory_title m)
     (description m) (media_file m) (media_type m) (visibility m)
     (is_archived m) (is_featured m) (tags m) (year_created m) n
     (liked_by_user_ids m) (view_count m) (last_modified m).

Definition set_view_count (n : Z) (m : t) : t :=
  mk (memory_id m) (user m) (location m) (creation_date m) (memory_title m)
     (description m) (media_file m) (media_type m) (visibility m)
     (is_archived m) (is_featured m) (tags m) (year_created m) (likes_count m)
     (liked_by_user_ids m) n (last_modified m).

(** The column [fld] of [row] takes the value the instance [self] has. *)
Definition write_field (self : t) (row : t) (fld : field) : t :=
  match fld with
  | f_is_archived => set_is_archived (is_archived self) row
  | f_visibility => set_visibility (visibility self) row
  | f_liked_by_user_ids => set_liked_by_user_ids (liked_by_user_ids self) row
  | f_likes_count => set_likes_count (likes_count self) row
  | f_view_count => set_view_count (view_count self) row
  end.

Definition year_unset (m : t) : bool :=
  match year_created m with
  | None => true
  | Some y => y =? 0
  end.

(** The instance after the body of the override. *)
Definition save_instance (year_of : DateTime -> Z) (self : t) : t :=
  if year_unset self
  then set_year_created (Some (year_of (creation_date self))) self
  else self.

(** The table after [self.save(update_fields=update_fields)]. *)
Definition save (year_of : DateTime -> Z) (update_fields : list field)
  (self : t) (table : list t) : list t :=
  let self' := save_instance year_of self in
  map (fun r => if memory_id r =? memory_id self'
                then fold_left (write_field self') update_fields r
                else r)
      table.

End MemorySave.

Module MemoryManager.
Import Memory.

(** The four [Q] objects of [get_visible_memories]. *)
Definition visible_to (friends : list User.t) (viewer : Z) (m : t) : bool :=
  (visibility m =? "public")%string
  || ((visibility m =? "friends")%string
      && FriendshipManager.user_in (user m) friends)
  || ((visibility m =? "friends")%string && (user m =? viewer))
  || ((visibility m =? "private")%string && (user m =? viewer)).

Definition get_visible_memories (self : list t)
  (friendships : list Friendship.t) (users : list User.t) (viewer : Z)
  : list t :=
  let friends := FriendshipManager.get_friends friendships users viewer in
  order_by_desc creation_date (filter (visible_to friends viewer) self).

End MemoryManager.

(** ** Location *)

Module Location.

Record t : Type := mk {
  location_id : string;
  location_name : string;
  is_active : bool;
  active_users_count : Z;
  current_crowd_level : string
}.

Definition set_active_users_count (n : Z) (l : t) : t :=
  mk (location_id l) (location_name l) (is_active l) n (current_crowd_level l).

Definition set_current_crowd_level (c : string) (l : t) : t :=
  mk (location_id l) (location_name l) (is_active l) (active_users_count l) c.

(** [location.save(update_fields=[...])] through [f], the write of the
    named column, on the row with the primary key [pk]. *)
Definition save_column (pk : string) (f : t -> t) (table : list t) : list t :=
  map (fun r => if (location_id r =? pk)%string then f r else r) table.

End Location.

(** ** LocationShare *)

Module LocationShare.

Record t : Type := mk {
  share_id : Z;
  user : Z;
  location : string;
  shared_at : DateTime;
  expires_at : DateTime;
  is_active : bool;
  visibility : string;
  status_message : string;
  share_type : string
}.

(** [update(is_active=False)] on one row. *)
Definition deactivate (s : t) : t :=
  mk (share_id s) (user s) (location s) (shared_at s) (expires_at s) false
     (visibility s) (status_message s) (share_type s).

End LocationShare.

(** ** Event and EventActivity *)

Module Event.

Record t : Type := mk {
  event_id : Z;
  organizer : Z;
  location : string;
  event_type : string;
  event_title : string;
  event_description : string;
  event_start : DateTime;
  event_end : DateTime;
  max_participants : Z;
  current_participants : Z;
  participant_user_ids : list Z;
  status : string;
  created_at : DateTime;
  requires_approval : bool;
  is_started : bool;
  started_at : option DateTime;
  invited_user_ids : list Z;
  is_public : bool
}.

Definition set_participant_user_ids (l : list Z) (e : t) : t :=
  mk (event_id e) (organizer e) (location e) (event_type e) (event_title e)
     (event_description e) (event_start e) (event_end e) (max_participants e)
     (current_participants e) l (status e) (created_at e)
     (requires_approval e) (is_started e) (started_at e) (invited_user_ids e)
     (is_public e).

Definition set_current_participants (n : Z) (e : t) : t :=
  mk (event_id e) (organizer e) (location e) (event_type e) (event_title e)
     (event_description e) (event_start e) (event_end e) (max_participants e)
     n (participant_user_ids e) (status e) (created_at e)
     (requires_approval e) (is_started e) (started_at e) (invited_user_ids e)
     (is_public e).

Definition set_status (s : string) (e : t) : t :=
  mk (event_id e) (organizer e) (location e) (event_type e) (event_title e)
     (event_description e) (event_start e) (event_end e) (max_participants e)
     (current_participants e) (participant_user_ids e) s (created_at e)
     (requires_approval e) (is_started e) (started_at e) (invited_user_ids e)
     (is_public e).

Definition set_started (now : DateTime) (e : t) : t :=
  mk (event_id e) (organizer e) (location e) (event_type e) (event_title e)
     (event_description e) (event_start e) (event_end e) (max_participants e)
     (current_participants e) (participant_user_ids e) (status e)
     (created_at e) (requires_approval e) true (Some now)
     (invited_user_ids e) (is_public e).

(** [x in self.participant_user_ids]. *)
Definition participates (x : Z) (e : t) : bool :=
  existsb (Z.eqb x) (participant_user_ids e).

(** The instance after the body of the [save] override: the organizer is
    appended when the roster is empty or lacks them.  [self.organizer_id]
    is tested for truth first, and [0] is false. *)
Definition save_instance (self : t) : t :=
  if negb (organizer self =? 0)
     && (match participant_user_ids self with [] => true | _ => false end
         || negb (participates (organizer self) self))
  then
    let ids := participant_user_ids self ++ [organizer self] in
    set_current_participants (Z.of_nat (List.length ids))
      (set_participant_user_ids ids self)
  else self.

(** The table after [self.save()] on a fetched event. *)
Definition save (self : t) (table : list t) : list t :=
  save_row event_id (save_instance self) table.

Definition get_current_participants (self : t) : Z :=
  match participant_user_ids self with
  | [] => 0
  | ids => Z.of_nat (List.length ids)
  end.

Definition can_join (self : t) : bool :=
  get_current_participants self <? max_participants self.

(** [list.remove(x)]: the first occurrence goes. *)
Fixpoint list_remove (x : Z) (l : list Z) : list Z :=
  match l with
  | [] => []
  | y :: l' => if y =? x then l' else y :: list_remove x l'
  end.

End Event.

Module EventActivity.

Record t : Type := mk {
  activity_id : Z;
  user : Z;
  event : Z;
  activity_type : string;
  created_at : DateTime;
  is_visible : bool
}.

End EventActivity.

(** ** LocationReview *)

(** [round(x, 1)] on the rational the float stands for: the nearest multiple
    of one tenth, a tie going to the even one. *)
Definition round_half_even (x : Q) : Z :=
  let f := Qfloor x in
  match Qcompare (x - inject_Z f) (1 # 2) with
  | Lt => f
  | Gt => f + 1
  | Eq => if Z.even f then f else f + 1
  end.

Definition py_round1 (x : Q) : Q :=
  (inject_Z (round_half_even (x * inject_Z 10)) / inject_Z 10)%Q.

Module LocationReview.

Record t : Type := mk {
  review_id : Z;
  user : Z;
  location : string;
  wifi_rating : Z;
  cleanliness_rating : Z;
  noise_rating : Z;
  general_rating : Q;
  rating : option Z;
  review_text : string;
  review_category : string;
  crowd_level : string;
  created_at : DateTime;
  is_verified : bool;
  helpfulness_score : Z
}.

Definition set_general_rating (g : Q) (r : t) : t :=
  mk (review_id r) (user r) (location r) (wifi_rating r)
     (cleanliness_rating r) (noise_rating r) g (rating r) (review_text r)
     (review_category r) (crowd_level r) (created_at r) (is_verified r)
     (helpfulness_score r).

(** The instance after the body of the [save] override. *)
Definition save_instance (self : t) : t :=
  set_general_rating
    (py_round1
       (inject_Z (wifi_rating self + cleanliness_rating self
                  + noise_rating self) / inject_Z 3)%Q)
    self.

(** The table after [self.save()] on a fetched review. *)
Definition save (self : t) (table : list t) : list t :=
  save_row review_id (save_instance self) table.

End LocationReview.

(** ** The database *)

Record DB : Type := mkDB {
  users : list User.t;
  locations : list Location.t;
  location_shares : Table LocationShare.t;
  friendships : Table Friendship.t;
  events : Table Event.t;
  event_activities : Table EventActivity.t;
  memories : Table Memory.t;
  reviews : Table LocationReview.t
}.

Definition set_locations (v : list Location.t) (db : DB) : DB :=
  mkDB (users db) v (location_shares db) (friendships db) (events db)
       (event_activities db) (memories db) (reviews db).

Definition set_location_shares (v : Table LocationShare.t) (db : DB) : DB :=
  mkDB (users db) (locations db) v (friendships db) (events db)
       (event_activities db) (memories db) (reviews db).

Definition set_friendships (v : Table Friendship.t) (db : DB) : DB :=
  mkDB (users db) (locations db) (location_shares db) v (events db)
       (event_activities db) (memories db) (reviews db).

Definition set_events (v : Table Event.t) (db : DB) : DB :=
  mkDB (users db) (locations db) (location_shares db) (friendships db) v
       (event_activities db) (memories db) (reviews db).

Definition set_event_activities (v : Table EventActivity.t) (db : DB) : DB :=
  mkDB (users db) (locations db) (location_shares db) (friendships db)
       (events db) v (memories db) (reviews db).

Definition set_memories (v : Table Memory.t) (db : DB) : DB :=
  mkDB (users db) (locations db) (location_shares db) (friendships db)
       (events db) (event_activities db) v (reviews db).

Definition set_reviews (v : Table LocationReview.t) (db : DB) : DB :=
  mkDB (users db) (locations db) (location_shares db) (friendships db)
       (events db) (event_activities db) (memories db) v.

(** The rows of a table change, its key counter stays. *)
Definition with_rows {A : Type} (l : list A) (t : Table A) : Table A :=
  mkTable l (next_id t).

(** * Request handlers *)

(** The double quote of the messages that quote a title. *)
Definition dquote : string := String (Ascii.ascii_of_nat 34) EmptyString.

Definition quoted (s : string) : string := (dquote ++ s ++ dquote)%string.

(** [related.username] through a foreign key to the user table, which the
    database keeps pointing at an existing row. *)
Definition username_of (db : DB) (id : Z) : string :=
  match find (fun u => User.id u =? id) (users db) with
  | Some u => User.username u
  | None => ""
  end.

(** ** Friend requests *)

(** [send_friend_request(request, user_id)], on [POST].  [Friendship] has no
    default ordering, so [first()] goes by primary key, the order of
    insertion. *)
Definition send_friend_request (user : Z) (user_id : Z) (now : Clock)
  (db : DB) : DB * list Message :=
  match get_object_or_404 (fun u => User.id u =? user_id) (users db) with
  | None => (db, [(error, "Error sending friend request")])
  | Some friend =>
      let fid := User.id friend in
      let existing_friendship :=
        first (filter (fun f =>
                   (Friendship.user1 f =? user) && (Friendship.user2 f =? fid)
                   || (Friendship.user1 f =? fid)
                      && (Friendship.user2 f =? user))
                 (rows (friendships db))) in
      match existing_friendship with
      | Some f =>
          if (Friendship.status f =? "accepted")%string then
            (db, [(info, ("You are already friends with "
                          ++ User.username friend)%string)])
          else if (Friendship.status f =? "pending")%string then
            (db, [(info, ("Friend request already sent to "
                          ++ User.username friend)%string)])
          else (db, [(error, "Cannot send friend request")])
      | None =>
          let '(_, t) :=
            objects_create
              (fun id => Friendship.mk id user fid "pending" (now 0%nat) None)
              (friendships db) in
          (set_friendships t db,
           [(success, ("Friend request sent to " ++ User.username friend
                       ++ "!")%string)])
      end
  end.

(** [respond_friend_request(request, friendship_id)], on [POST]; [action] is
    the posted field, empty when it is absent. *)
Definition respond_friend_request (user : Z) (friendship_id : Z)
  (action : string) (now : Clock) (db : DB) : DB * list Message :=
  match get_object_or_404
          (fun f => (Friendship.friendship_id f =? friendship_id)
                    && (Friendship.user2 f =? user)
                    && (Friendship.status f =? "pending")%string)
          (rows (friendships db)) with
  | None => (db, [(error, "Error processing friend request")])
  | Some friendship =>
      if (action =? "accept")%string then
        let friendship' := Friendship.accept (now 0%nat) friendship in
        (set_friendships
           (with_rows (save_row Friendship.friendship_id friendship'
                         (rows (friendships db)))
              (friendships db)) db,
         [(success, ("You are now friends with "
                     ++ username_of db (Friendship.user1 friendship)
                     ++ "!")%string)])
      else if (action =? "reject")%string then
        (set_friendships
           (with_rows (filter (fun f => negb (Friendship.friendship_id f
                                              =? Friendship.friendship_id
                                                   friendship))
                         (rows (friendships db)))
              (friendships db)) db,
         [(info, "Friend request declined")])
      else (db, [])
  end.

(** ** The dashboard *)

(** The sweep at the head of [dashboard]. *)
Definition sweep_expired (t : DateTime) (db : DB) : DB :=
  set_location_shares
    (with_rows
       (qs_update (fun s => (LocationShare.expires_at s <=? t)
                            && LocationShare.is_active s)
          LocationShare.deactivate (rows (location_shares db)))
       (location_shares db)) db.

(** The count [share_location] stores in [active_users_count]. *)
Definition active_users_at (location_id : string) (t : DateTime)
  (shares : list LocationShare.t) : Z :=
  Z.of_nat (List.length
    (filter (fun s => (LocationShare.location s =? location_id)%string
                      && LocationShare.is_active s
                      && (t <? LocationShare.expires_at s))
       shares)).

(** Action [share_location].  Clock: [now 1] for the expiry, [now 2] for the
    [auto_now_add] of [shared_at], [now 3] for the occupancy count. *)
Definition share_location (user : Z) (location_id : string)
  (status_message : option string) (now : Clock) (db : DB)
  : DB * list Message :=
  let status_message :=
    match status_message with Some s => s | None => "studying" end in
  if truthy location_id then
    match get_object_or_404
            (fun l => (Location.location_id l =? location_id)%string)
            (locations db) with
    | None => (db, [(error, "Invalid location selected")])
    | Some location =>
        let deactivated :=
          qs_update (fun s => (LocationShare.user s =? user)
                              && LocationShare.is_active s)
            LocationShare.deactivate (rows (location_shares db)) in
        let '(_, shares) :=
          objects_create
            (fun id => LocationShare.mk id user
                         (Location.location_id location) (now 2%nat)
                         (now 1%nat + timedelta_hours 4) true "all_friends"
                         status_message "check_in")
            (with_rows deactivated (location_shares db)) in
        let count :=
          active_users_at (Location.location_id location) (now 3%nat)
            (rows shares) in
        (set_locations
           (Location.save_column (Location.location_id location)
              (Location.set_active_users_count count) (locations db))
           (set_location_shares shares db),
         [(success, ("Location shared: "
                     ++ Location.location_name location)%string)])
    end
  else (db, []).

(** *** The current share *)

(** The query of the current share, with [select_related('location')]: a
    share comes with the location row its foreign key joins. *)
Definition current_share (user : Z) (t : DateTime) (db : DB)
  : option (LocationShare.t * Location.t) :=
  first
    (flat_map
       (fun s =>
          match find (fun l => (Location.location_id l
                                =? LocationShare.location s)%string)
                  (locations db) with
          | Some l => [(s, l)]
          | None => []
          end)
       (order_by_desc LocationShare.shared_at
          (filter (fun s => (LocationShare.user s =? user)
                            && LocationShare.is_active s
                            && (t <? LocationShare.expires_at s))
             (rows (location_shares db))))).

(** Action [stop_sharing].  Clock: [now 1] for the current
    share, [now 2] for the occupancy count.  The third component is the
    review prompt the session receives: the key and the name of the
    location left. *)
Definition stop_sharing (user : Z) (now : Clock) (db : DB)
  : DB * list Message * option (string * string) :=
  let current := current_share user (now 1%nat) db in
  let db1 :=
    set_location_shares
      (with_rows
         (qs_update (fun s => (LocationShare.user s =? user)
                              && LocationShare.is_active s)
            LocationShare.deactivate (rows (location_shares db)))
         (location_shares db)) db in
  match current with
  | Some (_, location) =>
      let count :=
        active_users_at (Location.location_id location) (now 2%nat)
          (rows (location_shares db1)) in
      (set_locations
         (Location.save_column (Location.location_id location)
            (Location.set_active_users_count count) (locations db1)) db1,
       [(success, "Location sharing stopped")],
       Some (Location.location_id location, Location.location_name location))
  | None => (db1, [(success, "Location sharing stopped")], None)
  end.

(** *** Reviews *)

(** The posted fields of [submit_review]; [review_text] is the text after
    [strip()]. *)
Module ReviewForm.

Record t : Type := mk {
  location_id : string;
  wifi_rating : Posted Z;
  cleanliness_rating : Posted Z;
  noise_rating : Posted Z;
  general_rating : Posted PyFloat;
  crowd_level : string;
  review_text : string
}.

End ReviewForm.

(** [crowd_counts[k] = crowd_counts.get(k, 0) + 1] on a dictionary kept in
    insertion order. *)
Fixpoint count_level (k : string) (d : list (string * Z)) : list (string * Z) :=
  match d with
  | [] => [(k, 1)]
  | (k', n) :: d' => if (k' =? k)%string then (k', n + 1) :: d'
                     else (k', n) :: count_level k d'
  end.

(** [max(items, key=lambda x: x[1])] from a first candidate: a later item
    wins only with a strictly larger count. *)
Fixpoint max_item (best : string * Z) (d : list (string * Z)) : string * Z :=
  match d with
  | [] => best
  | x :: d' => if snd best <? snd x then max_item x d' else max_item best d'
  end.

(** [update_location_crowd_level(location)]; [t] is its reading of the
    clock. *)
Definition update_location_crowd_level (location_id : string) (t : DateTime)
  (db : DB) : DB :=
  let recent_reviews :=
    order_by_desc LocationReview.created_at
      (filter (fun r => (LocationReview.location r =? location_id)%string
                        && (t - timedelta_hours 2
                            <=? LocationReview.created_at r))
         (rows (reviews db))) in
  let crowd_counts :=
    fold_left (fun d r => count_level (LocationReview.crowd_level r) d)
      recent_reviews [] in
  match crowd_counts with
  | [] => db
  | x :: d =>
      let most_common_crowd := fst (max_item x d) in
      set_locations
        (Location.save_column location_id
           (Location.set_current_crowd_level most_common_crowd)
           (locations db)) db
  end.

Definition rating_in_range (n : Z) : bool := (1 <=? n) && (n <=? 10).

(** Action [submit_review].  An infinity or a NaN fails the comparison
    with the bounds, like a finite value outside them.  Clock: [now 1] is the
    time stamp of the review ([created_at], assigned on update and
    [auto_now_add] on insert), [now 2] the reading of
    [update_location_crowd_level]. *)
Definition submit_review (user : Z) (form : ReviewForm.t) (now : Clock)
  (db : DB) : DB * list Message :=
  let location_id := ReviewForm.location_id form in
  let crowd_level := ReviewForm.crowd_level form in
  let review_text := ReviewForm.review_text form in
  if negb (truthy location_id && sent (ReviewForm.wifi_rating form)
           && sent (ReviewForm.cleanliness_rating form)
           && sent (ReviewForm.noise_rating form) && truthy crowd_level)
  then (db, [(error, "Please fill in all required fields")])
  else
    match ReviewForm.wifi_rating form, ReviewForm.cleanliness_rating form,
          ReviewForm.noise_rating form, ReviewForm.general_rating form with
    | Parsed _, Parsed _, Parsed _, Parsed NotFinite =>
        (db, [(error, "Ratings must be between 1 and 10.")])
    | Parsed wifi_rating, Parsed cleanliness_rating, Parsed noise_rating,
      Parsed (Finite general_rating) =>
        if negb (rating_in_range wifi_rating
                 && rating_in_range cleanliness_rating
                 && rating_in_range noise_rating
                 && (Qle_bool (inject_Z 1) general_rating
                     && Qle_bool general_rating (inject_Z 10)))
        then (db, [(error, "Ratings must be between 1 and 10.")])
        else
          match get_object_or_404
                  (fun l => (Location.location_id l =? location_id)%string)
                  (locations db) with
          | None => (db, [(error, "Error submitting review")])
          | Some location =>
              let lid := Location.location_id location in
              let existing_review :=
                first (order_by_desc LocationReview.created_at
                         (filter (fun r => (LocationReview.user r =? user)
                                           && (LocationReview.location r
                                               =? lid)%string)
                            (rows (reviews db)))) in
              let '(table, msg) :=
                match existing_review with
                | Some r =>
                    let r' :=
                      LocationReview.mk (LocationReview.review_id r)
                        (LocationReview.user r) (LocationReview.location r)
                        wifi_rating cleanliness_rating noise_rating
                        general_rating (LocationReview.rating r) review_text
                        (LocationReview.review_category r) crowd_level
                        (now 1%nat) (LocationReview.is_verified r)
                        (LocationReview.helpfulness_score r) in
                    (with_rows (LocationReview.save r' (rows (reviews db)))
                       (reviews db),
                     (success, ("Review updated for "
                                ++ Location.location_name location)%string))
                | None =>
                    (snd (objects_create
                            (fun id =>
                               LocationReview.save_instance
                                 (LocationReview.mk id user lid wifi_rating
                                    cleanliness_rating noise_rating
                                    general_rating None review_text "general"
                                    crowd_level (now 1%nat) false 0))
                            (reviews db)),
                     (success, ("Review submitted for "
                                ++ Location.location_name location)%string))
                end in
              (update_location_crowd_level lid (now 2%nat)
                 (set_reviews table db),
               [msg])
          end
    | _, _, _, _ => (db, [(error, "Invalid rating values.")])
    end.

(** *** Events *)

(** The posted fields of [create_event]; the title and the description are
    the texts after [strip()]. *)
Module EventForm.

Record t : Type := mk {
  event_title : string;
  event_description : string;
  location_id : string;
  event_type : option string;
  max_participants : Posted Z;
  hours_from_now : Posted Z;
  duration_hours : Posted Z
}.

End EventForm.

(** [EventActivity.objects.create(user=..., event=..., activity_type=...)];
    [t] is the [auto_now_add] of [created_at]. *)
Definition log_activity (user : Z) (event : Event.t) (activity_type : string)
  (t : DateTime) (db : DB) : DB :=
  set_event_activities
    (snd (objects_create
            (fun id => EventActivity.mk id user (Event.event_id event)
                         activity_type t true)
            (event_activities db))) db.

(** [event.save()] on the database: the override, then the [UPDATE]. *)
Definition save_event (event : Event.t) (db : DB) : DB :=
  set_events (with_rows (Event.save event (rows (events db))) (events db)) db.

(** [get_object_or_404(Event, event_id=event_id, ...)] on the posted key;
    [extra] is the rest of the lookup. *)
Definition get_event (event_id : Posted Z) (extra : Event.t -> bool)
  (db : DB) : option Event.t :=
  match event_id with
  | Parsed id =>
      get_object_or_404 (fun e => (Event.event_id e =? id) && extra e)
        (rows (events db))
  | _ => None
  end.

(** Action [create_event].  An [OverflowError], from a [timedelta] or a
    date out of range or from a capacity the column does not take, ends in
    the handler's [except Exception] like the [Http404] of the location,
    before anything is written.  Clock: [now 1] is the reading the start is
    counted from, [now 2] the [auto_now_add] of the event and [now 3] that
    of the activity record. *)
Definition create_event (user : Z) (form : EventForm.t) (now : Clock)
  (db : DB) : DB * list Message :=
  let event_title := EventForm.event_title form in
  let location_id := EventForm.location_id form in
  let event_type :=
    match EventForm.event_type form with Some s => s | None => "social" end in
  if negb (truthy event_title && truthy location_id
           && sent (EventForm.max_participants form))
  then (db, [(error, "Please fill in all required fields")])
  else
    match or_default 1 (EventForm.hours_from_now form),
          or_default 2 (EventForm.duration_hours form),
          EventForm.max_participants form with
    | Parsed hours_from_now, Parsed duration_hours, Parsed max_participants =>
        if (hours_from_now <? 0) || (duration_hours <? 1)
           || (max_participants <? 1)
        then (db, [(error,
                    "Please enter valid numbers for timing and participants")])
        else
          match get_object_or_404
                  (fun l => (Location.location_id l =? location_id)%string)
                  (locations db) with
          | None => (db, [(error, "Error creating event")])
          | Some location =>
              let event_start := now 1%nat + timedelta_hours hours_from_now in
              let event_end := event_start + timedelta_hours duration_hours in
              if negb (timedelta_hours_ok hours_from_now
                       && datetime_ok event_start
                       && timedelta_hours_ok duration_hours
                       && datetime_ok event_end
                       && int64_ok max_participants)
              then (db, [(error, "Error creating event")])
              else
                let '(event, table) :=
                  objects_create
                    (fun id =>
                       Event.save_instance
                         (Event.mk id user (Location.location_id location)
                            event_type event_title
                            (EventForm.event_description form) event_start
                            event_end max_participants 1 [user] "active"
                            (now 2%nat) false false None [] false))
                    (events db) in
                (log_activity user event "created" (now 3%nat)
                   (set_events table db),
                 [(success, ("Event " ++ quoted event_title
                             ++ " created successfully!")%string)])
          end
    | _, _, _ =>
        (db, [(error,
               "Please enter valid numbers for timing and participants")])
    end.

(** Action [start_event].  Clock: [now 1] is [started_at], [now 2] the
    activity record. *)
Definition start_event (user : Z) (event_id : Posted Z) (now : Clock)
  (db : DB) : DB * list Message :=
  match get_event event_id (fun e => Event.organizer e =? user) db with
  | None => (db, [(error, "Error starting event")])
  | Some event =>
      if Event.is_started event then
        (db, [(info, "Event is already started")])
      else
        let event := Event.set_started (now 1%nat) event in
        (log_activity user event "started" (now 2%nat) (save_event event db),
         [(success, ("Event " ++ quoted (Event.event_title event)
                     ++ " started!")%string)])
  end.

(** Action [join_event].  Clock: [now 1] is the activity record. *)
Definition join_event (user : Z) (event_id : Posted Z) (now : Clock)
  (db : DB) : DB * list Message :=
  match get_event event_id (fun _ => true) db with
  | None => (db, [(error, "Error joining event")])
  | Some event =>
      if Event.participates user event then
        (db, [(info, "You are already participating in this event")])
      else if negb (Event.can_join event) then
        (db, [(error, "Event is full")])
      else
        let ids := Event.participant_user_ids event ++ [user] in
        let event :=
          Event.set_current_participants (Z.of_nat (List.length ids))
            (Event.set_participant_user_ids ids event) in
        (log_activity user event "joined" (now 1%nat) (save_event event db),
         [(success, ("You joined " ++ quoted (Event.event_title event)
                     ++ "!")%string)])
  end.

(** Action [leave_event].  Clock: [now 1] is the activity record. *)
Definition leave_event (user : Z) (event_id : Posted Z) (now : Clock)
  (db : DB) : DB * list Message :=
  match get_event event_id (fun _ => true) db with
  | None => (db, [(error, "Error leaving event")])
  | Some event =>
      if negb (Event.participates user event) then
        (db, [(info, "You are not participating in this event")])
      else if Event.organizer event =? user then
        (db, [(error,
               "Event organizer cannot leave. Cancel the event instead.")])
      else
        let ids := Event.list_remove user (Event.participant_user_ids event) in
        let event :=
          Event.set_current_participants (Z.of_nat (List.length ids))
            (Event.set_participant_user_ids ids event) in
        (log_activity user event "left" (now 1%nat) (save_event event db),
         [(success, ("You left " ++ quoted (Event.event_title event))%string)])
  end.

(** Action [cancel_event]: the activity record is written first.  Clock:
    [now 1] is the activity record. *)
Definition cancel_event (user : Z) (event_id : Posted Z) (now : Clock)
  (db : DB) : DB * list Message :=
  match get_event event_id (fun e => Event.organizer e =? user) db with
  | None => (db, [(error, "Error cancelling event")])
  | Some event =>
      let db := log_activity user event "cancelled" (now 1%nat) db in
      let event := Event.set_status "cancelled" event in
      (save_event event db,
       [(success, ("Event " ++ quoted (Event.event_title event)
                   ++ " cancelled")%string)])
  end.

(** *** Dispatch *)

(** The posted [action] with its fields.  [act_other] is any other value of
    [action], or none: no branch of the dispatcher takes it. *)
Inductive Action : Type :=
| act_share_location (location_id : string) (status_message : option string)
| act_stop_sharing
| act_submit_review (form : ReviewForm.t)
| act_dismiss_review_prompt
| act_create_event (form : EventForm.t)
| act_start_event (event_id : Posted Z)
| act_join_event (event_id : Posted Z)
| act_leave_event (event_id : Posted Z)
| act_cancel_event (event_id : Posted Z)
| act_logout
| act_other.

(** [dashboard(request)] on [POST], as far as the database and the messages
    go: the sweep with [now 0], then the action.  [logout(request)] ends the
    session and writes to none of the tables. *)
Definition dashboard_post (user : Z) (a : Action) (now : Clock) (db : DB)
  : DB * list Message :=
  let db := sweep_expired (now 0%nat) db in
  match a with
  | act_share_location location_id status_message =>
      share_location user location_id status_message now db
  | act_stop_sharing => fst (stop_sharing user now db)
  | act_submit_review form => submit_review user form now db
  | act_dismiss_review_prompt => (db, [])
  | act_create_event form => create_event user form now db
  | act_start_event event_id => start_event user event_id now db
  | act_join_event event_id => join_event user event_id now db
  | act_leave_event event_id => leave_event user event_id now db
  | act_cancel_event event_id => cancel_event user event_id now db
  | act_logout => (db, [(success, "You have been logged out successfully.")])
  | act_other => (db, [])
  end.

(** The review prompt of the session: [review_prompt_location_id] and
    [review_prompt_location_name], which the handlers set and delete
    together. *)
Definition Session : Type := option (string * string).

(** [request.session] after [dashboard(request)] on [POST]: [stop_sharing]
    sets the prompt when there was a current share, an accepted review of
    the location of the prompt and [dismiss_review_prompt] delete it, and
    [logout] flushes the session. *)
Definition dashboard_session (user : Z) (a : Action) (now : Clock) (db : DB)
  (session : Session) : Session :=
  let db := sweep_expired (now 0%nat) db in
  match a with
  | act_stop_sharing =>
      match snd (stop_sharing user now db) with
      | Some prompt => Some prompt
      | None => session
      end
  | act_submit_review form =>
      match snd (submit_review user form now db), session with
      | [(success, _)], Some (location_id, _) =>
          if (location_id =? ReviewForm.location_id form)%string then None
          else session
      | _, _ => session
      end
  | act_dismiss_review_prompt => None
  | act_logout => None
  | _ => session
  end.

(** The [friends_recent_shares] query of the dashboard; [cutoff] is
    [recent_cutoff] and [t] the reading of [expires_at__gt]. *)
Definition friends_recent_shares (user : Z) (cutoff t : DateTime) (db : DB)
  : list LocationShare.t :=
  let friends :=
    FriendshipManager.get_friends (rows (friendships db)) (users db) user in
  firstn 20
    (order_by_desc LocationShare.shared_at
       (filter (fun s => FriendshipManager.user_in (LocationShare.user s)
                           friends
                         && LocationShare.is_active s
                         && (t <? LocationShare.expires_at s)
                         && (cutoff <=? LocationShare.shared_at s))
          (rows (location_shares db)))).

(** [dashboard(request)] on [GET], as far as the shares of friends go: the
    sweep with [now 0], the cutoff from [now 1], the query with [now 2]. *)
Definition dashboard_get (user : Z) (now : Clock) (db : DB)
  : DB * list LocationShare.t :=
  let db := sweep_expired (now 0%nat) db in
  (db, friends_recent_shares user (now 1%nat - timedelta_hours 24)
         (now 2%nat) db).

(** ** Memories *)

(** The queryset of [memories_feed(request)] on [GET], before pagination. *)
Definition memories_feed (user : Z) (db : DB) : list Memory.t :=
  filter (fun m => negb (Memory.is_archived m))
    (MemoryManager.get_visible_memories (rows (memories db))
       (rows (friendships db)) (users db) user).

(** Action [archive_memory] of [my_memories(request)]. *)
Definition archive_memory (year_of : DateTime -> Z) (user : Z)
  (memory_id : Posted Z) (db : DB) : DB * list Message :=
  match memory_id with
  | Parsed id =>
      match get_object_or_404
              (fun m => (Memory.memory_id m =? id) && (Memory.user m =? user))
              (rows (memories db)) with
      | None => (db, [(error, "Error archiving memory")])
      | Some memory =>
          let memory :=
            MemorySave.set_is_archived (negb (Memory.is_archived memory))
              memory in
          let table :=
            MemorySave.save year_of [MemorySave.f_is_archived] memory
              (rows (memories db)) in
          let action_word :=
            if Memory.is_archived memory then "archived" else "restored" in
          (set_memories (with_rows table (memories db)) db,
           [(success, ("Memory " ++ quoted (Memory.memory_title memory)
                       ++ " " ++ action_word ++ "!")%string)])
      end
  | _ => (db, [(error, "Error archiving memory")])
  end.

(** * Further methods, queries and handlers *)

From Stdlib Require Import DecimalString.

(** [str(n)] of an [int]. *)
Definition str_int (n : Z) : string := NilZero.string_of_int (Z.to_int n).

(** The ['s' if n != 1 else ''] of the time displays. *)
Definition plural (n : Z) : string := if n =? 1 then "" else "s".

(** ** Differences of times *)

Definition day_us : Z := 86400 * 1000000.

(** [diff.days] and [diff.seconds] of a [timedelta] of [diff]
    microseconds: the seconds are those of the last, unfinished day. *)
Definition td_days (diff : Z) : Z := diff / day_us.

Definition td_seconds (diff : Z) : Z := (diff mod day_us) / 1000000.

(** ** Methods of LocationShare *)

Module LocationShareMethods.
Import LocationShare.

Definition is_expired (self : t) (now : DateTime) : bool :=
  expires_at self <? now.

Definition time_since_shared (self : t) (now : DateTime) : string :=
  let diff := now - shared_at self in
  if td_seconds diff <? 60 then "Just now"
  else if td_seconds diff <? 3600 then
    let minutes := td_seconds diff / 60 in
    (str_int minutes ++ " minute" ++ plural minutes ++ " ago")%string
  else if td_days diff <? 1 then
    let hours := td_seconds diff / 3600 in
    (str_int hours ++ " hour" ++ plural hours ++ " ago")%string
  else
    (str_int (td_days diff) ++ " day" ++ plural (td_days diff)
     ++ " ago")%string.

End LocationShareMethods.

(** ** Methods of Memory *)

Module MemoryMethods.
Import Memory.

Definition can_delete (self : t) (viewer : RequestUser) : bool :=
  can_edit self viewer.

Definition is_liked_by (self : t) (viewer : RequestUser) : bool :=
  match viewer with
  | AnonymousUser => false
  | AuthUser id => existsb (Z.eqb id) (liked_by_user_ids self)
  end.

(** [toggle_like(self, user)] on the memory table: the answer, the instance
    as the method leaves it, and the table. *)
Definition toggle_like (year_of : DateTime -> Z) (self : t)
  (viewer : RequestUser) (table : list t) : bool * t * list t :=
  match viewer with
  | AnonymousUser => (false, self, table)
  | AuthUser user_id =>
      let '(self, is_liked) :=
        if existsb (Z.eqb user_id) (liked_by_user_ids self) then
          (MemorySave.set_likes_count (Z.max 0 (likes_count self - 1))
             (MemorySave.set_liked_by_user_ids
                (Event.list_remove user_id (liked_by_user_ids self)) self),
           false)
        else
          (MemorySave.set_likes_count (likes_count self + 1)
             (MemorySave.set_liked_by_user_ids
                (liked_by_user_ids self ++ [user_id]) self),
           true) in
      (is_liked, MemorySave.save_instance year_of self,
       MemorySave.save year_of
         [MemorySave.f_liked_by_user_ids; MemorySave.f_likes_count] self
         table)
  end.


(** [get_visibility_display()]: the label of the choice, or the value when
    it is no choice. *)
Definition get_visibility_display (self : t) : string :=
  if (visibility self =? "public")%string then "Public"
  else if (visibility self =? "friends")%string then "Friends Only"
  else if (visibility self =? "private")%string then "Private"
  else visibility self.

End MemoryMethods.

(** ** The other queries of MemoryManager *)

Module MemoryQueries.
Import Memory.

Definition get_user_memories (self : list t) (user : Z) : list t :=
  order_by_desc creation_date
    (filter (fun m => (Memory.user m =? user) && negb (is_archived m)) self).

Definition get_public_memories_for_location (self : list t)
  (location : string) : list t :=
  order_by_desc creation_date
    (filter (fun m => (Memory.location m =? location)%string
                      && (visibility m =? "public")%string
                      && negb (is_archived m)
                      && ((media_type m =? "image")%string
                          || (media_type m =? "video")%string))
       self).

Definition get_featured_memories (self : list t) : list t :=
  order_by_desc creation_date
    (filter (fun m => is_featured m && (visibility m =? "public")%string
                      && negb (is_archived m))
       self).

End MemoryQueries.

(** ** The views of friendships *)

(** [friend_requests(request)]: the pending requests received and sent. *)
Definition friend_requests (user : Z) (db : DB)
  : list Friendship.t * list Friendship.t :=
  (filter (fun f => (Friendship.user2 f =? user)
                    && (Friendship.status f =? "pending")%string)
     (rows (friendships db)),
   filter (fun f => (Friendship.user1 f =? user)
                    && (Friendship.status f =? "pending")%string)
     (rows (friendships db))).

(** [friends_list(request)]. *)
Definition friends_list (user : Z) (db : DB) : list User.t :=
  FriendshipManager.get_friends (rows (friendships db)) (users db) user.

(** ** More of the dashboard *)

(** The binary float nearest to a rational, as the rational it is: 53
    significant bits, a tie going to the even significand; below the
    normal range the spacing stays at [2 ^ -1074].  The sums and means of
    64-bit integers stay far below the largest float, so no infinity is
    provided for.  [binade x] is the exponent [e] with
    [2 ^ e <= |x| < 2 ^ (e + 1)]. *)
Definition binade (x : Q) : Z :=
  let a := Z.abs (Qnum x) in
  let b := Zpos (Qden x) in
  let e := Z.log2 a - Z.log2 b in
  if Qle_bool (Qpower 2 e) (Qabs x) then e else e - 1.

Definition binary64 (x : Q) : Q :=
  if Qeq_bool x 0 then 0%Q
  else
    let s := Z.max (binade x - 52) (- 1074) in
    (inject_Z (round_half_even (x / Qpower 2 s)) * Qpower 2 s)%Q.

(** The ratings that are set, in the order of the table. *)
Definition ratings_set (l : list LocationReview.t) : list Z :=
  flat_map (fun r => match LocationReview.rating r with
                     | Some x => [x]
                     | None => []
                     end) l.

(** [aggregate(Avg('rating'))]: SQLite adds the values that are set one by
    one to a float and divides by their number, in floating point; [None]
    when none is set. *)
Definition Avg (xs : list Z) : option Q :=
  match xs with
  | [] => None
  | _ =>
      let rSum :=
        fold_left (fun acc v => binary64 (acc + binary64 (inject_Z v))) xs
          0%Q in
      let cnt := binary64 (inject_Z (Z.of_nat (List.length xs))) in
      Some (binary64 (rSum / cnt))
  end.

(** The review statistics of the dashboard: [user_review_count], and
    [user_avg_rating] as the context shows it, [round(x, 1)] rounding the
    value of the float [x] to the nearest tenth. *)
Definition user_review_stats (user : Z) (db : DB) : Z * Q :=
  let user_reviews :=
    filter (fun r => LocationReview.user r =? user) (rows (reviews db)) in
  let user_avg_rating :=
    match Avg (ratings_set user_reviews) with
    | Some q => if Qeq_bool q 0 then 0%Q else q
    | None => 0%Q
    end in
  (Z.of_nat (List.length user_reviews),
   if Qeq_bool user_avg_rating 0 then 0%Q else py_round1 user_avg_rating).

(** ** More of the memory views *)

(** What [memories_feed] answers to a like: a redirect with its messages,
    or the JSON of an [XMLHttpRequest]. *)
Inductive LikeResponse : Type :=
| like_redirect (msgs : list Message)
| like_json (liked : bool) (likes_count : Z).

(** Action [toggle_like] of [memories_feed(request)]; [xhr] says whether
    the header [X-Requested-With] is [XMLHttpRequest]. *)
Definition toggle_like_action (year_of : DateTime -> Z) (user : Z)
  (memory_id : Posted Z) (xhr : bool) (db : DB) : DB * LikeResponse :=
  match memory_id with
  | Parsed id =>
      match get_object_or_404 (fun m => Memory.memory_id m =? id)
              (rows (memories db)) with
      | None => (db, like_redirect [(error, "Error processing like")])
      | Some memory =>
          if Memory.can_view (rows (friendships db)) memory (AuthUser user)
          then
            let '(is_liked, memory, table) :=
              MemoryMethods.toggle_like year_of memory (AuthUser user)
                (rows (memories db)) in
            let db := set_memories (with_rows table (memories db)) db in
            if xhr then (db, like_json is_liked (Memory.likes_count memory))
            else (db, like_redirect
                        [(success, if is_liked then "Memory liked!"
                                   else "Like removed")])
          else (db, like_redirect [(error, "You cannot like this memory")])
      end
  | _ => (db, like_redirect [(error, "Error processing like")])
  end.

(** Action [delete_memory] of [my_memories(request)], as far as the
    database goes: the stored file is the storage's. *)
Definition delete_memory (user : Z) (memory_id : Posted Z) (db : DB)
  : DB * list Message :=
  match memory_id with
  | Parsed id =>
      match get_object_or_404
              (fun m => (Memory.memory_id m =? id) && (Memory.user m =? user))
              (rows (memories db)) with
      | None => (db, [(error, "Error deleting memory")])
      | Some memory =>
          (set_memories
             (with_rows
                (filter (fun m => negb (Memory.memory_id m
                                        =? Memory.memory_id memory))
                   (rows (memories db)))
                (memories db)) db,
           [(success, ("Memory " ++ quoted (Memory.memory_title memory)
                       ++ " deleted successfully!")%string)])
      end
  | _ => (db, [(error, "Error deleting memory")])
  end.

(** [new_visibility in dict(Memory.VISIBILITY_CHOICES)]. *)
Definition visibility_choice (v : option string) : bool :=
  match v with
  | Some s => (s =? "public")%string || (s =? "friends")%string
              || (s =? "private")%string
  | None => false
  end.

(** Action [update_visibility] of [my_memories(request)]. *)
Definition update_visibility (year_of : DateTime -> Z) (user : Z)
  (memory_id : Posted Z) (new_visibility : option string) (db : DB)
  : DB * list Message :=
  match memory_id with
  | Parsed id =>
      match get_object_or_404
              (fun m => (Memory.memory_id m =? id) && (Memory.user m =? user))
              (rows (memories db)) with
      | None => (db, [(error, "Error updating visibility")])
      | Some memory =>
          match new_visibility with
          | Some v =>
              if visibility_choice new_visibility then
                let memory := MemorySave.set_visibility v memory in
                (set_memories
                   (with_rows
                      (MemorySave.save year_of [MemorySave.f_visibility]
                         memory (rows (memories db)))
                      (memories db)) db,
                 [(success,
                   ("Memory visibility updated to "
                    ++ MemoryMethods.get_visibility_display memory
                    ++ "!")%string)])
              else (db, [(error, "Invalid visibility option")])
          | None => (db, [(error, "Invalid visibility option")])
          end
      end
  | _ => (db, [(error, "Error updating visibility")])
  end.

(** The listing of [my_memories(request)] on [GET], before pagination. *)
Definition my_memories_list (user : Z) (show_archived : bool) (db : DB)
  : list Memory.t :=
  if show_archived then
    order_by_desc Memory.creation_date
      (filter (fun m => Memory.user m =? user) (rows (memories db)))
  else MemoryQueries.get_user_memories (rows (memories db)) user.

(** [memory_stats] of [my_memories(request)]. *)
Record MemoryStats : Type := mkStats {
  total_memories : Z;
  total_likes : Z;
  archived_count : Z;
  active_count : Z
}.

Definition memory_stats (user : Z) (db : DB) : MemoryStats :=
  let own := filter (fun m => Memory.user m =? user) (rows (memories db)) in
  let total := Z.of_nat (List.length own) in
  let archived :=
    Z.of_nat (List.length (filter Memory.is_archived own)) in
  mkStats total (fold_right Z.add 0 (map Memory.likes_count own)) archived
    (total - archived).

(** [memory_detail_ajax(request)]: the database and the status of the
    answer; the JSON body, a projection of the memory, is left out. *)
Definition memory_detail_ajax (year_of : DateTime -> Z) (user : Z)
  (memory_id : Posted Z) (db : DB) : DB * Z :=
  match memory_id with
  | Parsed id =>
      match get_object_or_404 (fun m => Memory.memory_id m =? id)
              (rows (memories db)) with
      | None => (db, 500)
      | Some memory =>
          if negb (Memory.can_view (rows (friendships db)) memory
                     (AuthUser user))
          then (db, 403)
          else
            let memory :=
              MemorySave.set_view_count (Memory.view_count memory + 1)
                memory in
            (set_memories
               (with_rows
                  (MemorySave.save year_of [MemorySave.f_view_count] memory
                     (rows (memories db)))
                  (memories db)) db,
             200)
      end
  | _ => (db, 500)
  end.

(** * Invariants and sample data *)

(** Keys handed out by a table are below its counter. *)
Definition keys_below {A : Type} (pk : A -> Z) (t : Table A) : Prop :=
  forall r, In r (rows t) -> pk r < next_id t.

(** No friendship row links [a] and [b], in either order. *)
Definition unrelated (db : DB) (a b : Z) : Prop :=
  forall f, In f (rows (friendships db)) ->
    ~ (Friendship.user1 f = a /\ Friendship.user2 f = b) /\
    ~ (Friendship.user1 f = b /\ Friendship.user2 f = a).

Definition demo_users : list User.t :=
  [User.mk 1 "ann"; User.mk 2 "bob"; User.mk 3 "cy"].

Definition demo_locations : list Location.t :=
  [Location.mk "P01_A" "Pillar 1" true 0 "light"].

Definition empty_db : DB :=
  mkDB demo_users demo_locations (mkTable [] 1) (mkTable [] 1) (mkTable [] 1)
       (mkTable [] 1) (mkTable [] 1) (mkTable [] 1).

Definition demo_clock : Clock := fun n => 1000 + Z.of_nat n.

Definition private_note : Memory.t :=
  Memory.mk 1 1 "P01_A" 500 "Exam week" "Notes" None "none" "private" false
    false [] None 0 [] 0 500.

(** The shares of [u] the stored flag calls active. *)
Definition active_of (u : Z) (s : LocationShare.t) : bool :=
  (LocationShare.user s =? u) && LocationShare.is_active s.


(** The organizer is in the roster, and the stored count is its length. *)
Definition event_inv (e : Event.t) : Prop :=
  In (Event.organizer e) (Event.participant_user_ids e)
  /\ Event.current_participants e
     = Z.of_nat (List.length (Event.participant_user_ids e)).

(** The databases the dashboard produces from one without events. *)
Inductive reachable : DB -> Prop :=
| reach_init (db : DB) : rows (events db) = [] -> reachable db
| reach_step (db : DB) (user : Z) (a : Action) (now : Clock) :
    reachable db -> reachable (fst (dashboard_post user a now db)).

(** The conditions under which [create_event] creates an event: a title,
    the key of a location, [h] hours from now, [d] hours of duration and
    room for [m], none of them beyond what a [timedelta], a [datetime] or
    the column takes. *)
Definition event_form_valid (form : EventForm.t) (now : Clock) (db : DB)
  (h d m : Z) : Prop :=
  EventForm.event_title form <> ""
  /\ EventForm.location_id form <> ""
  /\ (exists l, In l (locations db)
                /\ Location.location_id l = EventForm.location_id form)
  /\ or_default 1 (EventForm.hours_from_now form) = Parsed h
  /\ or_default 2 (EventForm.duration_hours form) = Parsed d
  /\ EventForm.max_participants form = Parsed m
  /\ 0 <= h < 24 * 1000000000
  /\ 1 <= d < 24 * 1000000000
  /\ 1 <= m < 2 ^ 63
  /\ datetime_min <= now 1%nat + timedelta_hours h
  /\ now 1%nat + timedelta_hours h + timedelta_hours d <= datetime_max.

(** The event [create_event] stores for [user] from a valid form. *)
Definition created_event (user : Z) (form : EventForm.t) (now : Clock)
  (db : DB) (h d m : Z) : Event.t :=
  Event.mk (next_id (events db)) user (EventForm.location_id form)
    (match EventForm.event_type form with Some s => s | None => "social" end)
    (EventForm.event_title form) (EventForm.event_description form)
    (now 1%nat + timedelta_hours h)
    (now 1%nat + timedelta_hours h + timedelta_hours d) m 1 [user] "active"
    (now 2%nat) false false None [] false.

(** The stored count of an event is the length of its roster. *)
Definition count_is_length (e : Event.t) : Prop :=
  Event.current_participants e
  = Z.of_nat (List.length (Event.participant_user_ids e)).

Definition study_group : EventForm.t :=
  EventForm.mk "Study" "Algebra" "P01_A" None (Parsed 2) Absent Absent.

(** Users 1 and then 2 in an event for two. *)
Definition full_event_db : DB :=
  fst (dashboard_post 2 (act_join_event (Parsed 1)) demo_clock
         (fst (dashboard_post 1 (act_create_event study_group) demo_clock
                 empty_db))).

(** An event of user 1 whose stored roster names user 2 alone, as a row
    written past the model's [save] would be. *)
Definition orphaned_event : Event.t :=
  Event.mk 1 1 "P01_A" "social" "Chess" "Blitz" 5000 9000 4 1 [2] "active"
    900 false false None [] false.

Definition orphaned_db : DB :=
  mkDB demo_users demo_locations (mkTable [] 1) (mkTable [] 1)
       (mkTable [orphaned_event] 2) (mkTable [] 1) (mkTable [] 1)
       (mkTable [] 1).

(** Every memory has its author in the user table (the foreign key). *)
Definition authors_exist (db : DB) : Prop :=
  forall m, In m (rows (memories db)) ->
    exists U, In U (users db) /\ User.id U = Memory.user m.

(** [author] is the viewer or one of the viewer's friends. *)
Definition close_to (db : DB) (viewer author : Z) : Prop :=
  author = viewer
  \/ FriendshipManager.are_friends (rows (friendships db)) author viewer
     = true.

(** The feed as the union of three sets in which only the first two leave
    the archived memories out. *)
Definition feed_union_private_unfiltered (db : DB) (viewer : Z)
  (m : Memory.t) : Prop :=
  In m (rows (memories db))
  /\ ((Memory.visibility m = "public" /\ Memory.is_archived m = false)
      \/ (Memory.visibility m = "friends" /\ Memory.is_archived m = false
          /\ close_to db viewer (Memory.user m))
      \/ (Memory.visibility m = "private" /\ Memory.user m = viewer)).

(** The same union with the archived memories left out of all three. *)
Definition feed_union (db : DB) (viewer : Z) (m : Memory.t) : Prop :=
  In m (rows (memories db))
  /\ Memory.is_archived m = false
  /\ (Memory.visibility m = "public"
      \/ (Memory.visibility m = "friends"
          /\ close_to db viewer (Memory.user m))
      \/ (Memory.visibility m = "private" /\ Memory.user m = viewer)).

(** [a] may come before [b] in a list ordered by [key], largest first. *)
Definition descending {A : Type} (key : A -> Z) (a b : A) : Prop :=
  key b <= key a.

(** Newest first. *)
Definition newer_or_same : Memory.t -> Memory.t -> Prop :=
  descending Memory.creation_date.

Definition archived_private_note : Memory.t :=
  Memory.mk 1 1 "P01_A" 500 "Exam week" "Notes" None "none" "private" true
    false [] (Some 2024) 0 [] 0 600.

Definition archive_db : DB :=
  mkDB demo_users demo_locations (mkTable [] 1) (mkTable [] 1) (mkTable [] 1)
       (mkTable [] 1) (mkTable [archived_private_note] 2) (mkTable [] 1).

Definition friends_db : DB :=
  mkDB demo_users demo_locations (mkTable [] 1)
       (mkTable [Friendship.mk 1 1 2 "accepted" 100 (Some 200)] 2)
       (mkTable [] 1) (mkTable [] 1)
       (mkTable [Memory.mk 1 1 "P01_A" 500 "Exam week" "Notes" None "none"
                   "friends" false false [] (Some 2024) 0 [] 0 500;
                 Memory.mk 2 3 "P01_A" 700 "Graduation" "Hats" None "none"
                   "public" false false [] (Some 2024) 0 [] 0 700] 3)
       (mkTable [] 1).

(** The reviews of user [u] for location [l]. *)
Definition review_of (u : Z) (l : string) (r : LocationReview.t) : bool :=
  (LocationReview.user r =? u) && (LocationReview.location r =? l)%string.

(** A review table as the database keeps it: distinct keys below the
    counter, and at most one row per user and location
    ([unique_together]). *)
Definition reviews_wf (t : Table LocationReview.t) : Prop :=
  NoDup (map LocationReview.review_id (rows t))
  /\ keys_below LocationReview.review_id t
  /\ forall u l, (List.length (filter (review_of u l) (rows t)) <= 1)%nat.

(** The mean of the three sub-ratings. *)
Definition mean3 (w c n : Z) : Q := (inject_Z (w + c + n) / inject_Z 3)%Q.

(** [g] is a whole number of tenths within half a tenth of [x]. *)
Definition nearest_tenth (x g : Q) : Prop :=
  (exists t : Z, g == inject_Z t / inject_Z 10)%Q
  /\ (Qabs (g - x) <= 1 # 20)%Q.

(** The row a review accepted from [form] leaves: the posted sub-ratings,
    crowd level and text. *)
Definition carries (form : ReviewForm.t) (r : LocationReview.t) : Prop :=
  ReviewForm.wifi_rating form = Parsed (LocationReview.wifi_rating r)
  /\ ReviewForm.cleanliness_rating form
     = Parsed (LocationReview.cleanliness_rating r)
  /\ ReviewForm.noise_rating form = Parsed (LocationReview.noise_rating r)
  /\ LocationReview.crowd_level r = ReviewForm.crowd_level form
  /\ LocationReview.review_text r = ReviewForm.review_text form
  /\ LocationReview.general_rating r
     = py_round1 (mean3 (LocationReview.wifi_rating r)
                    (LocationReview.cleanliness_rating r)
                    (LocationReview.noise_rating r)).

Definition first_review : ReviewForm.t :=
  ReviewForm.mk "P01_A" (Parsed 7) (Parsed 8) (Parsed 8)
    (Parsed (Finite (2 # 1))) "heavy" "Crowded".

Definition second_review : ReviewForm.t :=
  ReviewForm.mk "P01_A" (Parsed 1) (Parsed 1) (Parsed 2)
    (Parsed (Finite (9 # 1))) "light" "Quiet now".

(** Two memories that differ at most in [is_archived] and
    [last_modified]. *)
Definition same_but_archived (a b : Memory.t) : Prop :=
  Memory.memory_id a = Memory.memory_id b
  /\ Memory.user a = Memory.user b
  /\ Memory.location a = Memory.location b
  /\ Memory.creation_date a = Memory.creation_date b
  /\ Memory.memory_title a = Memory.memory_title b
  /\ Memory.description a = Memory.description b
  /\ Memory.media_file a = Memory.media_file b
  /\ Memory.media_type a = Memory.media_type b
  /\ Memory.visibility a = Memory.visibility b
  /\ Memory.is_featured a = Memory.is_featured b
  /\ Memory.tags a = Memory.tags b
  /\ Memory.year_created a = Memory.year_created b
  /\ Memory.likes_count a = Memory.likes_count b
  /\ Memory.liked_by_user_ids a = Memory.liked_by_user_ids b
  /\ Memory.view_count a = Memory.view_count b.

(** The memory table where the row [m] gives way to [m']. *)
Definition replaced (m m' : Memory.t) (l l' : list Memory.t) : Prop :=
  exists l1 l2, l = l1 ++ m :: l2 /\ l' = l1 ++ m' :: l2.

(** A stand-in for [datetime.year]: years of 365 days. *)
Definition demo_year (t : DateTime) : Z :=
  1970 + t / (365 * 24 * 3600 * 1000000).

(** * Further invariants and sample data *)

(** The friendship [f] links [a] and [b], in either order. *)
Definition links (a b : Z) (f : Friendship.t) : bool :=
  (Friendship.user1 f =? a) && (Friendship.user2 f =? b)
  || (Friendship.user1 f =? b) && (Friendship.user2 f =? a).

(** A friendship table as the handlers keep it: distinct keys below the
    counter, and at most one relation per pair of users. *)
Definition friendships_wf (t : Table Friendship.t) : Prop :=
  NoDup (map Friendship.friendship_id (rows t))
  /\ keys_below Friendship.friendship_id t
  /\ forall a b, (List.length (filter (links a b) (rows t)) <= 1)%nat.

(** Users 1 and 2 are friends, user 3 has asked user 1. *)
Definition social_db : DB :=
  mkDB demo_users demo_locations (mkTable [] 1)
       (mkTable [Friendship.mk 1 1 2 "accepted" 100 (Some 200);
                 Friendship.mk 2 3 1 "pending" 300 None] 3)
       (mkTable [] 1) (mkTable [] 1) (mkTable [] 1) (mkTable [] 1).

(** User 2, a friend of user 1, is sharing at the pillar; user 3 has a
    share that was stopped. *)
Definition sharing_db : DB :=
  mkDB demo_users demo_locations
       (mkTable [LocationShare.mk 1 3 "P01_A" 900 15000 false "all_friends"
                   "busy" "check_in";
                 LocationShare.mk 2 2 "P01_A" 1000 20000 true "all_friends"
                   "studying" "check_in"] 3)
       (mkTable [Friendship.mk 1 1 2 "accepted" 100 (Some 200);
                 Friendship.mk 2 3 1 "pending" 300 None] 3)
       (mkTable [] 1) (mkTable [] 1) (mkTable [] 1) (mkTable [] 1).

(** User 2, a friend of user 1, has a share that ran out at 500 and is
    still flagged active, and a current one. *)
Definition stale_db : DB :=
  mkDB demo_users demo_locations
       (mkTable [LocationShare.mk 1 2 "P01_A" 100 500 true "all_friends"
                   "busy" "check_in";
                 LocationShare.mk 2 2 "P01_A" 900 20000 true "all_friends"
                   "studying" "check_in"] 3)
       (mkTable [Friendship.mk 1 1 2 "accepted" 100 (Some 200)] 2)
       (mkTable [] 1) (mkTable [] 1) (mkTable [] 1) (mkTable [] 1).

(** The roster of an event names nobody twice and fits the capacity. *)
Definition roster_ok (e : Event.t) : Prop :=
  NoDup (Event.participant_user_ids e)
  /\ Z.of_nat (List.length (Event.participant_user_ids e))
     <= Event.max_participants e.


(** One event for three, created by user 1. *)
Definition trio : EventForm.t :=
  EventForm.mk "Trio" "Chamber music" "P01_A" None (Parsed 3) Absent Absent.

Definition trio_db : DB :=
  fst (dashboard_post 1 (act_create_event trio) demo_clock empty_db).

(** [l'] is [l] with at most one more row at its end. *)
Definition grown_by_at_most_one {A : Type} (l l' : list A) : Prop :=
  l' = l \/ exists x, l' = l ++ [x].

(** The reviews of [l] that report the crowd level [c]. *)
Definition level_count (c : string) (l : list LocationReview.t) : nat :=
  List.length (filter (fun r => (LocationReview.crowd_level r =? c)%string) l).

(** The reviews [update_location_crowd_level] looks at. *)
Definition recent_reviews_of (location_id : string) (t : DateTime) (db : DB)
  : list LocationReview.t :=
  filter (fun r => (LocationReview.location r =? location_id)%string
                   && (t - timedelta_hours 2 <=? LocationReview.created_at r))
    (rows (reviews db)).

(** Three reviews of the pillar in the last hour: two report a heavy
    crowd, one a light one. *)
Definition crowd_db : DB :=
  mkDB demo_users demo_locations (mkTable [] 1) (mkTable [] 1) (mkTable [] 1)
       (mkTable [] 1) (mkTable [] 1)
       (mkTable [LocationReview.mk 1 1 "P01_A" 7 8 8 (77 # 10) None "" "general"
                   "light" 700 false 0;
                 LocationReview.mk 2 2 "P01_A" 5 5 5 (5 # 1) None "" "general"
                   "heavy" 800 false 0;
                 LocationReview.mk 3 3 "P01_A" 4 4 4 (4 # 1) None "" "general"
                   "heavy" 900 false 0] 4).

(** [d.get(k, 0)] on a dictionary kept as a list. *)
Definition dict_get (k : string) (d : list (string * Z)) : Z :=
  match find (fun x => (fst x =? k)%string) d with
  | Some x => snd x
  | None => 0
  end.

(** The conditions under which [submit_review] accepts a form. *)
Definition review_acceptable (form : ReviewForm.t) (db : DB) : Prop :=
  ReviewForm.location_id form <> ""
  /\ ReviewForm.crowd_level form <> ""
  /\ (exists l, In l (locations db)
                /\ Location.location_id l = ReviewForm.location_id form)
  /\ exists w c n g,
       ReviewForm.wifi_rating form = Parsed w
       /\ ReviewForm.cleanliness_rating form = Parsed c
       /\ ReviewForm.noise_rating form = Parsed n
       /\ ReviewForm.general_rating form = Parsed (Finite g)
       /\ 1 <= w <= 10 /\ 1 <= c <= 10 /\ 1 <= n <= 10
       /\ (1 <= g)%Q /\ (g <= 10)%Q.

(** A form whose crowd level is none of the three choices. *)
Definition odd_review : ReviewForm.t :=
  ReviewForm.mk "P01_A" (Parsed 10) (Parsed 10) (Parsed 10)
    (Parsed (Finite (1 # 1))) "packed" "".

(** The sums three sub-ratings from 1 to 10 can have. *)
Definition rating_sums : list Z := map Z.of_nat (seq 3 28).

(** [q] is a rating from 1 to 10. *)
Definition rating_bounds (q : Q) : bool :=
  Qle_bool (inject_Z 1) q && Qle_bool q (inject_Z 10).

(** A review instance that comes with an overall rating of 99. *)
Definition overrated_review : LocationReview.t :=
  LocationReview.mk 1 1 "P01_A" 7 8 8 (99 # 1) None "" "general" "heavy"
    1000 false 0.

(** Twenty reviews of user 1, of as many places, with the legacy rating
    set: nine times 3 and eleven times 2, a mean of 2.45. *)
Definition rated_db : DB :=
  mkDB demo_users demo_locations (mkTable [] 1) (mkTable [] 1) (mkTable [] 1)
       (mkTable [] 1) (mkTable [] 1)
       (mkTable
          (map (fun i =>
                  LocationReview.mk i 1 ("L" ++ str_int i)%string 5 5 5 (5 # 1)
                    (Some (if i <=? 9 then 3 else 2)) "" "general" "light"
                    (100 + i) false 0)
             (map Z.of_nat (seq 1 20)))
          21).

(** The like counter of a memory agrees with its list of likers, which
    names nobody twice. *)
Definition likes_consistent (m : Memory.t) : Prop :=
  Memory.likes_count m = Z.of_nat (List.length (Memory.liked_by_user_ids m))
  /\ NoDup (Memory.liked_by_user_ids m).

(** The memory [m] with the list of likers [l] and the counter [n]. *)
Definition with_likes (l : list Z) (n : Z) (m : Memory.t) : Memory.t :=
  MemorySave.set_likes_count n (MemorySave.set_liked_by_user_ids l m).

(** A friends-only memory of user 1 that user 2 likes, and a private memory
    of user 3. *)
Definition liked_db : DB :=
  mkDB demo_users demo_locations (mkTable [] 1)
       (mkTable [Friendship.mk 1 1 2 "accepted" 100 (Some 200)] 2)
       (mkTable [] 1) (mkTable [] 1)
       (mkTable [Memory.mk 1 1 "P01_A" 500 "Exam week" "Notes" None "none"
                   "friends" false false [] (Some 2024) 1 [2] 0 500;
                 Memory.mk 2 3 "P01_A" 700 "Diary" "Mine" None "none"
                   "private" false true [] (Some 2024) 0 [] 0 700] 3)
       (mkTable [] 1).

(** * Properties *)
(** ** Lists *)

Section ListFacts.
Context {A : Type}.

Lemma filter_none (p : A -> bool) (l : list A) :
  (forall x, In x l -> p x = false) -> filter p l = [].
Proof.
  induction l as [|a l IH]; simpl; intros H; [reflexivity|].
  rewrite (H a (or_introl eq_refl)). apply IH.
  intros x Hx. apply H. right. exact Hx.
Qed.

Lemma find_skip (p : A -> bool) (l l' : list A) :
  (forall x, In x l -> p x = false) -> find p (l ++ l') = find p l'.
Proof.
  induction l as [|a l IH]; simpl; intros H; [reflexivity|].
  rewrite (H a (or_introl eq_refl)). apply IH.
  intros x Hx. apply H. right. exact Hx.
Qed.

Lemma find_present (p : A -> bool) (l : list A) (x : A) :
  In x l -> p x = true -> exists y, find p l = Some y.
Proof.
  intros Hin Hp. destruct (find p l) as [y|] eqn:E; [exists y; reflexivity|].
  rewrite (find_none p l E x Hin) in Hp. discriminate.
Qed.

Lemma map_unchanged (f : A -> A) (l : list A) :
  (forall x, In x l -> f x = x) -> map f l = l.
Proof.
  induction l as [|a l IH]; simpl; intros H; [reflexivity|].
  rewrite (H a (or_introl eq_refl)). f_equal. apply IH.
  intros x Hx. apply H. right. exact Hx.
Qed.

Lemma filter_length_bound (p : A -> bool) (l : list A) :
  (List.length (filter p l) <= List.length l)%nat.
Proof.
  induction l as [|a l IH]; simpl; [lia|]. destruct (p a); simpl; lia.
Qed.

Lemma filter_and (p q : A -> bool) (l : list A) :
  filter (fun x => p x && q x) l = filter q (filter p l).
Proof.
  induction l as [|a l IH]; simpl; [reflexivity|].
  destruct (p a); simpl; [destruct (q a)|]; rewrite IH; reflexivity.
Qed.

Lemma NoDup_app_fresh {B : Type} (l : list B) (x : B) :
  NoDup l -> ~ In x l -> NoDup (l ++ [x]).
Proof.
  intros Hl Hx. apply NoDup_rev in Hl. rewrite <- (rev_involutive (l ++ [x])).
  apply NoDup_rev. rewrite rev_app_distr. simpl. constructor; [|exact Hl].
  intros H. apply Hx. apply in_rev. exact H.
Qed.

End ListFacts.

(** A list with distinct keys splits around a row in one way. *)
Lemma NoDup_split_unique {A : Type} (pk : A -> Z) (x : A)
  (l1 l2 k1 k2 : list A) :
  NoDup (map pk (l1 ++ x :: l2)) ->
  l1 ++ x :: l2 = k1 ++ x :: k2 ->
  k1 = l1 /\ k2 = l2.
Proof.
  revert k1. induction l1 as [|a l1 IH]; intros k1 Hnd E.
  - destruct k1 as [|b k1]; simpl in E.
    + injection E as <-. auto.
    + injection E as <- E. exfalso. simpl in Hnd.
      inversion Hnd as [|? ? Hni _]; subst. apply Hni. apply in_map.
      apply in_or_app. right. left. reflexivity.
  - destruct k1 as [|b k1]; simpl in E.
    + injection E as -> E. exfalso. simpl in Hnd.
      inversion Hnd as [|? ? Hni _]; subst. apply Hni. apply in_map.
      apply in_or_app. right. left. reflexivity.
    + injection E as <- E. simpl in Hnd. inversion Hnd; subst.
      destruct (IH k1) as [-> ->]; auto.
Qed.


(** ** Ordering *)

Lemma insert_desc_perm {A : Type} (key : A -> Z) (a : A) (l : list A) :
  Permutation (insert_desc key a l) (a :: l).
Proof.
  induction l as [|b l IH]; simpl; [apply Permutation_refl|].
  destruct (key b <=? key a); [apply Permutation_refl|].
  apply perm_trans with (b :: a :: l); [|apply perm_swap].
  apply perm_skip. exact IH.
Qed.

Lemma order_by_desc_perm {A : Type} (key : A -> Z) (l : list A) :
  Permutation (order_by_desc key l) l.
Proof.
  induction l as [|a l IH]; simpl; [apply perm_nil|].
  apply perm_trans with (a :: order_by_desc key l);
    [apply insert_desc_perm | apply perm_skip; exact IH].
Qed.

Lemma order_by_desc_In {A : Type} (key : A -> Z) (l : list A) (x : A) :
  In x (order_by_desc key l) <-> In x l.
Proof.
  split; apply Permutation_in;
    [apply order_by_desc_perm | apply Permutation_sym, order_by_desc_perm].
Qed.

Lemma firstn_subset {A : Type} (n : nat) (l : list A) (x : A) :
  In x (firstn n l) -> In x l.
Proof.
  revert l. induction n as [|n IH]; intros [|a l]; simpl; try tauto.
  intros [H | H]; [left; exact H | right; apply IH; exact H].
Qed.

Section Ordering.
Context {A : Type} (key : A -> Z).

Lemma insert_desc_sorted (a : A) (l : list A) :
  StronglySorted (descending key) l ->
  StronglySorted (descending key) (insert_desc key a l).
Proof.
  unfold descending.
  induction l as [|b l IH]; simpl; intros Hs.
  - constructor; constructor.
  - inversion Hs as [|? ? Hs' Hb]; subst.
    destruct (key b <=? key a) eqn:E.
    + apply Z.leb_le in E. constructor; [exact Hs|].
      constructor; [lia|].
      eapply Forall_impl; [|exact Hb]. simpl. intros x Hx. lia.
    + apply Z.leb_gt in E. constructor; [apply IH; exact Hs'|].
      apply Forall_forall. intros x Hx.
      apply (Permutation_in _ (insert_desc_perm key a l)) in Hx.
      destruct Hx as [<- | Hx]; [lia|].
      rewrite Forall_forall in Hb. apply Hb. exact Hx.
Qed.

Lemma order_by_desc_sorted (l : list A) :
  StronglySorted (descending key) (order_by_desc key l).
Proof.
  induction l as [|a l IH]; simpl;
    [constructor | apply insert_desc_sorted; exact IH].
Qed.

Lemma filter_sorted (p : A -> bool) (l : list A) :
  StronglySorted (descending key) l -> StronglySorted (descending key) (filter p l).
Proof.
  induction 1 as [|a l Hs IH Ha]; simpl; [constructor|].
  destruct (p a); [|exact IH].
  constructor; [exact IH|].
  apply Forall_forall. intros x Hx. apply filter_In in Hx.
  rewrite Forall_forall in Ha. apply Ha, Hx.
Qed.

End Ordering.

Lemma truthy_true (s : string) : truthy s = true <-> s <> "".
Proof.
  unfold truthy. rewrite negb_true_iff. split.
  - intros H E. apply String.eqb_neq in H. contradiction.
  - apply String.eqb_neq.
Qed.
(** ** Memory visibility *)

Lemma user_eq_true (owner : Z) (u : RequestUser) :
  user_eq owner u = true <-> u = AuthUser owner.
Proof.
  destruct u as [|id]; simpl.
  - split; discriminate.
  - rewrite Z.eqb_eq. split; [intros ->; reflexivity | intros [= ->]; reflexivity].
Qed.

(** C1. A private memory can be viewed by its author and by nobody else; a
    friends-only memory by its author and by the users [are_friends] relates
    to the author; a public memory by everybody; and the anonymous user sees
    the public memories only. *)
Theorem can_view_by_visibility (friendships : list Friendship.t)
  (m : Memory.t) (v : RequestUser) :
  (Memory.visibility m = "private" ->
     (Memory.can_view friendships m v = true <-> v = AuthUser (Memory.user m)))
  /\ (Memory.visibility m = "friends" ->
     (Memory.can_view friendships m v = true <->
      exists id, v = AuthUser id /\
        (id = Memory.user m \/
         FriendshipManager.are_friends friendships (Memory.user m) id = true)))
  /\ (Memory.visibility m = "public" ->
      Memory.can_view friendships m v = true)
  /\ (v = AnonymousUser ->
      (Memory.can_view friendships m v = true <->
       Memory.visibility m = "public")).
Proof.
  unfold Memory.can_view.
  split; [|split; [|split]].
  - intros H. rewrite H. destruct v as [|id]; simpl.
    + split; discriminate.
    + rewrite Z.eqb_eq. split; [intros ->; reflexivity | intros [= ->]; reflexivity].
  - intros H. rewrite H. destruct v as [|id]; simpl.
    + split; [discriminate | intros [id [E _]]; discriminate E].
    + destruct (Z.eqb_spec (Memory.user m) id) as [E|E]; split.
      * intros _. exists id. split; [reflexivity | left; symmetry; exact E].
      * reflexivity.
      * intros Hf. exists id. split; [reflexivity | right; exact Hf].
      * intros [id' [[= <-] [E' | Hf]]]; [symmetry in E'; contradiction | exact Hf].
  - intros H. rewrite H. destruct v; reflexivity.
  - intros ->. simpl. apply String.eqb_eq.
Qed.

Lemma can_view_by_visibility_witness :
  Memory.can_view [] private_note (AuthUser 2) = true <->
  AuthUser 2 = AuthUser (Memory.user private_note).
Proof.
  exact (proj1 (can_view_by_visibility [] private_note (AuthUser 2)) eq_refl).
Defined.

(** ** Friendship *)

Lemma unrelated_filter (db : DB) (a b : Z) :
  unrelated db a b ->
  filter (fun f =>
            (Friendship.user1 f =? a) && (Friendship.user2 f =? b)
            || (Friendship.user1 f =? b) && (Friendship.user2 f =? a))
         (rows (friendships db)) = [].
Proof.
  intros H. apply filter_none. intros f Hf. destruct (H f Hf) as [H1 H2].
  destruct (Z.eqb_spec (Friendship.user1 f) a), (Z.eqb_spec (Friendship.user2 f) b),
    (Z.eqb_spec (Friendship.user1 f) b), (Z.eqb_spec (Friendship.user2 f) a);
    simpl; try reflexivity; tauto.
Qed.

Lemma send_friend_request_fresh (db : DB) (a b : Z) (now : Clock) :
  (exists U, In U (users db) /\ User.id U = b) ->
  unrelated db a b ->
  friendships (fst (send_friend_request a b now db)) =
  mkTable (rows (friendships db)
           ++ [Friendship.mk (next_id (friendships db)) a b "pending"
                 (now 0%nat) None])
          (next_id (friendships db) + 1).
Proof.
  intros [U [HU Hid]] Hun. unfold send_friend_request, get_object_or_404.
  destruct (find_present (fun u => User.id u =? b) (users db) U HU) as [y Hy].
  { apply Z.eqb_eq. exact Hid. }
  rewrite Hy. apply find_some in Hy. destruct Hy as [_ Hy].
  apply Z.eqb_eq in Hy. rewrite Hy.
  rewrite (unrelated_filter db a b Hun). simpl. reflexivity.
Qed.

(** C2. With no relation between [a] and [b], the request of [a] stores the
    one pending row [(a, b)], and once [b] accepts it that row alone makes
    [are_friends] true in both orders. *)
Theorem accepted_request_is_symmetric (db : DB) (a b : Z) (now now' : Clock) :
  keys_below Friendship.friendship_id (friendships db) ->
  (exists U, In U (users db) /\ User.id U = b) ->
  unrelated db a b ->
  let k := next_id (friendships db) in
  let db1 := fst (send_friend_request a b now db) in
  let db2 := fst (respond_friend_request b k "accept" now' db1) in
  rows (friendships db1) =
    rows (friendships db) ++ [Friendship.mk k a b "pending" (now 0%nat) None]
  /\ rows (friendships db2) =
    rows (friendships db)
    ++ [Friendship.mk k a b "accepted" (now 0%nat) (Some (now' 0%nat))]
  /\ FriendshipManager.are_friends (rows (friendships db2)) a b = true
  /\ FriendshipManager.are_friends (rows (friendships db2)) b a = true.
Proof.
  intros Hk HU Hun k db1 db2.
  assert (E1 : friendships db1 =
               mkTable (rows (friendships db)
                        ++ [Friendship.mk k a b "pending" (now 0%nat) None])
                       (k + 1))
    by (apply send_friend_request_fresh; assumption).
  assert (Hold : forall f, In f (rows (friendships db)) ->
                           (Friendship.friendship_id f =? k) = false).
  { intros f Hf. apply Z.eqb_neq. specialize (Hk f Hf). fold k in Hk. lia. }
  assert (E2 : rows (friendships db2) =
               rows (friendships db)
               ++ [Friendship.mk k a b "accepted" (now 0%nat)
                     (Some (now' 0%nat))]).
  { unfold db2, respond_friend_request, get_object_or_404.
    rewrite E1. simpl rows. rewrite find_skip.
    - simpl. rewrite !Z.eqb_refl. simpl.
      unfold save_row. rewrite map_app. simpl. rewrite Z.eqb_refl.
      f_equal. apply map_unchanged. intros f Hf.
      simpl. rewrite (Hold f Hf). reflexivity.
    - intros f Hf. rewrite (Hold f Hf). reflexivity. }
  split; [rewrite E1; reflexivity|]. split; [exact E2|].
  rewrite E2. unfold FriendshipManager.are_friends.
  rewrite !existsb_app. unfold FriendshipManager.accepted_from. simpl.
  rewrite !Z.eqb_refl. simpl.
  split; apply orb_true_iff; right; destruct (a =? b), (b =? a); reflexivity.
Qed.

Lemma accepted_request_is_symmetric_witness :
  FriendshipManager.are_friends
    (rows (friendships
       (fst (respond_friend_request 2 1 "accept" demo_clock
          (fst (send_friend_request 1 2 demo_clock empty_db)))))) 2 1 = true.
Proof.
  refine (proj2 (proj2 (proj2
    (accepted_request_is_symmetric empty_db 1 2 demo_clock demo_clock _ _ _)))).
  - intros r Hr. destruct Hr.
  - exists (User.mk 2 "bob"). split; [simpl; auto | reflexivity].
  - intros f Hf. destruct Hf.
Defined.

(** ** Presence shares *)

Lemma deactivate_user_clears (u : Z) (l : list LocationShare.t) :
  filter (active_of u) (qs_update (active_of u) LocationShare.deactivate l) = [].
Proof.
  apply filter_none. intros s Hs. unfold qs_update in Hs.
  apply in_map_iff in Hs. destruct Hs as [r [<- _]].
  destruct (active_of u r) eqn:E; [|exact E].
  unfold active_of. simpl. apply andb_false_r.
Qed.

Lemma locations_sweep_expired (t : DateTime) (db : DB) :
  locations (sweep_expired t db) = locations db.
Proof. reflexivity. Qed.

(** The share table after a share that goes through. *)
Lemma share_location_rows (db : DB) (u : Z) (location_id : string)
  (status_message : option string) (now : Clock) (location : Location.t) :
  truthy location_id = true ->
  get_object_or_404 (fun l => (Location.location_id l =? location_id)%string)
    (locations db) = Some location ->
  rows (location_shares
          (fst (dashboard_post u
                  (act_share_location location_id status_message) now db)))
  = qs_update (active_of u) LocationShare.deactivate
      (rows (location_shares (sweep_expired (now 0%nat) db)))
    ++ [LocationShare.mk (next_id (location_shares db)) u
          (Location.location_id location) (now 2%nat)
          (now 1%nat + timedelta_hours 4) true "all_friends"
          (match status_message with Some s => s | None => "studying" end)
          "check_in"].
Proof.
  intros Ht Hl. unfold dashboard_post, share_location. rewrite Ht.
  rewrite locations_sweep_expired, Hl. reflexivity.
Qed.

(** C3. A share that goes through deactivates the shares of [u] that were
    active, then inserts one share expiring four hours after the reading of
    the clock; from then on [u] has one active share, hence at most one that
    is active and unexpired at whatever time [t] one looks. *)
Theorem share_location_one_active (db : DB) (u : Z) (location_id : string)
  (status_message : option string) (now : Clock) (location : Location.t) :
  truthy location_id = true ->
  get_object_or_404 (fun l => (Location.location_id l =? location_id)%string)
    (locations db) = Some location ->
  let swept := sweep_expired (now 0%nat) db in
  let db' :=
    fst (dashboard_post u (act_share_location location_id status_message)
           now db) in
  let new :=
    LocationShare.mk (next_id (location_shares db)) u
      (Location.location_id location) (now 2%nat)
      (now 1%nat + timedelta_hours 4) true "all_friends"
      (match status_message with Some s => s | None => "studying" end)
      "check_in" in
  rows (location_shares db') =
    qs_update (active_of u) LocationShare.deactivate
      (rows (location_shares swept)) ++ [new]
  /\ LocationShare.expires_at new = now 1%nat + 4 * 3600 * 1000000
  /\ filter (active_of u) (rows (location_shares db')) = [new]
  /\ forall t : DateTime,
      (List.length
         (filter (fun s => active_of u s && (t <? LocationShare.expires_at s)%Z)
            (rows (location_shares db'))) <= 1)%nat.
Proof.
  intros Ht Hl swept db' new.
  assert (E : rows (location_shares db') =
              qs_update (active_of u) LocationShare.deactivate
                (rows (location_shares swept)) ++ [new]).
  { apply share_location_rows; assumption. }
  assert (F : filter (active_of u) (rows (location_shares db')) = [new]).
  { rewrite E, filter_app, deactivate_user_clears. simpl.
    unfold active_of. simpl. rewrite Z.eqb_refl. reflexivity. }
  repeat split; [exact E | exact F |].
  intros t. rewrite filter_and, F. apply filter_length_bound.
Qed.

Lemma share_location_one_active_witness :
  filter (active_of 2)
    (rows (location_shares
             (fst (dashboard_post 2 (act_share_location "P01_A" (Some "busy"))
                     demo_clock sharing_db))))
  = [LocationShare.mk 3 2 "P01_A" 1002 (1001 + timedelta_hours 4) true
       "all_friends" "busy" "check_in"]
  /\ rows (location_shares
             (fst (dashboard_post 2 (act_share_location "P01_A" (Some "busy"))
                     demo_clock sharing_db)))
     = [LocationShare.mk 1 3 "P01_A" 900 15000 false "all_friends" "busy"
          "check_in";
        LocationShare.mk 2 2 "P01_A" 1000 20000 false "all_friends"
          "studying" "check_in";
        LocationShare.mk 3 2 "P01_A" 1002 (1001 + timedelta_hours 4) true
          "all_friends" "busy" "check_in"].
Proof.
  destruct (share_location_one_active sharing_db 2 "P01_A" (Some "busy")
              demo_clock (Location.mk "P01_A" "Pillar 1" true 0 "light")
              eq_refl eq_refl) as [Hrows [_ [Hone _]]].
  split; [exact Hone | exact Hrows].
Defined.

(** ** Reviews *)

Lemma reviews_update_location_crowd_level (l : string) (t : DateTime)
  (db : DB) :
  reviews (update_location_crowd_level l t db) = reviews db.
Proof.
  unfold update_location_crowd_level.
  destruct (fold_left _ _ _); reflexivity.
Qed.

(** The review table after an accepted submission. *)
Lemma submit_review_success (user : Z) (form : ReviewForm.t) (now : Clock)
  (db : DB) (m : string) :
  snd (submit_review user form now db) = [(success, m)] ->
  exists w c n g,
    ReviewForm.wifi_rating form = Parsed w
    /\ ReviewForm.cleanliness_rating form = Parsed c
    /\ ReviewForm.noise_rating form = Parsed n
    /\ ReviewForm.general_rating form = Parsed (Finite g)
    /\ reviews (fst (submit_review user form now db))
       = match first (order_by_desc LocationReview.created_at
                        (filter (review_of user (ReviewForm.location_id form))
                           (rows (reviews db)))) with
         | Some r =>
             with_rows
               (save_row LocationReview.review_id
                  (LocationReview.mk (LocationReview.review_id r)
                     (LocationReview.user r) (LocationReview.location r)
                     w c n (py_round1 (mean3 w c n)) (LocationReview.rating r)
                     (ReviewForm.review_text form)
                     (LocationReview.review_category r)
                     (ReviewForm.crowd_level form) (now 1%nat)
                     (LocationReview.is_verified r)
                     (LocationReview.helpfulness_score r))
                  (rows (reviews db)))
               (reviews db)
         | None =>
             mkTable
               (rows (reviews db)
                ++ [LocationReview.mk (next_id (reviews db)) user
                      (ReviewForm.location_id form) w c n
                      (py_round1 (mean3 w c n)) None
                      (ReviewForm.review_text form) "general"
                      (ReviewForm.crowd_level form) (now 1%nat) false 0])
               (next_id (reviews db) + 1)
         end.
Proof.
  unfold submit_review.
  destruct (negb _); [discriminate|].
  destruct (ReviewForm.wifi_rating form) as [| | |w]; try discriminate.
  destruct (ReviewForm.cleanliness_rating form) as [| | |c]; try discriminate.
  destruct (ReviewForm.noise_rating form) as [| | |n]; try discriminate.
  destruct (ReviewForm.general_rating form) as [| | |[g|]];
    try discriminate.
  destruct (negb _); [discriminate|].
  destruct (get_object_or_404 _ _) as [location|] eqn:Hl; [|discriminate].
  apply find_some in Hl. destruct Hl as [_ Hl]. apply String.eqb_eq in Hl.
  rewrite Hl. intros _. exists w, c, n, g. repeat split.
  unfold review_of.
  destruct (first _) as [r|]; simpl;
    rewrite reviews_update_location_crowd_level; reflexivity.
Qed.

Lemma first_order_by_desc_some {A : Type} (key : A -> Z) (l : list A)
  (r : A) :
  first (order_by_desc key l) = Some r -> In r l.
Proof.
  intros H. apply (order_by_desc_In key).
  destruct (order_by_desc key l) as [|a l']; [discriminate|].
  injection H as ->. left. reflexivity.
Qed.

Lemma first_order_by_desc_none {A : Type} (key : A -> Z) (l : list A) :
  first (order_by_desc key l) = None -> l = [].
Proof.
  intros H. pose proof (order_by_desc_perm key l) as P.
  destruct (order_by_desc key l) as [|a l']; [|discriminate].
  apply Permutation_nil. exact P.
Qed.

(** Saving an instance whose key is that of the row [r0]: [r0] alone is
    replaced. *)
Lemma save_row_split {A : Type} (pk : A -> Z) (a r0 : A) (l : list A) :
  NoDup (map pk l) -> In r0 l -> pk a = pk r0 ->
  exists l1 l2, l = l1 ++ r0 :: l2 /\ save_row pk a l = l1 ++ a :: l2.
Proof.
  intros Hnd Hin Hpk. destruct (in_split _ _ Hin) as [l1 [l2 El]].
  exists l1, l2. split; [exact El|]. subst l.
  rewrite map_app in Hnd. simpl in Hnd. apply NoDup_remove_2 in Hnd.
  unfold save_row. rewrite map_app. simpl.
  rewrite Hpk, Z.eqb_refl. f_equal; [|f_equal]; apply map_unchanged;
    intros x Hx; destruct (Z.eqb_spec (pk x) (pk r0)) as [E|E];
    try reflexivity; exfalso; apply Hnd; rewrite <- E; apply in_or_app;
    [left | right]; apply in_map; exact Hx.
Qed.

Lemma length_le_1_app {A : Type} (l1 l2 : list A) (x : A) :
  (List.length (l1 ++ x :: l2) <= 1)%nat -> l1 = [] /\ l2 = [].
Proof.
  rewrite length_app. simpl. intros H.
  destruct l1; destruct l2; simpl in H; try lia. auto.
Qed.

(** One accepted submission on a well-formed review table: the table stays
    well-formed, the pair of the submission has the one row that carries the
    form, and a row that was there before keeps its key and place. *)
Lemma submit_review_step (user : Z) (form : ReviewForm.t) (now : Clock)
  (db : DB) (m : string) :
  reviews_wf (reviews db) ->
  snd (submit_review user form now db) = [(success, m)] ->
  let t' := reviews (fst (submit_review user form now db)) in
  reviews_wf t'
  /\ exists row,
       filter (review_of user (ReviewForm.location_id form)) (rows t') = [row]
       /\ carries form row
       /\ forall r0,
            In r0 (filter (review_of user (ReviewForm.location_id form))
                     (rows (reviews db))) ->
            LocationReview.review_id row = LocationReview.review_id r0
            /\ List.length (rows t') = List.length (rows (reviews db))
            /\ next_id t' = next_id (reviews db).
Proof.
  intros [Hnd [Hk Huniq]] Hs t'.
  destruct (submit_review_success user form now db m Hs)
    as [w [c [n [g [Ew [Ec [En [Eg E]]]]]]]].
  fold t' in E. set (lid := ReviewForm.location_id form) in *.
  destruct (first _) as [r0|] eqn:Hf.
  - apply first_order_by_desc_some in Hf.
    pose proof Hf as Hf0. apply filter_In in Hf. destruct Hf as [Hin Hp].
    match type of E with _ = with_rows (save_row _ ?a _) _ => set (r' := a) in * end.
    destruct (save_row_split LocationReview.review_id r' r0 _ Hnd Hin eq_refl)
      as [l1 [l2 [El El']]].
    assert (Hp' : review_of user lid r' = true) by exact Hp.
    pose proof (Huniq user lid) as H1. rewrite El, filter_app in H1.
    simpl in H1. rewrite Hp in H1. apply length_le_1_app in H1.
    destruct H1 as [F1 F2].
    rewrite E. unfold with_rows, reviews_wf, keys_below.
    simpl rows. simpl next_id. rewrite El'.
    split; [split; [|split]|].
    + rewrite map_app. simpl. rewrite El, map_app in Hnd. exact Hnd.
    + intros r Hr. apply in_app_or in Hr. simpl in Hr.
      destruct Hr as [Hr | [<- | Hr]].
      * apply Hk. rewrite El. apply in_or_app. left. exact Hr.
      * apply (Hk r0 Hin).
      * apply Hk. rewrite El. apply in_or_app. right. right. exact Hr.
    + intros u l. specialize (Huniq u l). rewrite El in Huniq.
      rewrite filter_app, length_app in *. simpl in *.
      replace (review_of u l r') with (review_of u l r0) by reflexivity.
      destruct (review_of u l r0); simpl in *; exact Huniq.
    + exists r'. split; [|split].
      * rewrite filter_app. simpl. rewrite Hp', F1, F2. reflexivity.
      * unfold carries. simpl. rewrite Ew, Ec, En. repeat split.
      * intros r1 Hr1. rewrite El, filter_app in Hr1. simpl in Hr1.
        rewrite Hp, F1, F2 in Hr1. destruct Hr1 as [<- | []].
        split; [reflexivity|]. split; [|reflexivity].
        rewrite El, !length_app. reflexivity.
  - apply first_order_by_desc_none in Hf.
    rewrite E. unfold reviews_wf, keys_below. simpl rows. simpl next_id.
    split; [split; [|split]|].
    + rewrite map_app. simpl. apply NoDup_app_fresh; [exact Hnd|].
      intros Hin. apply in_map_iff in Hin. destruct Hin as [r [Er Hr]].
      specialize (Hk r Hr). lia.
    + intros r Hr. simpl in Hr. apply in_app_or in Hr.
      destruct Hr as [Hr | [<- | []]]; [specialize (Hk r Hr)|]; simpl; lia.
    + intros u l. rewrite filter_app, length_app. simpl.
      destruct (review_of u l _) eqn:Eul; simpl; [|specialize (Huniq u l); lia].
      unfold review_of in Eul. simpl in Eul.
      apply andb_true_iff in Eul. destruct Eul as [Eu El].
      apply Z.eqb_eq in Eu. apply String.eqb_eq in El. subst u l.
      fold lid. rewrite Hf. simpl. lia.
    + eexists. split; [|split].
      * rewrite filter_app, Hf. simpl. unfold review_of. simpl.
        rewrite Z.eqb_refl, String.eqb_refl. reflexivity.
      * unfold carries. simpl. rewrite Ew, Ec, En. repeat split.
      * intros r1 Hr1. rewrite Hf in Hr1. destruct Hr1.
Qed.

(** A submission is accepted or leaves the database as it found it. *)
Lemma submit_review_cases (user : Z) (form : ReviewForm.t) (now : Clock)
  (db : DB) :
  (exists m, snd (submit_review user form now db) = [(success, m)])
  \/ fst (submit_review user form now db) = db.
Proof.
  unfold submit_review.
  destruct (negb _); [right; reflexivity|].
  destruct (ReviewForm.wifi_rating form); try (right; reflexivity).
  destruct (ReviewForm.cleanliness_rating form); try (right; reflexivity).
  destruct (ReviewForm.noise_rating form); try (right; reflexivity).
  destruct (ReviewForm.general_rating form) as [| | |[g|]];
    try (right; reflexivity).
  destruct (negb _); [right; reflexivity|].
  destruct (get_object_or_404 _ _); [|right; reflexivity].
  left. destruct (first _); simpl; eexists; reflexivity.
Qed.

Lemma submit_review_wf (user : Z) (form : ReviewForm.t) (now : Clock)
  (db : DB) :
  reviews_wf (reviews db) ->
  reviews_wf (reviews (fst (submit_review user form now db))).
Proof.
  intros Hwf. destruct (submit_review_cases user form now db) as [[m Hm] | E].
  - apply (submit_review_step user form now db m Hwf Hm).
  - rewrite E. exact Hwf.
Qed.

(** C4. No submission, accepted or refused, gives a user a second review of
    a location.  Of two accepted submissions of a user for one location, the
    second rewrites the row of the first, which keeps its key and its place
    in a table of the same length, and that row then carries the sub-ratings,
    the crowd level and the text of the second form. *)
Theorem review_upsert :
  (forall db user form now,
     reviews_wf (reviews db) ->
     reviews_wf
       (reviews (fst (dashboard_post user (act_submit_review form) now db))))
  /\ (forall db user f1 f2 now1 now2 m1 m2,
        reviews_wf (reviews db) ->
        ReviewForm.location_id f1 = ReviewForm.location_id f2 ->
        let r1 := dashboard_post user (act_submit_review f1) now1 db in
        let r2 := dashboard_post user (act_submit_review f2) now2 (fst r1) in
        snd r1 = [(success, m1)] ->
        snd r2 = [(success, m2)] ->
        exists row1 row2,
          filter (review_of user (ReviewForm.location_id f1))
            (rows (reviews (fst r1))) = [row1]
          /\ filter (review_of user (ReviewForm.location_id f1))
               (rows (reviews (fst r2))) = [row2]
          /\ LocationReview.review_id row2 = LocationReview.review_id row1
          /\ List.length (rows (reviews (fst r2)))
             = List.length (rows (reviews (fst r1)))
          /\ carries f2 row2).
Proof.
  split.
  - intros db user form now Hwf.
    apply (submit_review_wf user form now (sweep_expired (now 0%nat) db)).
    exact Hwf.
  - intros db user f1 f2 now1 now2 m1 m2 Hwf Hloc r1 r2 H1 H2.
    destruct (submit_review_step user f1 now1 (sweep_expired (now1 0%nat) db)
                m1 Hwf H1) as [Hwf1 [row1 [F1 _]]].
    destruct (submit_review_step user f2 now2
                (sweep_expired (now2 0%nat) (fst r1)) m2 Hwf1 H2)
      as [_ [row2 [F2 [Hc Hold]]]].
    exists row1, row2. rewrite Hloc.
    assert (Hin : In row1
              (filter (review_of user (ReviewForm.location_id f2))
                 (rows (reviews (sweep_expired (now2 0%nat) (fst r1)))))).
    { rewrite <- Hloc. simpl reviews. unfold r1, dashboard_post.
      rewrite F1. left. reflexivity. }
    destruct (Hold row1 Hin) as [Hid [Hlen _]].
    rewrite <- Hloc in *.
    split; [exact F1|]. split; [exact F2|]. split; [exact Hid|].
    split; [exact Hlen | exact Hc].
Qed.

Lemma review_upsert_witness :
  exists row1 row2,
    filter (review_of 1 "P01_A")
      (rows (reviews (fst (dashboard_post 1 (act_submit_review first_review)
                             demo_clock empty_db)))) = [row1]
    /\ filter (review_of 1 "P01_A")
         (rows (reviews
            (fst (dashboard_post 1 (act_submit_review second_review)
                    demo_clock
                    (fst (dashboard_post 1 (act_submit_review first_review)
                            demo_clock empty_db)))))) = [row2]
    /\ LocationReview.review_id row2 = LocationReview.review_id row1
    /\ List.length
         (rows (reviews
            (fst (dashboard_post 1 (act_submit_review second_review)
                    demo_clock
                    (fst (dashboard_post 1 (act_submit_review first_review)
                            demo_clock empty_db))))))
       = List.length
           (rows (reviews
              (fst (dashboard_post 1 (act_submit_review first_review)
                      demo_clock empty_db))))
    /\ carries second_review row2.
Proof.
  refine (proj2 review_upsert empty_db 1 first_review second_review
            demo_clock demo_clock "Review submitted for Pillar 1"
            "Review updated for Pillar 1" _ eq_refl eq_refl eq_refl).
  split; [constructor | split; [intros r [] | intros u l; simpl; lia]].
Defined.

(** ** Events *)

Lemma participates_In (x : Z) (e : Event.t) :
  Event.participates x e = true <-> In x (Event.participant_user_ids e).
Proof.
  unfold Event.participates. rewrite existsb_exists. split.
  - intros [y [Hy E]]. apply Z.eqb_eq in E. subst y. exact Hy.
  - intros H. exists x. split; [exact H | apply Z.eqb_refl].
Qed.

Lemma get_current_participants_length (e : Event.t) :
  Event.get_current_participants e
  = Z.of_nat (List.length (Event.participant_user_ids e)).
Proof.
  unfold Event.get_current_participants.
  destruct (Event.participant_user_ids e); reflexivity.
Qed.

(** C5. When the roster has reached [max_participants], a user outside it is
    answered that the event is full and the database stays as it was, so the
    roster, the count and the activity log do; a user inside the roster is
    answered that they take part already, whatever the capacity. *)
Theorem join_event_at_capacity (db : DB) (user id : Z) (now : Clock)
  (event : Event.t) :
  get_event (Parsed id) (fun _ => true) db = Some event ->
  (Z.of_nat (List.length (Event.participant_user_ids event))
     >= Event.max_participants event ->
   ~ In user (Event.participant_user_ids event) ->
   join_event user (Parsed id) now db = (db, [(error, "Event is full")])
   /\ let r := dashboard_post user (act_join_event (Parsed id)) now db in
      events (fst r) = events db
      /\ event_activities (fst r) = event_activities db
      /\ snd r = [(error, "Event is full")])
  /\ (In user (Event.participant_user_ids event) ->
      join_event user (Parsed id) now db
      = (db, [(info, "You are already participating in this event")])).
Proof.
  intros Hg. split.
  - intros Hfull Hout.
    assert (Hp : Event.participates user event = false).
    { destruct (Event.participates user event) eqn:E; [|reflexivity].
      apply participates_In in E. contradiction. }
    assert (Hc : Event.can_join event = false).
    { unfold Event.can_join. rewrite get_current_participants_length.
      apply Z.ltb_ge. lia. }
    assert (Hj : forall d, get_event (Parsed id) (fun _ => true) d = Some event ->
                 join_event user (Parsed id) now d
                 = (d, [(error, "Event is full")])).
    { intros d Hd. unfold join_event. rewrite Hd, Hp, Hc. reflexivity. }
    split; [apply Hj; exact Hg|].
    unfold dashboard_post. rewrite Hj; [|exact Hg].
    repeat split; reflexivity.
  - intros Hin. apply participates_In in Hin.
    unfold join_event. rewrite Hg, Hin. reflexivity.
Qed.

Lemma join_event_at_capacity_witness :
  join_event 3 (Parsed 1) demo_clock full_event_db
  = (full_event_db, [(error, "Event is full")]).
Proof.
  refine (proj1 (proj1
    (join_event_at_capacity full_event_db 3 1 demo_clock
       (Event.mk 1 1 "P01_A" "social" "Study" "Algebra" 3600001001
          10800001001 2 2 [1; 2] "active" 1002 false false None [] false)
       eq_refl) _ _)).
  - simpl. lia.
  - simpl. intros [H | [H | H]]; [discriminate H | discriminate H | exact H].
Defined.

Lemma save_instance_fixed (e : Event.t) :
  In (Event.organizer e) (Event.participant_user_ids e) ->
  Event.save_instance e = e.
Proof.
  intros H. unfold Event.save_instance.
  rewrite (proj2 (participates_In _ _) H).
  destruct (Event.participant_user_ids e) as [|x l]; [destruct H|].
  simpl. rewrite andb_false_r. reflexivity.
Qed.

Lemma save_instance_adds_organizer (e : Event.t) :
  Event.organizer e <> 0 ->
  In (Event.organizer e)
     (Event.participant_user_ids (Event.save_instance e)).
Proof.
  intros Hz. unfold Event.save_instance.
  apply Z.eqb_neq in Hz. rewrite Hz. simpl.
  destruct (Event.participates (Event.organizer e) e) eqn:Ep.
  - apply participates_In in Ep.
    destruct (Event.participant_user_ids e) as [|x l] eqn:El; [destruct Ep|].
    simpl. rewrite El. exact Ep.
  - rewrite orb_true_r. simpl. apply in_or_app. right. left. reflexivity.
Qed.

Lemma save_instance_inv (e : Event.t) :
  event_inv e -> event_inv (Event.save_instance e).
Proof.
  intros H. rewrite save_instance_fixed; [exact H | apply H].
Qed.

Lemma list_remove_keeps (x y : Z) (l : list Z) :
  In x l -> x <> y -> In x (Event.list_remove y l).
Proof.
  induction l as [|z l IH]; simpl; intros Hin Hne; [exact Hin|].
  destruct (Z.eqb_spec z y) as [E|E].
  - destruct Hin as [-> | Hin]; [contradiction | exact Hin].
  - destruct Hin as [-> | Hin]; [left; reflexivity | right; auto].
Qed.

Lemma Forall_save_row {A : Type} (P : A -> Prop) (pk : A -> Z) (a : A)
  (l : list A) :
  Forall P l -> P a -> Forall P (save_row pk a l).
Proof.
  intros Hl Ha. unfold save_row. apply Forall_forall. intros r Hr.
  apply in_map_iff in Hr. destruct Hr as [r0 [<- Hr0]].
  destruct (pk r0 =? pk a); [exact Ha|].
  rewrite Forall_forall in Hl. apply Hl. exact Hr0.
Qed.

Lemma get_event_In (id : Posted Z) (extra : Event.t -> bool) (db : DB)
  (e : Event.t) :
  get_event id extra db = Some e -> In e (rows (events db)).
Proof.
  destruct id; simpl; try discriminate.
  intros H. apply find_some in H. apply H.
Qed.

(** An [event.save()] of an instance that satisfies the invariant keeps the
    invariant of the table. *)
Lemma save_event_inv (event : Event.t) (db : DB) :
  Forall event_inv (rows (events db)) -> event_inv event ->
  Forall event_inv (rows (events (save_event event db))).
Proof.
  intros Hdb He. simpl. unfold Event.save.
  apply Forall_save_row; [exact Hdb | apply save_instance_inv; exact He].
Qed.

Lemma events_share_location (user : Z) (location_id : string)
  (status_message : option string) (now : Clock) (db : DB) :
  events (fst (share_location user location_id status_message now db))
  = events db.
Proof.
  unfold share_location. destruct (truthy location_id); [|reflexivity].
  destruct (get_object_or_404 _ _); reflexivity.
Qed.

Lemma events_update_location_crowd_level (l : string) (t : DateTime)
  (db : DB) :
  events (update_location_crowd_level l t db) = events db.
Proof.
  unfold update_location_crowd_level.
  destruct (fold_left _ _ _); reflexivity.
Qed.

Lemma events_submit_review (user : Z) (form : ReviewForm.t) (now : Clock)
  (db : DB) :
  events (fst (submit_review user form now db)) = events db.
Proof.
  unfold submit_review.
  destruct (negb _); [reflexivity|].
  destruct (ReviewForm.wifi_rating form); try reflexivity.
  destruct (ReviewForm.cleanliness_rating form); try reflexivity.
  destruct (ReviewForm.noise_rating form); try reflexivity.
  destruct (ReviewForm.general_rating form) as [| | |[g|]]; try reflexivity.
  destruct (negb _); [reflexivity|].
  destruct (get_object_or_404 _ _); [|reflexivity].
  destruct (first _); simpl; rewrite events_update_location_crowd_level;
    reflexivity.
Qed.

Lemma events_stop_sharing (user : Z) (now : Clock) (db : DB) :
  events (fst (fst (stop_sharing user now db))) = events db.
Proof.
  unfold stop_sharing. destruct (current_share _ _ _) as [[s l]|]; reflexivity.
Qed.

Lemma timedelta_hours_ok_true (h : Z) :
  0 <= h < 24 * 1000000000 -> timedelta_hours_ok h = true.
Proof.
  intros H. unfold timedelta_hours_ok. apply Z.leb_le.
  assert (0 <= h / 24) by (apply Z.div_pos; lia).
  assert (h / 24 < 1000000000) by (apply Z.div_lt_upper_bound; lia).
  lia.
Qed.

(** What [create_event] does with a valid form. *)
Lemma create_event_valid (user : Z) (form : EventForm.t) (now : Clock)
  (db : DB) (h d m : Z) :
  event_form_valid form now db h d m ->
  create_event user form now db
  = (log_activity user (created_event user form now db h d m) "created"
       (now 3%nat)
       (set_events
          (mkTable
             (rows (events db) ++ [created_event user form now db h d m])
             (next_id (events db) + 1)) db),
     [(success, ("Event " ++ quoted (EventForm.event_title form)
                 ++ " created successfully!")%string)]).
Proof.
  intros [Ht [Hl [[l [Hin Hid]] [Hh [Hd [Hm [Rh [Rd [Rm [Rs Re]]]]]]]]]].
  unfold create_event.
  apply truthy_true in Ht, Hl. rewrite Ht, Hl, Hh, Hd, Hm. simpl.
  assert (E1 : (h <? 0) = false) by (apply Z.ltb_ge; lia).
  assert (E2 : (d <? 1) = false) by (apply Z.ltb_ge; lia).
  assert (E3 : (m <? 1) = false) by (apply Z.ltb_ge; lia).
  rewrite E1, E2, E3. simpl.
  destruct (find_present
              (fun l0 => (Location.location_id l0
                          =? EventForm.location_id form)%string)
              (locations db) l Hin) as [location Hf].
  { rewrite Hid. apply String.eqb_refl. }
  unfold get_object_or_404. rewrite Hf.
  apply find_some in Hf. destruct Hf as [_ Hf]. apply String.eqb_eq in Hf.
  rewrite !timedelta_hours_ok_true by lia.
  assert (Hp : 0 <= timedelta_hours d) by (unfold timedelta_hours; lia).
  assert (E4 : datetime_ok (now 1%nat + timedelta_hours h) = true).
  { unfold datetime_ok. apply andb_true_intro.
    split; apply Z.leb_le; lia. }
  assert (E5 : datetime_ok
                 (now 1%nat + timedelta_hours h + timedelta_hours d) = true).
  { unfold datetime_ok. apply andb_true_intro.
    split; apply Z.leb_le; lia. }
  assert (E6 : int64_ok m = true).
  { unfold int64_ok. apply andb_true_intro.
    split; apply Z.leb_le; lia. }
  rewrite E4, E5, E6. simpl. rewrite Hf.
  unfold created_event, Event.save_instance, Event.participates. simpl.
  rewrite Z.eqb_refl. simpl. rewrite andb_false_r. reflexivity.
Qed.

Lemma create_event_inv (user : Z) (form : EventForm.t) (now : Clock)
  (db : DB) :
  Forall event_inv (rows (events db)) ->
  Forall event_inv (rows (events (fst (create_event user form now db)))).
Proof.
  intros H. unfold create_event.
  destruct (negb _); [exact H|].
  destruct (or_default 1 _); try exact H.
  destruct (or_default 2 _); try exact H.
  destruct (EventForm.max_participants form); try exact H.
  destruct (_ || _); [exact H|].
  destruct (get_object_or_404 _ _); [|exact H].
  destruct (negb _); [exact H|].
  simpl. apply Forall_app. split; [exact H|].
  constructor; [|constructor].
  apply save_instance_inv. split; simpl; [left; reflexivity | reflexivity].
Qed.

Lemma start_event_inv (user : Z) (id : Posted Z) (now : Clock) (db : DB) :
  Forall event_inv (rows (events db)) ->
  Forall event_inv (rows (events (fst (start_event user id now db)))).
Proof.
  intros H. unfold start_event.
  destruct (get_event id _ db) as [e|] eqn:Hg; [|exact H].
  destruct (Event.is_started e); [exact H|].
  apply (save_event_inv _ db H).
  apply get_event_In in Hg. rewrite Forall_forall in H. exact (H e Hg).
Qed.

Lemma join_event_inv (user : Z) (id : Posted Z) (now : Clock) (db : DB) :
  Forall event_inv (rows (events db)) ->
  Forall event_inv (rows (events (fst (join_event user id now db)))).
Proof.
  intros H. unfold join_event.
  destruct (get_event id _ db) as [e|] eqn:Hg; [|exact H].
  destruct (Event.participates user e); [exact H|].
  destruct (negb _); [exact H|].
  apply (save_event_inv _ db H).
  apply get_event_In in Hg. rewrite Forall_forall in H.
  destruct (H e Hg) as [Ho _]. split; simpl; [|reflexivity].
  apply in_or_app. left. exact Ho.
Qed.

Lemma leave_event_inv (user : Z) (id : Posted Z) (now : Clock) (db : DB) :
  Forall event_inv (rows (events db)) ->
  Forall event_inv (rows (events (fst (leave_event user id now db)))).
Proof.
  intros H. unfold leave_event.
  destruct (get_event id _ db) as [e|] eqn:Hg; [|exact H].
  destruct (negb _); [exact H|].
  destruct (Z.eqb_spec (Event.organizer e) user) as [E|E]; [exact H|].
  apply (save_event_inv _ db H).
  apply get_event_In in Hg. rewrite Forall_forall in H.
  destruct (H e Hg) as [Ho _]. split; simpl; [|reflexivity].
  apply list_remove_keeps; assumption.
Qed.

Lemma cancel_event_inv (user : Z) (id : Posted Z) (now : Clock) (db : DB) :
  Forall event_inv (rows (events db)) ->
  Forall event_inv (rows (events (fst (cancel_event user id now db)))).
Proof.
  intros H. unfold cancel_event.
  destruct (get_event id _ db) as [e|] eqn:Hg; [|exact H].
  apply (save_event_inv _ (log_activity user e "cancelled" (now 1%nat) db) H).
  apply get_event_In in Hg. rewrite Forall_forall in H. exact (H e Hg).
Qed.

Lemma dashboard_post_inv (user : Z) (a : Action) (now : Clock) (db : DB) :
  Forall event_inv (rows (events db)) ->
  Forall event_inv (rows (events (fst (dashboard_post user a now db)))).
Proof.
  intros H. unfold dashboard_post.
  assert (Hs : Forall event_inv (rows (events (sweep_expired (now 0%nat) db))))
    by exact H.
  destruct a; try exact Hs.
  - rewrite events_share_location. exact Hs.
  - rewrite events_stop_sharing. exact Hs.
  - rewrite events_submit_review. exact Hs.
  - apply create_event_inv. exact Hs.
  - apply start_event_inv. exact Hs.
  - apply join_event_inv. exact Hs.
  - apply leave_event_inv. exact Hs.
  - apply cancel_event_inv. exact Hs.
Qed.

Lemma reachable_inv (db : DB) :
  reachable db -> Forall event_inv (rows (events db)).
Proof.
  intros Hr. induction Hr as [db H0 | db user a now Hr IH].
  - rewrite H0. constructor.
  - apply dashboard_post_inv. exact IH.
Qed.

(** The rows of a table after a [save]: the instance, or a row that was
    there. *)
Lemma save_row_In {A : Type} (pk : A -> Z) (a : A) (l : list A) (r : A) :
  In r (save_row pk a l) -> (r = a /\ exists r0, In r0 l /\ pk r0 = pk a)
                            \/ (In r l /\ pk r <> pk a).
Proof.
  unfold save_row. intros H. apply in_map_iff in H.
  destruct H as [r0 [E Hr0]].
  destruct (Z.eqb_spec (pk r0) (pk a)) as [Ek|Ek].
  - left. split; [symmetry; exact E | exists r0; auto].
  - right. subst r. auto.
Qed.

Lemma save_row_stores {A : Type} (pk : A -> Z) (a : A) (l : list A) (r0 : A) :
  In r0 l -> pk r0 = pk a -> In a (save_row pk a l).
Proof.
  intros Hin Ek. unfold save_row. apply in_map_iff. exists r0.
  split; [|exact Hin]. rewrite Ek, Z.eqb_refl. reflexivity.
Qed.

Lemma save_instance_keys (e : Event.t) :
  Event.event_id (Event.save_instance e) = Event.event_id e
  /\ Event.organizer (Event.save_instance e) = Event.organizer e.
Proof.
  unfold Event.save_instance. destruct (_ && _); auto.
Qed.

Lemma save_instance_appends (e : Event.t) :
  Event.organizer e <> 0 ->
  ~ In (Event.organizer e) (Event.participant_user_ids e) ->
  Event.save_instance e
  = Event.set_current_participants
      (Z.of_nat (List.length (Event.participant_user_ids e) + 1))
      (Event.set_participant_user_ids
         (Event.participant_user_ids e ++ [Event.organizer e]) e).
Proof.
  intros Hz Hn. unfold Event.save_instance.
  apply Z.eqb_neq in Hz. rewrite Hz.
  destruct (Event.participates (Event.organizer e) e) eqn:Ep.
  - apply participates_In in Ep. contradiction.
  - simpl. rewrite orb_true_r, length_app. reflexivity.
Qed.

Lemma save_instance_count (e : Event.t) :
  count_is_length e -> count_is_length (Event.save_instance e).
Proof.
  unfold count_is_length, Event.save_instance. intros H.
  destruct (_ && _); [reflexivity | exact H].
Qed.

(** The rows of the event table after a request: rows that were there, and
    rows that went through [save]. *)
Lemma dashboard_post_events (user : Z) (a : Action) (now : Clock) (db : DB)
  (e' : Event.t) :
  In e' (rows (events (fst (dashboard_post user a now db)))) ->
  In e' (rows (events db)) \/ exists self, e' = Event.save_instance self.
Proof.
  unfold dashboard_post.
  assert (Hs : events (sweep_expired (now 0%nat) db) = events db)
    by reflexivity.
  set (d := sweep_expired (now 0%nat) db) in *. clearbody d.
  rewrite <- Hs. clear Hs.
  assert (Hsave : forall ev d0,
             events d0 = events d ->
             In e' (rows (events (save_event ev d0))) ->
             In e' (rows (events d))
             \/ exists self, e' = Event.save_instance self).
  { intros ev d0 E H. simpl in H. unfold Event.save in H.
    apply save_row_In in H. rewrite E in H.
    destruct H as [[-> _] | [H _]]; [right; eexists; reflexivity | auto]. }
  destruct a; try (left; assumption).
  - rewrite events_share_location. auto.
  - rewrite events_stop_sharing. auto.
  - rewrite events_submit_review. auto.
  - unfold create_event.
    destruct (negb _); [auto|].
    destruct (or_default 1 _); auto.
    destruct (or_default 2 _); auto.
    destruct (EventForm.max_participants form); auto.
    destruct (_ || _); [auto|].
    destruct (get_object_or_404 _ _); [|auto].
    destruct (negb _); [auto|].
    simpl. intros H. apply in_app_or in H.
    destruct H as [H | [<- | []]]; [auto | right; eexists; reflexivity].
  - unfold start_event.
    destruct (get_event event_id _ d) as [e|]; [|auto].
    destruct (Event.is_started e); [auto|].
    apply (Hsave _ d eq_refl).
  - unfold join_event.
    destruct (get_event event_id _ d) as [e|]; [|auto].
    destruct (Event.participates user e); [auto|].
    destruct (negb _); [auto|].
    apply (Hsave _ d eq_refl).
  - unfold leave_event.
    destruct (get_event event_id _ d) as [e|]; [|auto].
    destruct (negb _); [auto|].
    destruct (Event.organizer e =? user); [auto|].
    apply (Hsave _ d eq_refl).
  - unfold cancel_event.
    destruct (get_event event_id _ d) as [e|]; [|auto].
    apply (Hsave _ (log_activity user e "cancelled" (now 1%nat) d) eq_refl).
Qed.

(** The rows with the key of the event after a join or a leave that went
    through. *)
Lemma join_leave_saved (user id : Z) (now : Clock) (db : DB) (m : string)
  (e' : Event.t) :
  (snd (join_event user (Parsed id) now db) = [(success, m)]
   /\ In e' (rows (events (fst (join_event user (Parsed id) now db)))))
  \/ (snd (leave_event user (Parsed id) now db) = [(success, m)]
      /\ In e' (rows (events (fst (leave_event user (Parsed id) now db))))) ->
  Event.event_id e' = id ->
  exists self, count_is_length self /\ e' = Event.save_instance self.
Proof.
  intros [[Hm H] | [Hm H]] Hid.
  - unfold join_event in *.
    destruct (get_event (Parsed id) _ db) as [e|] eqn:Hg; [|discriminate Hm].
    destruct (Event.participates user e); [discriminate Hm|].
    destruct (negb _); [discriminate Hm|].
    simpl in Hg. apply find_some in Hg. destruct Hg as [_ Hg].
    rewrite andb_true_r in Hg. apply Z.eqb_eq in Hg.
    simpl in H. unfold Event.save in H. apply save_row_In in H.
    destruct H as [[-> _] | [_ Hne]].
    + eexists. split; [|reflexivity]. reflexivity.
    + exfalso. apply Hne.
      rewrite (proj1 (save_instance_keys _)). simpl. congruence.
  - unfold leave_event in *.
    destruct (get_event (Parsed id) _ db) as [e|] eqn:Hg; [|discriminate Hm].
    destruct (negb _); [discriminate Hm|].
    destruct (Event.organizer e =? user); [discriminate Hm|].
    simpl in Hg. apply find_some in Hg. destruct Hg as [_ Hg].
    rewrite andb_true_r in Hg. apply Z.eqb_eq in Hg.
    simpl in H. unfold Event.save in H. apply save_row_In in H.
    destruct H as [[-> _] | [_ Hne]].
    + eexists. split; [|reflexivity]. reflexivity.
    + exfalso. apply Hne.
      rewrite (proj1 (save_instance_keys _)). simpl. congruence.
Qed.

(** C6. The organizer of an event is a member of its roster, and stays one.
    - Every action of the dashboard keeps, from whatever database has it,
      that each event has its organizer in the roster and a count equal to
      the length of the roster; so this holds in every database the
      dashboard reaches.
    - A valid form creates the event with the roster of the organizer alone
      and the count 1.
    - [save] stores, in place of the rows with the key of the instance, the
      instance with its organizer in the roster: as it is when the roster
      names the organizer, and else with the organizer appended and the
      count set to the new length.
    - The organizer who asks to leave never changes the database, and is
      answered that the organizer cannot leave when the roster names them.
    - Whatever the database, a row of the event table after a request is a
      row that was there or names its organizer in its roster: no request,
      cancellation included, takes an organizer out.
    - After a join or a leave that went through, the event has a count
      equal to the length of its roster and its organizer in the roster.
    The organizer's key is taken to be nonzero where [save] is concerned,
    as the keys of users are: the override tests it for truth. *)
Theorem organizer_stays_in_roster :
  (forall db user a now,
     Forall event_inv (rows (events db)) ->
     Forall event_inv (rows (events (fst (dashboard_post user a now db)))))
  /\ (forall db, reachable db -> Forall event_inv (rows (events db)))
  /\ (forall user form now db h d m,
        event_form_valid form now db h d m ->
        let e := created_event user form now db h d m in
        create_event user form now db
        = (log_activity user e "created" (now 3%nat)
             (set_events
                (mkTable (rows (events db) ++ [e]) (next_id (events db) + 1))
                db),
           [(success, ("Event " ++ quoted (EventForm.event_title form)
                       ++ " created successfully!")%string)])
        /\ Event.organizer e = user
        /\ Event.participant_user_ids e = [user]
        /\ Event.current_participants e = 1)
  /\ (forall self table,
        Event.organizer self <> 0 ->
        let stored := Event.save_instance self in
        In (Event.organizer stored) (Event.participant_user_ids stored)
        /\ Event.organizer stored = Event.organizer self
        /\ Event.event_id stored = Event.event_id self
        /\ (In (Event.organizer self) (Event.participant_user_ids self) ->
            stored = self)
        /\ (~ In (Event.organizer self) (Event.participant_user_ids self) ->
            stored
            = Event.set_current_participants
                (Z.of_nat (List.length (Event.participant_user_ids self) + 1))
                (Event.set_participant_user_ids
                   (Event.participant_user_ids self ++ [Event.organizer self])
                   self))
        /\ (forall r, In r (Event.save self table) ->
              (r = stored
               /\ exists r0, In r0 table
                             /\ Event.event_id r0 = Event.event_id self)
              \/ (In r table /\ Event.event_id r <> Event.event_id self))
        /\ (forall r0, In r0 table ->
              Event.event_id r0 = Event.event_id self ->
              In stored (Event.save self table)))
  /\ (forall db user id now event,
        get_event (Parsed id) (fun _ => true) db = Some event ->
        Event.organizer event = user ->
        fst (leave_event user (Parsed id) now db) = db
        /\ (In user (Event.participant_user_ids event) ->
            leave_event user (Parsed id) now db
            = (db, [(error,
                     "Event organizer cannot leave. Cancel the event instead.")])))
  /\ (forall db user a now e',
        In e' (rows (events (fst (dashboard_post user a now db)))) ->
        In e' (rows (events db))
        \/ Event.organizer e' = 0
        \/ In (Event.organizer e') (Event.participant_user_ids e'))
  /\ (forall db user id now m e',
        (snd (join_event user (Parsed id) now db) = [(success, m)]
         /\ In e' (rows (events (fst (join_event user (Parsed id) now db)))))
        \/ (snd (leave_event user (Parsed id) now db) = [(success, m)]
            /\ In e' (rows (events
                              (fst (leave_event user (Parsed id) now db))))) ->
        Event.event_id e' = id ->
        count_is_length e'
        /\ (Event.organizer e' = 0
            \/ In (Event.organizer e') (Event.participant_user_ids e'))).
Proof.
  split; [intros db user a now; apply dashboard_post_inv|].
  split; [exact reachable_inv|].
  split; [|split; [|split; [|split]]].
  - intros user form now db h d m Hv e.
    split; [apply create_event_valid; exact Hv | simpl; auto].
  - intros self table Hz stored. subst stored.
    destruct (save_instance_keys self) as [Ek Eo].
    split; [|split; [exact Eo|split; [exact Ek|split; [|split; [|split]]]]].
    + rewrite Eo. apply save_instance_adds_organizer. exact Hz.
    + apply save_instance_fixed.
    + apply save_instance_appends. exact Hz.
    + intros r Hr. unfold Event.save in Hr. apply save_row_In in Hr.
      rewrite Ek in Hr. exact Hr.
    + intros r0 Hin Er. unfold Event.save.
      apply (save_row_stores Event.event_id _ table r0 Hin).
      rewrite Ek. exact Er.
  - intros db user id now event Hg Ho. unfold leave_event. rewrite Hg.
    destruct (Event.participates user event) eqn:Ep; simpl.
    + rewrite Ho, Z.eqb_refl. split; [reflexivity|]. intros _. reflexivity.
    + split; [reflexivity|]. intros Hin.
      apply participates_In in Hin. congruence.
  - intros db user a now e' H.
    destruct (dashboard_post_events user a now db e' H) as [Hin | [self ->]];
      [left; exact Hin | right].
    destruct (Z.eq_dec (Event.organizer self) 0) as [E|E].
    + left. rewrite (proj2 (save_instance_keys self)). exact E.
    + right. rewrite (proj2 (save_instance_keys self)).
      apply save_instance_adds_organizer. exact E.
  - intros db user id now m e' H Hid.
    destruct (join_leave_saved user id now db m e' H Hid) as [self [Hc ->]].
    split; [apply save_instance_count; exact Hc|].
    destruct (Z.eq_dec (Event.organizer self) 0) as [E|E].
    + left. rewrite (proj2 (save_instance_keys self)). exact E.
    + right. rewrite (proj2 (save_instance_keys self)).
      apply save_instance_adds_organizer. exact E.
Qed.

Lemma organizer_stays_in_roster_witness :
  In (Event.mk 1 1 "P01_A" "social" "Chess" "Blitz" 5000 9000 4 2 [2; 1]
        "active" 900 false false None [] false)
     (Event.save orphaned_event (rows (events orphaned_db)))
  /\ rows (events (fst (create_event 1 study_group demo_clock empty_db)))
     = [Event.mk 1 1 "P01_A" "social" "Study" "Algebra"
          (1001 + timedelta_hours 1)
          (1001 + timedelta_hours 1 + timedelta_hours 2) 2 1 [1] "active"
          1002 false false None [] false]
  /\ leave_event 1 (Parsed 1) demo_clock full_event_db
     = (full_event_db,
        [(error, "Event organizer cannot leave. Cancel the event instead.")])
  /\ count_is_length
       (Event.mk 1 1 "P01_A" "social" "Chess" "Blitz" 5000 9000 4 3 [2; 3; 1]
          "active" 900 false false None [] false).
Proof.
  destruct organizer_stays_in_roster as [_ [_ [Hc [Hd [He [_ Hg]]]]]].
  split; [|split; [|split]].
  - refine (proj2 (proj2 (proj2 (proj2 (proj2 (proj2
      (Hd orphaned_event (rows (events orphaned_db)) _))))))
      orphaned_event _ _).
    + simpl. discriminate.
    + simpl. left. reflexivity.
    + reflexivity.
  - rewrite (proj1 (Hc 1 study_group demo_clock empty_db 1 2 2
                      ltac:(unfold event_form_valid; simpl;
                            repeat split; try discriminate; try lia;
                            try reflexivity;
                            exists (Location.mk "P01_A" "Pillar 1" true 0
                                      "light");
                            simpl; auto))).
    reflexivity.
  - refine (proj2 (He full_event_db 1 1 demo_clock _ _ _) _).
    + reflexivity.
    + reflexivity.
    + simpl. left. reflexivity.
  - refine (proj1 (Hg orphaned_db 3 1 demo_clock _ _ _ _)).
    + left. split; [reflexivity|]. simpl. left. reflexivity.
    + reflexivity.
Defined.

(** ** Expiry of shares *)

(** What the sweep leaves of a row that is still flagged active. *)
Lemma sweep_expired_active (t : DateTime) (db : DB) (s : LocationShare.t) :
  In s (rows (location_shares (sweep_expired t db))) ->
  LocationShare.is_active s = true ->
  In s (rows (location_shares db)) /\ t < LocationShare.expires_at s.
Proof.
  simpl. unfold qs_update. intros Hin Ha.
  apply in_map_iff in Hin. destruct Hin as [r [E Hr]].
  destruct (LocationShare.expires_at r <=? t) eqn:Ee;
    destruct (LocationShare.is_active r) eqn:Er; simpl in E; subst s;
    simpl in Ha; try congruence.
  split; [exact Hr | apply Z.leb_gt; exact Ee].
Qed.

Lemma sweep_expired_clears (t : DateTime) (db : DB) (s : LocationShare.t) :
  In s (rows (location_shares (sweep_expired t db))) ->
  LocationShare.expires_at s <= t ->
  LocationShare.is_active s = false.
Proof.
  intros Hin Hle. destruct (LocationShare.is_active s) eqn:Ea; [|reflexivity].
  destruct (sweep_expired_active t db s Hin Ea) as [_ Hlt]. lia.
Qed.

Lemma friends_recent_shares_In (user : Z) (cutoff t : DateTime) (db : DB)
  (s : LocationShare.t) :
  In s (friends_recent_shares user cutoff t db) ->
  In s (rows (location_shares db))
  /\ LocationShare.is_active s = true
  /\ t < LocationShare.expires_at s.
Proof.
  unfold friends_recent_shares. intros H.
  apply firstn_subset, order_by_desc_In, filter_In in H.
  destruct H as [Hin Hp].
  apply andb_true_iff in Hp. destruct Hp as [Hp _].
  apply andb_true_iff in Hp. destruct Hp as [Hp Ht].
  apply andb_true_iff in Hp. destruct Hp as [_ Ha].
  apply Z.ltb_lt in Ht. auto.
Qed.

Lemma dashboard_get_In (viewer : Z) (now : Clock) (db : DB)
  (s : LocationShare.t) :
  In s (snd (dashboard_get viewer now db)) ->
  In s (rows (location_shares db))
  /\ LocationShare.is_active s = true
  /\ now 2%nat < LocationShare.expires_at s.
Proof.
  unfold dashboard_get. simpl snd. intros H.
  apply friends_recent_shares_In in H. destruct H as [Hin [Ha Ht]].
  destruct (sweep_expired_active _ _ _ Hin Ha) as [Hin' _]. auto.
Qed.

(** C7. The feed of a friend holds rows of the share table that are flagged
    active and expire after the reading of the clock the query takes; so a
    row whose expiry has passed is absent, whatever its flag.  The sweep that
    runs first leaves no expired row flagged active.  And the share made at
    [now 1], expiring four hours later, is in no feed read after that. *)
Theorem expired_share_not_in_feed :
  (forall db viewer now s,
     In s (rows (location_shares db)) ->
     LocationShare.expires_at s <= now 2%nat ->
     ~ In s (snd (dashboard_get viewer now db)))
  /\ (forall db viewer now s,
        In s (snd (dashboard_get viewer now db)) ->
        In s (rows (location_shares db))
        /\ LocationShare.is_active s = true
        /\ now 2%nat < LocationShare.expires_at s)
  /\ (forall db viewer now s,
        In s (rows (location_shares (fst (dashboard_get viewer now db)))) ->
        LocationShare.expires_at s <= now 0%nat ->
        LocationShare.is_active s = false)
  /\ (forall db u location_id status_message now location viewer now',
        truthy location_id = true ->
        get_object_or_404
          (fun l => (Location.location_id l =? location_id)%string)
          (locations db) = Some location ->
        keys_below LocationShare.share_id (location_shares db) ->
        now 1%nat + timedelta_hours 4 < now' 2%nat ->
        let db1 :=
          fst (dashboard_post u
                 (act_share_location location_id status_message) now db) in
        (exists s, In s (rows (location_shares db1))
                   /\ LocationShare.share_id s = next_id (location_shares db)
                   /\ LocationShare.user s = u
                   /\ LocationShare.is_active s = true
                   /\ LocationShare.expires_at s
                      = now 1%nat + timedelta_hours 4)
        /\ forall s, In s (snd (dashboard_get viewer now' db1)) ->
                     LocationShare.share_id s
                     <> next_id (location_shares db)).
Proof.
  split; [|split; [|split]].
  - intros db viewer now s _ Hle Hin.
    apply dashboard_get_In in Hin. lia.
  - intros db viewer now s. apply dashboard_get_In.
  - intros db viewer now s. apply sweep_expired_clears.
  - intros db u location_id status_message now location viewer now'
           Ht Hl Hk Hlate db1.
    pose proof (share_location_rows db u location_id status_message now
                  location Ht Hl) as E. fold db1 in E.
    split.
    + eexists. split; [rewrite E; apply in_or_app; right; left; reflexivity|].
      simpl. auto.
    + intros s Hs Hid. apply dashboard_get_In in Hs.
      destruct Hs as [Hin [_ Hexp]]. rewrite E in Hin.
      apply in_app_or in Hin. destruct Hin as [Hin | [<- | []]].
      * unfold qs_update in Hin. apply in_map_iff in Hin.
        destruct Hin as [r [Er Hr]]. simpl in Hr. unfold qs_update in Hr.
        apply in_map_iff in Hr. destruct Hr as [r0 [Er0 Hr0]].
        specialize (Hk r0 Hr0).
        assert (LocationShare.share_id s = LocationShare.share_id r0).
        { subst s r. destruct (active_of u _); destruct (_ && _); reflexivity. }
        lia.
      * simpl in Hexp. lia.
Qed.

Lemma expired_share_not_in_feed_witness :
  snd (dashboard_get 2 (fun n => 2000 + Z.of_nat n)
         (fst (dashboard_post 1 (act_share_location "P01_A" None)
                 demo_clock friends_db)))
  = [LocationShare.mk 1 1 "P01_A" 1002 (1001 + timedelta_hours 4) true
       "all_friends" "studying" "check_in"]
  /\ ~ In (LocationShare.mk 1 1 "P01_A" 1002 (1001 + timedelta_hours 4) true
             "all_friends" "studying" "check_in")
          (snd (dashboard_get 2 (fun n => 20000000000 + Z.of_nat n)
                  (fst (dashboard_post 1 (act_share_location "P01_A" None)
                          demo_clock friends_db))))
  /\ Forall (fun s => LocationShare.is_active s = false)
       (rows (location_shares
                (fst (dashboard_get 2 (fun n => 20000000000 + Z.of_nat n)
                        (fst (dashboard_post 1
                                (act_share_location "P01_A" None) demo_clock
                                friends_db))))))
  /\ ((exists s,
         In s (rows (location_shares
                       (fst (dashboard_post 1
                               (act_share_location "P01_A" None) demo_clock
                               friends_db))))
         /\ LocationShare.share_id s = 1
         /\ LocationShare.user s = 1
         /\ LocationShare.is_active s = true
         /\ LocationShare.expires_at s = 1001 + timedelta_hours 4)
      /\ forall s,
           In s (snd (dashboard_get 2 (fun n => 20000000000 + Z.of_nat n)
                        (fst (dashboard_post 1
                                (act_share_location "P01_A" None) demo_clock
                                friends_db)))) ->
           LocationShare.share_id s <> 1).
Proof.
  destruct expired_share_not_in_feed as [H1 [_ [H3 H4]]].
  split; [reflexivity|]. split; [|split].
  - apply H1.
    + simpl. left. reflexivity.
    + vm_compute. discriminate.
  - constructor; [|constructor].
    apply (H3 (fst (dashboard_post 1 (act_share_location "P01_A" None)
                      demo_clock friends_db))
              2 (fun n => 20000000000 + Z.of_nat n)).
    + simpl. left. reflexivity.
    + vm_compute. discriminate.
  - apply (H4 friends_db 1 "P01_A" None demo_clock
              (Location.mk "P01_A" "Pillar 1" true 0 "light") 2
              (fun n => 20000000000 + Z.of_nat n)).
    + reflexivity.
    + reflexivity.
    + intros r [].
    + vm_compute. reflexivity.
Defined.

(** ** The memories feed *)

Lemma user_in_get_friends (db : DB) (viewer author : Z) :
  (exists U, In U (users db) /\ User.id U = author) ->
  FriendshipManager.user_in author
    (FriendshipManager.get_friends (rows (friendships db)) (users db) viewer)
  = true
  <-> FriendshipManager.are_friends (rows (friendships db)) author viewer
      = true.
Proof.
  intros [U [HU Hid]].
  unfold FriendshipManager.user_in, FriendshipManager.get_friends,
    FriendshipManager.are_friends.
  rewrite existsb_exists. setoid_rewrite filter_In.
  rewrite existsb_exists. split.
  - intros [V [[_ Hf] E]]. apply Z.eqb_eq in E. rewrite E in Hf.
    apply orb_true_iff in Hf. rewrite !existsb_exists in Hf.
    destruct Hf as [[f [Hf Hp]] | [f [Hf Hp]]]; exists f;
      (split; [exact Hf|]); rewrite Hp; [apply orb_true_r | reflexivity].
  - intros [f [Hf Hp]]. exists U. rewrite Hid.
    split; [|apply Z.eqb_refl]. split; [exact HU|].
    apply orb_true_iff. rewrite !existsb_exists.
    apply orb_true_iff in Hp.
    destruct Hp as [Hp | Hp]; [right | left]; exists f; auto.
Qed.

Lemma memories_feed_In (db : DB) (viewer : Z) (m : Memory.t) :
  In m (memories_feed viewer db) <->
  In m (rows (memories db))
  /\ Memory.is_archived m = false
  /\ MemoryManager.visible_to
       (FriendshipManager.get_friends (rows (friendships db)) (users db)
          viewer) viewer m = true.
Proof.
  unfold memories_feed, MemoryManager.get_visible_memories.
  rewrite filter_In, order_by_desc_In, filter_In, negb_true_iff. tauto.
Qed.

Lemma visible_to_union (db : DB) (viewer : Z) (m : Memory.t) :
  (exists U, In U (users db) /\ User.id U = Memory.user m) ->
  MemoryManager.visible_to
    (FriendshipManager.get_friends (rows (friendships db)) (users db) viewer)
    viewer m = true
  <-> (Memory.visibility m = "public"
       \/ (Memory.visibility m = "friends"
           /\ close_to db viewer (Memory.user m))
       \/ (Memory.visibility m = "private" /\ Memory.user m = viewer)).
Proof.
  intros HU. unfold MemoryManager.visible_to, close_to.
  rewrite !orb_true_iff, !andb_true_iff, !String.eqb_eq, !Z.eqb_eq.
  rewrite (user_in_get_friends db viewer (Memory.user m) HU). tauto.
Qed.

(** C8, as amended.  The feed of [viewer] holds the memories that are not
    archived and are public, or friends-only with an author who is the
    viewer or a friend of the viewer, or private and the viewer's own; it is
    ordered by creation date, newest first. *)
Theorem memories_feed_is_union (db : DB) (viewer : Z) :
  authors_exist db ->
  (forall m, In m (memories_feed viewer db) <-> feed_union db viewer m)
  /\ (forall m, In m (memories_feed viewer db) -> Memory.is_archived m = false)
  /\ StronglySorted newer_or_same (memories_feed viewer db).
Proof.
  intros Hfk. split; [|split].
  - intros m. rewrite memories_feed_In. unfold feed_union. split.
    + intros [Hin [Ha Hv]]. split; [exact Hin|]. split; [exact Ha|].
      apply visible_to_union; [apply Hfk; exact Hin | exact Hv].
    + intros [Hin [Ha Hv]]. split; [exact Hin|]. split; [exact Ha|].
      apply visible_to_union; [apply Hfk; exact Hin | exact Hv].
  - intros m Hm. apply memories_feed_In in Hm. apply Hm.
  - unfold memories_feed, MemoryManager.get_visible_memories.
    apply (filter_sorted Memory.creation_date).
    apply order_by_desc_sorted.
Qed.

Lemma memories_feed_is_union_witness :
  StronglySorted newer_or_same (memories_feed 2 friends_db)
  /\ memories_feed 2 friends_db = rev (rows (memories friends_db)).
Proof.
  split; [|reflexivity].
  apply (memories_feed_is_union friends_db 2).
  intros m [<- | [<- | []]]; simpl.
  - exists (User.mk 1 "ann"). simpl. auto.
  - exists (User.mk 3 "cy"). simpl. auto.
Defined.

(** An archived private memory belongs to the union as C8 lists it, and the
    feed of its author leaves it out: the feed is not that union. *)
Lemma memories_feed_drops_archived_private :
  ~ (forall m, In m (memories_feed 1 archive_db)
               <-> feed_union_private_unfiltered archive_db 1 m).
Proof.
  intros H.
  assert (Hm : feed_union_private_unfiltered archive_db 1
                 archived_private_note).
  { split; [left; reflexivity|]. right. right. split; reflexivity. }
  apply H in Hm. simpl in Hm. exact Hm.
Qed.

(** ** The overall rating *)

Lemma round_half_even_near (x : Q) :
  (Qabs (inject_Z (round_half_even x) - x) <= 1 # 2)%Q.
Proof.
  unfold round_half_even.
  pose proof (Qfloor_le x) as Hlo. pose proof (Qlt_floor x) as Hhi.
  rewrite inject_Z_plus in Hhi. change (inject_Z 1) with 1%Q in Hhi.
  apply Qabs_Qle_condition.
  destruct (Qcompare_spec (x - inject_Z (Qfloor x)) (1 # 2)) as [E | E | E].
  - destruct (Z.even (Qfloor x)).
    + split; lra.
    + rewrite inject_Z_plus. change (inject_Z 1) with 1%Q. split; lra.
  - split; lra.
  - rewrite inject_Z_plus. change (inject_Z 1) with 1%Q. split; lra.
Qed.

Lemma py_round1_nearest (x : Q) : nearest_tenth x (py_round1 x).
Proof.
  unfold nearest_tenth, py_round1. split.
  - eexists. reflexivity.
  - pose proof (round_half_even_near (x * inject_Z 10)) as H.
    apply Qabs_Qle_condition in H. apply Qabs_Qle_condition.
    set (t := inject_Z (round_half_even (x * inject_Z 10))) in *.
    change (inject_Z 10) with (10 # 1)%Q in *.
    unfold Qdiv. change (/ (10 # 1))%Q with (1 # 10)%Q.
    destruct H as [H1 H2]. split; lra.
Qed.

(** The row an accepted submission writes. *)
Lemma submit_review_written (user : Z) (form : ReviewForm.t) (now : Clock)
  (db : DB) (m : string) :
  snd (submit_review user form now db) = [(success, m)] ->
  exists row,
    In row (rows (reviews (fst (submit_review user form now db))))
    /\ LocationReview.user row = user
    /\ LocationReview.location row = ReviewForm.location_id form
    /\ carries form row.
Proof.
  intros Hs.
  destruct (submit_review_success user form now db m Hs)
    as [w [c [n [g [Ew [Ec [En [Eg E]]]]]]]].
  rewrite E. destruct (first _) as [r0|] eqn:Hf.
  - apply first_order_by_desc_some, filter_In in Hf. destruct Hf as [Hin Hp].
    apply andb_true_iff in Hp. destruct Hp as [Hu Hl].
    apply Z.eqb_eq in Hu. apply String.eqb_eq in Hl.
    eexists. split; [|split; [|split]].
    + simpl. unfold save_row. apply in_map_iff. exists r0.
      split; [|exact Hin]. simpl. rewrite Z.eqb_refl. reflexivity.
    + exact Hu.
    + exact Hl.
    + unfold carries. simpl. rewrite Ew, Ec, En. repeat split.
  - eexists. split; [|split; [|split]].
    + simpl. apply in_or_app. right. left. reflexivity.
    + reflexivity.
    + reflexivity.
    + unfold carries. simpl. rewrite Ew, Ec, En. repeat split.
Qed.

(** C9. The [save] override keeps the three sub-ratings and sets the overall
    rating to their mean rounded to one decimal, a whole number of tenths
    within half a tenth of the mean, whatever overall rating the instance
    came with.  Both writes of [submit_review], the insert and the update in
    place, go through it: the row of an accepted submission has the posted
    sub-ratings and the rounded mean, not the overall rating posted. *)
Theorem general_rating_recomputed :
  (forall r : LocationReview.t,
     let r' := LocationReview.save_instance r in
     let mean := mean3 (LocationReview.wifi_rating r)
                   (LocationReview.cleanliness_rating r)
                   (LocationReview.noise_rating r) in
     LocationReview.wifi_rating r' = LocationReview.wifi_rating r
     /\ LocationReview.cleanliness_rating r'
        = LocationReview.cleanliness_rating r
     /\ LocationReview.noise_rating r' = LocationReview.noise_rating r
     /\ LocationReview.general_rating r' = py_round1 mean
     /\ nearest_tenth mean (LocationReview.general_rating r'))
  /\ (forall db user form now m,
        snd (dashboard_post user (act_submit_review form) now db)
        = [(success, m)] ->
        exists row,
          In row (rows (reviews
                    (fst (dashboard_post user (act_submit_review form)
                            now db))))
          /\ LocationReview.user row = user
          /\ LocationReview.location row = ReviewForm.location_id form
          /\ carries form row
          /\ nearest_tenth
               (mean3 (LocationReview.wifi_rating row)
                  (LocationReview.cleanliness_rating row)
                  (LocationReview.noise_rating row))
               (LocationReview.general_rating row)).
Proof.
  split.
  - intros r r' mean. repeat split; try reflexivity.
    + eexists. reflexivity.
    + apply (py_round1_nearest mean).
  - intros db user form now m Hs.
    destruct (submit_review_written user form now
                (sweep_expired (now 0%nat) db) m Hs)
      as [row [Hin [Hu [Hl Hc]]]].
    exists row. repeat split; try assumption; try apply Hc.
    + destruct Hc as [_ [_ [_ [_ [_ Hg]]]]]. rewrite Hg. eexists. reflexivity.
    + destruct Hc as [_ [_ [_ [_ [_ Hg]]]]]. rewrite Hg.
      apply py_round1_nearest.
Qed.

Lemma general_rating_recomputed_witness :
  exists row,
    In row (rows (reviews
              (fst (dashboard_post 1 (act_submit_review first_review)
                      demo_clock empty_db))))
    /\ LocationReview.user row = 1
    /\ LocationReview.location row = "P01_A"
    /\ carries first_review row
    /\ nearest_tenth
         (mean3 (LocationReview.wifi_rating row)
            (LocationReview.cleanliness_rating row)
            (LocationReview.noise_rating row))
         (LocationReview.general_rating row).
Proof.
  exact (proj2 general_rating_recomputed empty_db 1 first_review demo_clock
           "Review submitted for Pillar 1" eq_refl).
Defined.

(** ** Archiving a memory *)

Lemma update_key_split {A : Type} (pk : A -> Z) (f : A -> A) (r0 : A)
  (l : list A) :
  NoDup (map pk l) -> In r0 l ->
  exists l1 l2,
    l = l1 ++ r0 :: l2
    /\ map (fun r => if pk r =? pk r0 then f r else r) l = l1 ++ f r0 :: l2.
Proof.
  intros Hnd Hin. destruct (in_split _ _ Hin) as [l1 [l2 El]].
  exists l1, l2. split; [exact El|]. subst l.
  rewrite map_app in Hnd. simpl in Hnd. apply NoDup_remove_2 in Hnd.
  rewrite map_app. simpl. rewrite Z.eqb_refl.
  f_equal; [|f_equal]; apply map_unchanged;
    intros x Hx; destruct (Z.eqb_spec (pk x) (pk r0)) as [E|E];
    try reflexivity; exfalso; apply Hnd; rewrite <- E; apply in_or_app;
    [left | right]; apply in_map; exact Hx.
Qed.

Lemma save_instance_memory_id (year_of : DateTime -> Z) (m : Memory.t) :
  Memory.memory_id (MemorySave.save_instance year_of m) = Memory.memory_id m
  /\ Memory.is_archived (MemorySave.save_instance year_of m)
     = Memory.is_archived m.
Proof.
  unfold MemorySave.save_instance. destruct (MemorySave.year_unset m); auto.
Qed.

(** The database after the archive action on the memory it found. *)
Lemma archive_memory_found (year_of : DateTime -> Z) (db : DB) (user id : Z)
  (memory : Memory.t) :
  NoDup (map Memory.memory_id (rows (memories db))) ->
  get_object_or_404
    (fun m => (Memory.memory_id m =? id) && (Memory.user m =? user))
    (rows (memories db)) = Some memory ->
  exists table,
    fst (archive_memory year_of user (Parsed id) db)
    = set_memories (mkTable table (next_id (memories db))) db
    /\ replaced memory
         (MemorySave.set_is_archived (negb (Memory.is_archived memory)) memory)
         (rows (memories db)) table.
Proof.
  intros Hnd Hg. unfold archive_memory. rewrite Hg. simpl fst.
  eexists. split; [reflexivity|].
  unfold get_object_or_404 in Hg. apply find_some in Hg.
  destruct Hg as [Hin _].
  destruct (update_key_split Memory.memory_id
              (MemorySave.set_is_archived (negb (Memory.is_archived memory)))
              memory _ Hnd Hin) as [l1 [l2 [El Em]]].
  exists l1, l2. split; [exact El|]. rewrite <- Em.
  unfold MemorySave.save.
  destruct (save_instance_memory_id year_of
              (MemorySave.set_is_archived (negb (Memory.is_archived memory))
                 memory)) as [Eid Ear].
  rewrite Eid. simpl fold_left. unfold MemorySave.write_field.
  rewrite Ear. reflexivity.
Qed.

(** C10. On a memory of the caller the action flips [is_archived], archived
    to restored and back, and answers with the matching word; the row keeps
    its place and every other column, the rest of the database stays, and a
    second call undoes the first.  On a key that is no memory of the caller
    the action is refused and the database stays as it was. *)
Theorem archive_memory_toggles :
  (forall year_of db user id memory,
     NoDup (map Memory.memory_id (rows (memories db))) ->
     get_object_or_404
       (fun m => (Memory.memory_id m =? id) && (Memory.user m =? user))
       (rows (memories db)) = Some memory ->
     let r := archive_memory year_of user (Parsed id) db in
     let memory' :=
       MemorySave.set_is_archived (negb (Memory.is_archived memory)) memory in
     Memory.user memory = user
     /\ Memory.is_archived memory' = negb (Memory.is_archived memory)
     /\ same_but_archived memory memory'
     /\ (exists table,
           fst r = set_memories (mkTable table (next_id (memories db))) db
           /\ replaced memory memory' (rows (memories db)) table)
     /\ snd r
        = [(success,
            ("Memory " ++ quoted (Memory.memory_title memory) ++ " "
             ++ (if Memory.is_archived memory then "restored" else "archived")
             ++ "!")%string)]
     /\ fst (archive_memory year_of user (Parsed id) (fst r)) = db)
  /\ (forall year_of db user id,
        (forall m, In m (rows (memories db)) ->
                   Memory.memory_id m = id -> Memory.user m <> user) ->
        archive_memory year_of user (Parsed id) db
        = (db, [(error, "Error archiving memory")])).
Proof.
  split.
  - intros year_of db user id memory Hnd Hg r memory'.
    pose proof Hg as Hg0. unfold get_object_or_404 in Hg0.
    apply find_some in Hg0. destruct Hg0 as [Hin Hp].
    apply andb_true_iff in Hp. destruct Hp as [Hid Hu].
    apply Z.eqb_eq in Hid. apply Z.eqb_eq in Hu.
    destruct (archive_memory_found year_of db user id memory Hnd Hg)
      as [table [Edb [l1 [l2 [El Et]]]]].
    split; [exact Hu|]. split; [reflexivity|].
    split; [repeat split|].
    split; [exists table; split; [exact Edb | exists l1, l2; auto]|].
    split.
    { unfold r, archive_memory. rewrite Hg. simpl.
      destruct (Memory.is_archived memory); reflexivity. }
    fold r in Edb. rewrite Edb.
    assert (Hnd' : NoDup (map Memory.memory_id table)).
    { rewrite Et, map_app. simpl. rewrite El, map_app in Hnd. exact Hnd. }
    assert (Hg' : get_object_or_404
                    (fun m => (Memory.memory_id m =? id)
                              && (Memory.user m =? user))
                    table = Some memory').
    { unfold get_object_or_404 in *. rewrite Et. rewrite El in Hg.
      rewrite find_skip.
      - simpl. rewrite Hid, Hu, !Z.eqb_refl. reflexivity.
      - intros x Hx.
        destruct (Z.eqb_spec (Memory.memory_id x) id) as [Ex|Ex];
          [|reflexivity].
        exfalso. rewrite El, map_app in Hnd. simpl in Hnd.
        apply NoDup_remove_2 in Hnd. apply Hnd. apply in_or_app. left.
        rewrite Hid, <- Ex. apply in_map. exact Hx. }
    destruct (archive_memory_found year_of
                (set_memories (mkTable table (next_id (memories db))) db)
                user id memory' Hnd' Hg')
      as [table2 [Edb2 [k1 [k2 [Ek Et2]]]]].
    rewrite Edb2. simpl in Ek.
    assert (Hk : k1 = l1 /\ k2 = l2).
    { rewrite Et in Ek. rewrite Et in Hnd'.
      apply (NoDup_split_unique Memory.memory_id memory' l1 l2 k1 k2 Hnd' Ek). }
    destruct Hk as [-> ->].
    assert (Eback : MemorySave.set_is_archived
                      (negb (Memory.is_archived memory')) memory' = memory).
    { unfold memory'. destruct memory as [? ? ? ? ? ? ? ? ? ar ? ? ? ? ? ? ?].
      simpl. unfold MemorySave.set_is_archived. simpl.
      rewrite negb_involutive. reflexivity. }
    rewrite Et2, Eback, <- El.
    destruct db as [us ls sh fr ev ea [mr mn] rv]. reflexivity.
  - intros year_of db user id Hno. unfold archive_memory, get_object_or_404.
    destruct (find _ _) as [m|] eqn:Hf; [|reflexivity].
    apply find_some in Hf. destruct Hf as [Hin Hp].
    apply andb_true_iff in Hp. destruct Hp as [Hid Hu].
    apply Z.eqb_eq in Hid. apply Z.eqb_eq in Hu.
    exfalso. exact (Hno m Hin Hid Hu).
Qed.

Lemma archive_memory_toggles_witness :
  fst (archive_memory demo_year 1 (Parsed 1)
         (fst (archive_memory demo_year 1 (Parsed 1) archive_db)))
  = archive_db.
Proof.
  refine (proj2 (proj2 (proj2 (proj2 (proj2
    (proj1 archive_memory_toggles demo_year archive_db 1 1
       archived_private_note _ eq_refl)))))).
  simpl. constructor; [intros [] | constructor].
Defined.

(** * Further properties *)

(** ** Friendships *)

Lemma filter_all {A : Type} (p : A -> bool) (l : list A) :
  (forall x, In x l -> p x = true) -> filter p l = l.
Proof.
  induction l as [|a l IH]; simpl; intros H; [reflexivity|].
  rewrite (H a (or_introl eq_refl)). f_equal. apply IH.
  intros x Hx. apply H. right. exact Hx.
Qed.

Lemma are_friends_sym (fs : list Friendship.t) (a b : Z) :
  FriendshipManager.are_friends fs a b = FriendshipManager.are_friends fs b a.
Proof.
  unfold FriendshipManager.are_friends. induction fs as [|f fs IH]; simpl;
    [reflexivity|].
  rewrite IH. f_equal. apply orb_comm.
Qed.

(** X1. Friendship is mutual: [are_friends] does not depend on the order of
    its arguments, and of two users of the user table each is in the
    friends list of the other exactly when [are_friends] relates them. *)
Theorem friends_are_mutual (db : DB) (A B : User.t) :
  In A (users db) -> In B (users db) ->
  FriendshipManager.are_friends (rows (friendships db)) (User.id A) (User.id B)
  = FriendshipManager.are_friends (rows (friendships db)) (User.id B)
      (User.id A)
  /\ (FriendshipManager.user_in (User.id B) (friends_list (User.id A) db)
      = true
      <-> FriendshipManager.are_friends (rows (friendships db)) (User.id A)
            (User.id B) = true)
  /\ (FriendshipManager.user_in (User.id B) (friends_list (User.id A) db)
      = true
      <-> FriendshipManager.user_in (User.id A)
            (friends_list (User.id B) db) = true).
Proof.
  intros HA HB. unfold friends_list.
  assert (EA : exists U, In U (users db) /\ User.id U = User.id A)
    by (exists A; auto).
  assert (EB : exists U, In U (users db) /\ User.id U = User.id B)
    by (exists B; auto).
  split; [apply are_friends_sym|]. split.
  - rewrite (user_in_get_friends db (User.id A) (User.id B) EB).
    rewrite are_friends_sym. tauto.
  - rewrite (user_in_get_friends db (User.id A) (User.id B) EB).
    rewrite (user_in_get_friends db (User.id B) (User.id A) EA).
    rewrite are_friends_sym. tauto.
Qed.

Lemma friends_are_mutual_witness :
  FriendshipManager.user_in 2 (friends_list 1 social_db) = true
  <-> FriendshipManager.user_in 1 (friends_list 2 social_db) = true.
Proof.
  apply (friends_are_mutual social_db (User.mk 1 "ann") (User.mk 2 "bob"));
    simpl; auto.
Defined.

Lemma first_filter_some {A : Type} (p : A -> bool) (l : list A) (x : A) :
  In x l -> p x = true -> exists y, first (filter p l) = Some y /\ p y = true.
Proof.
  intros Hin Hp.
  assert (Hf : In x (filter p l)) by (apply filter_In; auto).
  destruct (filter p l) as [|y l'] eqn:E; [destruct Hf|].
  exists y. split; [reflexivity|].
  assert (Hy : In y (filter p l)) by (rewrite E; left; reflexivity).
  apply filter_In in Hy. apply Hy.
Qed.

(** X2. A request towards a user that any relation already links to the
    sender, pending, accepted or blocked and in either direction, and a
    request towards a key that is no user, leave the database as it was
    and announce no success. *)
Theorem send_friend_request_conflict :
  (forall db a b now f,
     In f (rows (friendships db)) -> links a b f = true ->
     fst (send_friend_request a b now db) = db
     /\ forall m, snd (send_friend_request a b now db) <> [(success, m)])
  /\ (forall db a b now,
        (forall U, In U (users db) -> User.id U <> b) ->
        send_friend_request a b now db
        = (db, [(error, "Error sending friend request")])).
Proof.
  split.
  - intros db a b now f Hin Hl. unfold send_friend_request, get_object_or_404.
    destruct (find _ (users db)) as [friend|] eqn:Hu;
      [|split; [reflexivity | intros m; discriminate]].
    apply find_some in Hu. destruct Hu as [_ Hu]. apply Z.eqb_eq in Hu.
    rewrite Hu.
    destruct (first_filter_some (links a b) _ f Hin Hl) as [y [Hy _]].
    unfold links in Hy. rewrite Hy.
    destruct (Friendship.status y =? "accepted")%string;
      [split; [reflexivity | intros m; discriminate]|].
    destruct (Friendship.status y =? "pending")%string;
      split; try reflexivity; intros m; discriminate.
  - intros db a b now Hno. unfold send_friend_request, get_object_or_404.
    destruct (find _ (users db)) as [friend|] eqn:Hu; [|reflexivity].
    apply find_some in Hu. destruct Hu as [Hin Hu]. apply Z.eqb_eq in Hu.
    exfalso. exact (Hno friend Hin Hu).
Qed.

Lemma send_friend_request_conflict_witness :
  fst (send_friend_request 1 3 demo_clock social_db) = social_db
  /\ forall m,
       snd (send_friend_request 1 3 demo_clock social_db) <> [(success, m)].
Proof.
  apply (proj1 send_friend_request_conflict social_db 1 3 demo_clock
           (Friendship.mk 2 3 1 "pending" 300 None)).
  - simpl. auto.
  - reflexivity.
Defined.

Lemma links_sym (a b : Z) (f : Friendship.t) : links a b f = links b a f.
Proof. unfold links. apply orb_comm. Qed.

Lemma NoDup_map_filter {A : Type} (pk : A -> Z) (q : A -> bool) (l : list A) :
  NoDup (map pk l) -> NoDup (map pk (filter q l)).
Proof.
  induction l as [|a l IH]; simpl; intros H; [constructor|].
  inversion H as [|? ? Hni Hnd]; subst.
  destruct (q a); [|apply IH; exact Hnd].
  simpl. constructor; [|apply IH; exact Hnd].
  intros Hin. apply Hni. apply in_map_iff in Hin.
  destruct Hin as [x [Ex Hx]]. apply filter_In in Hx.
  rewrite <- Ex. apply in_map. apply Hx.
Qed.

(** What a friend request does to the database. *)
Lemma send_friend_request_effect (a b : Z) (now : Clock) (db : DB) :
  fst (send_friend_request a b now db) = db
  \/ (filter (links a b) (rows (friendships db)) = []
      /\ fst (send_friend_request a b now db)
         = set_friendships
             (mkTable (rows (friendships db)
                       ++ [Friendship.mk (next_id (friendships db)) a b
                             "pending" (now 0%nat) None])
                (next_id (friendships db) + 1)) db).
Proof.
  unfold send_friend_request, get_object_or_404.
  destruct (find _ (users db)) as [friend|] eqn:Hu; [|left; reflexivity].
  apply find_some in Hu. destruct Hu as [_ Hu]. apply Z.eqb_eq in Hu.
  rewrite Hu. fold (links a b).
  destruct (filter (links a b) (rows (friendships db))) as [|y l] eqn:E.
  - right. split; reflexivity.
  - left. simpl.
    destruct (Friendship.status y =? "accepted")%string; [reflexivity|].
    destruct (Friendship.status y =? "pending")%string; reflexivity.
Qed.

(** What an answer to a friend request does to the database. *)
Lemma respond_friend_request_effect (user k : Z) (action : string)
  (now : Clock) (db : DB) :
  fst (respond_friend_request user k action now db) = db
  \/ exists f,
       In f (rows (friendships db))
       /\ Friendship.friendship_id f = k
       /\ Friendship.user2 f = user
       /\ Friendship.status f = "pending"
       /\ (fst (respond_friend_request user k action now db)
           = set_friendships
               (with_rows
                  (save_row Friendship.friendship_id
                     (Friendship.accept (now 0%nat) f)
                     (rows (friendships db)))
                  (friendships db)) db
           \/ fst (respond_friend_request user k action now db)
              = set_friendships
                  (with_rows
                     (filter (fun g => negb (Friendship.friendship_id g
                                             =? Friendship.friendship_id f))
                        (rows (friendships db)))
                     (friendships db)) db).
Proof.
  unfold respond_friend_request, get_object_or_404.
  destruct (find _ _) as [f|] eqn:Hf; [|left; reflexivity].
  apply find_some in Hf. destruct Hf as [Hin Hp].
  apply andb_true_iff in Hp. destruct Hp as [Hp Hs].
  apply andb_true_iff in Hp. destruct Hp as [Hk Hu].
  apply Z.eqb_eq in Hk, Hu. apply String.eqb_eq in Hs.
  destruct (action =? "accept")%string.
  - right. exists f. repeat split; auto.
  - destruct (action =? "reject")%string; [|left; reflexivity].
    right. exists f. repeat split; auto.
Qed.

(** X3. The two friendship handlers keep the friendship table well-formed:
    keys stay distinct and below the counter, and no pair of users ever
    gets a second relation, in either order. *)
Theorem friendships_stay_unique (db : DB) :
  friendships_wf (friendships db) ->
  (forall a b now,
     friendships_wf (friendships (fst (send_friend_request a b now db))))
  /\ (forall user k action now,
        friendships_wf
          (friendships (fst (respond_friend_request user k action now db)))).
Proof.
  intros [Hnd [Hk Hu]]. split.
  - intros a b now.
    destruct (send_friend_request_effect a b now db) as [E | [Hf E]];
      rewrite E; [repeat split; assumption|].
    unfold friendships_wf, keys_below. simpl. split; [|split].
    + rewrite map_app. simpl. apply NoDup_app_fresh; [exact Hnd|].
      intros Hin. apply in_map_iff in Hin. destruct Hin as [r [Er Hr]].
      specialize (Hk r Hr). lia.
    + intros r Hr. apply in_app_or in Hr.
      destruct Hr as [Hr | [<- | []]]; [specialize (Hk r Hr)|]; simpl; lia.
    + intros x y. rewrite filter_app, length_app. simpl.
      destruct (links x y _) eqn:El; simpl; [|specialize (Hu x y); lia].
      assert (Exy : filter (links x y) (rows (friendships db)) = []).
      { unfold links in El. simpl in El. apply orb_true_iff in El.
        destruct El as [El | El]; apply andb_true_iff in El;
          destruct El as [E1 E2]; apply Z.eqb_eq in E1, E2; subst x y.
        - exact Hf.
        - rewrite <- Hf. apply filter_ext. intros f. apply links_sym. }
      rewrite Exy. simpl. lia.
  - intros user k action now.
    destruct (respond_friend_request_effect user k action now db)
      as [E | [f [Hin [_ [_ [_ [E | E]]]]]]]; rewrite E;
      [repeat split; assumption | |].
    + destruct (save_row_split Friendship.friendship_id
                  (Friendship.accept (now 0%nat) f) f _ Hnd Hin eq_refl)
        as [l1 [l2 [El El']]].
      unfold friendships_wf, keys_below, with_rows. simpl rows.
      simpl next_id. rewrite El'. split; [|split].
      * rewrite map_app. simpl. rewrite El, map_app in Hnd. exact Hnd.
      * intros r Hr. apply in_app_or in Hr. simpl in Hr.
        destruct Hr as [Hr | [<- | Hr]].
        -- apply Hk. rewrite El. apply in_or_app. left. exact Hr.
        -- apply (Hk f Hin).
        -- apply Hk. rewrite El. apply in_or_app. right. right. exact Hr.
      * intros x y. specialize (Hu x y). rewrite El in Hu.
        rewrite filter_app, length_app in *. simpl in *.
        replace (links x y (Friendship.accept (now 0%nat) f))
          with (links x y f) by reflexivity.
        destruct (links x y f); simpl in *; exact Hu.
    + unfold friendships_wf, keys_below, with_rows. simpl rows.
      simpl next_id. split; [|split].
      * apply NoDup_map_filter. exact Hnd.
      * intros r Hr. apply filter_In in Hr. apply Hk. apply Hr.
      * intros x y. specialize (Hu x y).
        rewrite <- filter_and.
        rewrite (filter_ext _ (fun g =>
                   links x y g
                   && negb (Friendship.friendship_id g
                            =? Friendship.friendship_id f))).
        -- rewrite filter_and.
           pose proof (filter_length_bound
                         (fun g => negb (Friendship.friendship_id g
                                         =? Friendship.friendship_id f))
                         (filter (links x y) (rows (friendships db)))).
           lia.
        -- intros g. apply andb_comm.
Qed.

Lemma friendships_stay_unique_witness :
  friendships_wf
    (friendships (fst (respond_friend_request 1 2 "accept" demo_clock
                         social_db))).
Proof.
  apply (friendships_stay_unique social_db).
  split; [|split].
  - simpl. constructor; [intros [H | []]; discriminate H|].
    constructor; [intros [] | constructor].
  - intros r [<- | [<- | []]]; reflexivity.
  - intros a b. unfold links, social_db.
    cbn [rows friendships filter Friendship.user1 Friendship.user2].
    destruct (Z.eqb_spec 1 a), (Z.eqb_spec 2 b), (Z.eqb_spec 1 b),
      (Z.eqb_spec 2 a), (Z.eqb_spec 3 a), (Z.eqb_spec 3 b); simpl; lia.
Defined.

(** The fresh request is the row a lookup by its key and recipient finds. *)
Lemma fresh_request_found (db : DB) (a b : Z) (now : Clock) :
  keys_below Friendship.friendship_id (friendships db) ->
  (exists U, In U (users db) /\ User.id U = b) ->
  unrelated db a b ->
  let k := next_id (friendships db) in
  let new := Friendship.mk k a b "pending" (now 0%nat) None in
  let db1 := fst (send_friend_request a b now db) in
  db1 = set_friendships (mkTable (rows (friendships db) ++ [new]) (k + 1)) db
  /\ (forall f, In f (rows (friendships db)) ->
                (Friendship.friendship_id f =? k) = false)
  /\ get_object_or_404
       (fun f => (Friendship.friendship_id f =? k)
                 && (Friendship.user2 f =? b)
                 && (Friendship.status f =? "pending")%string)
       (rows (friendships db1)) = Some new.
Proof.
  intros Hk HU Hun k new db1.
  assert (Hold : forall f, In f (rows (friendships db)) ->
                           (Friendship.friendship_id f =? k) = false).
  { intros f Hf. apply Z.eqb_neq. specialize (Hk f Hf). fold k in Hk. lia. }
  assert (E : db1 = set_friendships
                      (mkTable (rows (friendships db) ++ [new]) (k + 1)) db).
  { unfold db1.
    destruct (send_friend_request_effect a b now db) as [E | [_ E]];
      [|exact E].
    exfalso.
    pose proof (send_friend_request_fresh db a b now HU Hun) as F.
    rewrite E in F. apply (f_equal next_id) in F. simpl in F. lia. }
  split; [exact E|]. split; [exact Hold|].
  rewrite E. simpl rows. unfold get_object_or_404. rewrite find_skip.
  - simpl. rewrite !Z.eqb_refl. reflexivity.
  - intros f Hf. rewrite (Hold f Hf). reflexivity.
Qed.

(** X4. A fresh request shows among the pending requests its recipient has
    received and among those its sender has sent.  Once accepted it is in
    no list of pending requests, and each of the two users is in the
    friends list of the other. *)
Theorem friend_request_lifecycle (db : DB) (a b : Z) (now now' : Clock) :
  keys_below Friendship.friendship_id (friendships db) ->
  (exists U, In U (users db) /\ User.id U = a) ->
  (exists U, In U (users db) /\ User.id U = b) ->
  unrelated db a b ->
  let k := next_id (friendships db) in
  let new := Friendship.mk k a b "pending" (now 0%nat) None in
  let db1 := fst (send_friend_request a b now db) in
  let db2 := fst (respond_friend_request b k "accept" now' db1) in
  In new (fst (friend_requests b db1))
  /\ In new (snd (friend_requests a db1))
  /\ (forall u f,
        In f (fst (friend_requests u db2)) \/ In f (snd (friend_requests u db2))
        -> Friendship.friendship_id f <> k)
  /\ FriendshipManager.user_in b (friends_list a db2) = true
  /\ FriendshipManager.user_in a (friends_list b db2) = true.
Proof.
  intros Hk HA HB Hun k new db1 db2.
  destruct (fresh_request_found db a b now Hk HB Hun) as [E1 [Hold Hg]].
  fold k in Hold, Hg. fold new in E1, Hg. fold db1 in E1, Hg.
  assert (E2 : db2 = set_friendships
                       (mkTable (rows (friendships db)
                                 ++ [Friendship.accept (now' 0%nat) new])
                          (k + 1)) db).
  { unfold db2, respond_friend_request. rewrite Hg. simpl.
    rewrite E1. unfold set_friendships, with_rows. simpl. f_equal. f_equal.
    unfold save_row. rewrite map_app. simpl. rewrite Z.eqb_refl.
    f_equal. apply map_unchanged. intros f Hf. simpl.
    rewrite (Hold f Hf). reflexivity. }
  split; [|split; [|split; [|split]]].
  - rewrite E1. simpl. apply filter_In. split.
    + apply in_or_app. right. left. reflexivity.
    + simpl. rewrite Z.eqb_refl. reflexivity.
  - rewrite E1. simpl. apply filter_In. split.
    + apply in_or_app. right. left. reflexivity.
    + simpl. rewrite Z.eqb_refl. reflexivity.
  - intros u f Hf Hid. rewrite E2 in Hf. simpl in Hf.
    assert (Hin : In f (rows (friendships db)
                        ++ [Friendship.accept (now' 0%nat) new])
                  /\ Friendship.status f = "pending").
    { destruct Hf as [Hf | Hf]; apply filter_In in Hf; destruct Hf as [Hf Hp];
        apply andb_true_iff in Hp; destruct Hp as [_ Hp];
        apply String.eqb_eq in Hp; auto. }
    destruct Hin as [Hin Hs]. apply in_app_or in Hin.
    destruct Hin as [Hin | [<- | []]].
    + specialize (Hold f Hin). apply Z.eqb_neq in Hold. contradiction.
    + discriminate Hs.
  - unfold friends_list.
    apply (user_in_get_friends db2 a b).
    + rewrite E2. exact HB.
    + rewrite E2. simpl. unfold FriendshipManager.are_friends.
      rewrite existsb_app. apply orb_true_iff. right. simpl.
      unfold FriendshipManager.accepted_from. simpl.
      rewrite !Z.eqb_refl. simpl. destruct (a =? b), (b =? a); reflexivity.
  - unfold friends_list.
    apply (user_in_get_friends db2 b a).
    + rewrite E2. exact HA.
    + rewrite E2. simpl. unfold FriendshipManager.are_friends.
      rewrite existsb_app. apply orb_true_iff. right. simpl.
      unfold FriendshipManager.accepted_from. simpl.
      rewrite !Z.eqb_refl. reflexivity.
Qed.

Lemma friend_request_lifecycle_witness :
  FriendshipManager.user_in 2
    (friends_list 1
       (fst (respond_friend_request 2 1 "accept" demo_clock
               (fst (send_friend_request 1 2 demo_clock empty_db))))) = true.
Proof.
  refine (proj1 (proj2 (proj2 (proj2
    (friend_request_lifecycle empty_db 1 2 demo_clock demo_clock _ _ _ _))))).
  - intros r [].
  - exists (User.mk 1 "ann"). simpl. auto.
  - exists (User.mk 2 "bob"). simpl. auto.
  - intros f [].
Defined.

(** X5. An answer to a request is refused, and the database stays, unless
    the answering user is the recipient of a pending request with that
    key: the sender cannot accept the own request, and after an acceptance
    no further answer, from anyone, can accept it again or delete it. *)
Theorem respond_needs_pending_recipient :
  (forall db user k action now,
     (forall f, In f (rows (friendships db)) ->
                Friendship.friendship_id f = k ->
                Friendship.user2 f <> user
                \/ Friendship.status f <> "pending") ->
     respond_friend_request user k action now db
     = (db, [(error, "Error processing friend request")]))
  /\ (forall db user k now m user' action' now',
        NoDup (map Friendship.friendship_id (rows (friendships db))) ->
        snd (respond_friend_request user k "accept" now db)
        = [(success, m)] ->
        let db' := fst (respond_friend_request user k "accept" now db) in
        respond_friend_request user' k action' now' db'
        = (db', [(error, "Error processing friend request")])).
Proof.
  assert (H1 : forall db user k action now,
     (forall f, In f (rows (friendships db)) ->
                Friendship.friendship_id f = k ->
                Friendship.user2 f <> user
                \/ Friendship.status f <> "pending") ->
     respond_friend_request user k action now db
     = (db, [(error, "Error processing friend request")])).
  { intros db user k action now Hno.
    unfold respond_friend_request, get_object_or_404.
    destruct (find _ _) as [f|] eqn:Hf; [|reflexivity].
    apply find_some in Hf. destruct Hf as [Hin Hp].
    apply andb_true_iff in Hp. destruct Hp as [Hp Hs].
    apply andb_true_iff in Hp. destruct Hp as [Hk Hu].
    apply Z.eqb_eq in Hk, Hu. apply String.eqb_eq in Hs.
    destruct (Hno f Hin Hk); contradiction. }
  split; [exact H1|].
  intros db user k now m user' action' now' Hnd Hs db'.
  apply H1. intros g Hg Hid. right.
  unfold db', respond_friend_request, get_object_or_404 in Hg, Hs.
  destruct (find _ _) as [f|] eqn:Hf; [|discriminate Hs].
  apply find_some in Hf. destruct Hf as [Hin Hp].
  apply andb_true_iff in Hp. destruct Hp as [Hp _].
  apply andb_true_iff in Hp. destruct Hp as [Hk _]. apply Z.eqb_eq in Hk.
  simpl in Hg.
  destruct (save_row_split Friendship.friendship_id
              (Friendship.accept (now 0%nat) f) f _ Hnd Hin eq_refl)
    as [l1 [l2 [El El']]].
  rewrite El' in Hg. rewrite El, map_app in Hnd. simpl in Hnd.
  apply NoDup_remove_2 in Hnd.
  apply in_app_or in Hg. destruct Hg as [Hg | [<- | Hg]].
  - exfalso. apply Hnd. apply in_or_app. left. rewrite Hk, <- Hid.
    apply in_map. exact Hg.
  - discriminate.
  - exfalso. apply Hnd. apply in_or_app. right. rewrite Hk, <- Hid.
    apply in_map. exact Hg.
Qed.

Lemma respond_needs_pending_recipient_witness :
  respond_friend_request 3 2 "accept" demo_clock social_db
  = (social_db, [(error, "Error processing friend request")]).
Proof.
  apply (proj1 respond_needs_pending_recipient).
  intros f [<- | [<- | []]]; simpl; intros H; try discriminate H.
  left. discriminate.
Defined.

(** X6. A fresh request that its recipient rejects leaves the rows of the
    friendship table as they were before the request, so the same request
    can be made again; the key it had used is not handed out again. *)
Theorem request_then_reject (db : DB) (a b : Z) (now now' : Clock) :
  keys_below Friendship.friendship_id (friendships db) ->
  (exists U, In U (users db) /\ User.id U = b) ->
  unrelated db a b ->
  let k := next_id (friendships db) in
  let db1 := fst (send_friend_request a b now db) in
  let r := respond_friend_request b k "reject" now' db1 in
  snd r = [(info, "Friend request declined")]
  /\ rows (friendships (fst r)) = rows (friendships db)
  /\ next_id (friendships (fst r)) = k + 1
  /\ unrelated (fst r) a b.
Proof.
  intros Hk HB Hun k db1 r.
  destruct (fresh_request_found db a b now Hk HB Hun) as [E1 [Hold Hg]].
  fold k in Hold, Hg. fold db1 in E1, Hg.
  assert (Er : r = (set_friendships
                      (mkTable (rows (friendships db)) (k + 1)) db,
                    [(info, "Friend request declined")])).
  { unfold r, respond_friend_request. rewrite Hg. simpl.
    rewrite E1. unfold set_friendships, with_rows. simpl.
    f_equal. f_equal. f_equal.
    rewrite filter_app. simpl. rewrite Z.eqb_refl. simpl.
    rewrite app_nil_r. apply filter_all. intros f Hf.
    rewrite (Hold f Hf). reflexivity. }
  rewrite Er. simpl. repeat split; try reflexivity.
  - apply (Hun f H).
  - apply (Hun f H).
Qed.

Lemma request_then_reject_witness :
  rows (friendships
          (fst (respond_friend_request 2 1 "reject" demo_clock
                  (fst (send_friend_request 1 2 demo_clock empty_db)))))
  = rows (friendships empty_db).
Proof.
  refine (proj1 (proj2
    (request_then_reject empty_db 1 2 demo_clock demo_clock _ _ _))).
  - intros r [].
  - exists (User.mk 2 "bob"). simpl. auto.
  - intros f [].
Defined.

(** ** Shares *)

Lemma filter_qs_update {A : Type} (p q : A -> bool) (f : A -> A)
  (l : list A) :
  (forall x, p x = true -> q x = false /\ q (f x) = false) ->
  filter q (qs_update p f l) = filter q l.
Proof.
  intros H. unfold qs_update. induction l as [|a l IH]; simpl;
    [reflexivity|].
  destruct (p a) eqn:Ep.
  - destruct (H a Ep) as [-> ->]. exact IH.
  - destruct (q a); rewrite IH; reflexivity.
Qed.

Lemma qs_update_twice {A : Type} (p : A -> bool) (f : A -> A) (l : list A) :
  (forall x, p x = true -> p (f x) = false) ->
  qs_update p f (qs_update p f l) = qs_update p f l.
Proof.
  intros H. unfold qs_update. rewrite map_map. apply map_ext. intros a.
  destruct (p a) eqn:Ep; [rewrite (H a Ep) | rewrite Ep]; reflexivity.
Qed.

Lemma shares_sweep_expired (t : DateTime) (db : DB) :
  rows (location_shares (sweep_expired t db))
  = qs_update (fun s => (LocationShare.expires_at s <=? t)
                        && LocationShare.is_active s)
      LocationShare.deactivate (rows (location_shares db)).
Proof. reflexivity. Qed.

Lemma friendships_sweep_expired (t : DateTime) (db : DB) :
  friendships (sweep_expired t db) = friendships db
  /\ users (sweep_expired t db) = users db.
Proof. split; reflexivity. Qed.

(** X7. The sweep is invisible to the readers of shares: a sweep at [t]
    changes neither the feed of friends, nor an occupancy count, nor the
    current share, read at [t] or later; and sweeping twice is sweeping
    once. *)
Theorem sweep_is_invisible (db : DB) (t t' : DateTime) :
  t <= t' ->
  (forall user cutoff,
     friends_recent_shares user cutoff t' (sweep_expired t db)
     = friends_recent_shares user cutoff t' db)
  /\ (forall location_id,
        active_users_at location_id t'
          (rows (location_shares (sweep_expired t db)))
        = active_users_at location_id t' (rows (location_shares db)))
  /\ (forall user,
        current_share user t' (sweep_expired t db) = current_share user t' db)
  /\ sweep_expired t (sweep_expired t db) = sweep_expired t db.
Proof.
  intros Hle.
  assert (Hx : forall s,
             (LocationShare.expires_at s <=? t) && LocationShare.is_active s
             = true ->
             (t' <? LocationShare.expires_at s) = false).
  { intros s Hs. apply andb_true_iff in Hs. destruct Hs as [Hs _].
    apply Z.leb_le in Hs. apply Z.ltb_ge. lia. }
  split; [|split; [|split]].
  - intros user cutoff. unfold friends_recent_shares.
    rewrite shares_sweep_expired.
    destruct (friendships_sweep_expired t db) as [-> ->].
    f_equal. f_equal. apply filter_qs_update. intros s Hs.
    simpl. rewrite (Hx s Hs). rewrite !andb_false_r. simpl. auto.
  - intros location_id. unfold active_users_at.
    rewrite shares_sweep_expired.
    f_equal. f_equal. apply filter_qs_update. intros s Hs.
    simpl. rewrite (Hx s Hs). rewrite !andb_false_r. auto.
  - intros user. unfold current_share.
    rewrite shares_sweep_expired, locations_sweep_expired.
    f_equal. f_equal. f_equal. apply filter_qs_update. intros s Hs.
    simpl. rewrite (Hx s Hs). rewrite !andb_false_r. auto.
  - unfold sweep_expired, set_location_shares, with_rows. simpl.
    f_equal. f_equal. apply qs_update_twice. intros s _.
    simpl. apply andb_false_r.
Qed.

Lemma sweep_is_invisible_witness :
  rows (location_shares (sweep_expired 1000 stale_db))
  = [LocationShare.mk 1 2 "P01_A" 100 500 false "all_friends" "busy"
       "check_in";
     LocationShare.mk 2 2 "P01_A" 900 20000 true "all_friends" "studying"
       "check_in"]
  /\ friends_recent_shares 1 0 1500 (sweep_expired 1000 stale_db)
     = friends_recent_shares 1 0 1500 stale_db
  /\ active_users_at "P01_A" 1500
       (rows (location_shares (sweep_expired 1000 stale_db)))
     = active_users_at "P01_A" 1500 (rows (location_shares stale_db))
  /\ current_share 2 1500 (sweep_expired 1000 stale_db)
     = current_share 2 1500 stale_db
  /\ sweep_expired 1000 (sweep_expired 1000 stale_db)
     = sweep_expired 1000 stale_db.
Proof.
  destruct (sweep_is_invisible stale_db 1000 1500 ltac:(lia))
    as [H1 [H2 [H3 H4]]].
  split; [reflexivity|].
  split; [apply H1|]. split; [apply H2|]. split; [apply H3|].
  refine (proj2 (proj2 (proj2 (sweep_is_invisible stale_db 1000 1000 _)))).
  lia.
Defined.

Lemma user_in_friends_are_friends (fs : list Friendship.t)
  (users : list User.t) (viewer x : Z) :
  FriendshipManager.user_in x (FriendshipManager.get_friends fs users viewer)
  = true ->
  FriendshipManager.are_friends fs x viewer = true.
Proof.
  unfold FriendshipManager.user_in, FriendshipManager.get_friends,
    FriendshipManager.are_friends.
  rewrite !existsb_exists. intros [V [HV E]]. apply filter_In in HV.
  destruct HV as [_ Hf]. apply Z.eqb_eq in E. rewrite E in Hf.
  apply orb_true_iff in Hf. rewrite !existsb_exists in Hf.
  destruct Hf as [[f [Hf Hp]] | [f [Hf Hp]]]; exists f;
    (split; [exact Hf|]); rewrite Hp; [apply orb_true_r | reflexivity].
Qed.

Lemma firstn_sorted {A : Type} (R : A -> A -> Prop) (n : nat) (l : list A) :
  StronglySorted R l -> StronglySorted R (firstn n l).
Proof.
  revert l. induction n as [|n IH]; intros l Hs; [constructor|].
  destruct l as [|a l]; simpl; [constructor|].
  inversion Hs as [|? ? Hs' Ha]; subst. constructor; [apply IH; exact Hs'|].
  apply Forall_forall. intros x Hx. apply firstn_subset in Hx.
  rewrite Forall_forall in Ha. apply Ha. exact Hx.
Qed.

(** X8. The feed of friends shows shares of friends only: each row is a row
    of the share table whose owner [are_friends] relates to the viewer,
    flagged active, not expired by [is_expired] at the time of the query
    and not older than the cutoff.  The feed has at most twenty rows, the
    most recently shared first. *)
Theorem feed_shows_friends_only (db : DB) (viewer : Z) (cutoff t : DateTime) :
  (forall s, In s (friends_recent_shares viewer cutoff t db) ->
     In s (rows (location_shares db))
     /\ FriendshipManager.are_friends (rows (friendships db))
          (LocationShare.user s) viewer = true
     /\ LocationShare.is_active s = true
     /\ LocationShareMethods.is_expired s t = false
     /\ cutoff <= LocationShare.shared_at s)
  /\ (List.length (friends_recent_shares viewer cutoff t db) <= 20)%nat
  /\ StronglySorted (descending LocationShare.shared_at)
       (friends_recent_shares viewer cutoff t db).
Proof.
  split; [|split].
  - intros s H. unfold friends_recent_shares in H.
    apply firstn_subset, order_by_desc_In, filter_In in H.
    destruct H as [Hin Hp].
    apply andb_true_iff in Hp. destruct Hp as [Hp Hc].
    apply andb_true_iff in Hp. destruct Hp as [Hp Ht].
    apply andb_true_iff in Hp. destruct Hp as [Hf Ha].
    apply Z.ltb_lt in Ht. apply Z.leb_le in Hc.
    split; [exact Hin|]. split.
    { eapply user_in_friends_are_friends. exact Hf. }
    split; [exact Ha|]. split; [|exact Hc].
    unfold LocationShareMethods.is_expired. apply Z.ltb_ge. lia.
  - unfold friends_recent_shares. apply firstn_le_length.
  - unfold friends_recent_shares. apply firstn_sorted.
    apply order_by_desc_sorted.
Qed.

Lemma feed_shows_friends_only_witness :
  FriendshipManager.are_friends (rows (friendships sharing_db)) 2 1 = true.
Proof.
  refine (proj1 (proj2 (proj1 (feed_shows_friends_only sharing_db 1 0 5000)
    (LocationShare.mk 2 2 "P01_A" 1000 20000 true "all_friends" "studying"
       "check_in") _))).
  simpl. left. reflexivity.
Defined.

Lemma current_share_none (user : Z) (t : DateTime) (db : DB) :
  filter (active_of user) (rows (location_shares db)) = [] ->
  current_share user t db = None.
Proof.
  intros H. unfold current_share.
  rewrite (filter_ext _ (fun s => active_of user s
                                  && (t <? LocationShare.expires_at s)))
    by (intros s; reflexivity).
  rewrite filter_and, H. reflexivity.
Qed.

(** X9. After [stop_sharing] the user has no share flagged active and no
    current share, at whatever time one asks; the shares of the other
    users are as they were; and the session receives a review prompt
    exactly when the user had a current share, for the location of that
    share. *)
Theorem stop_sharing_clears (user : Z) (now : Clock) (db : DB) :
  let r := stop_sharing user now db in
  let db' := fst (fst r) in
  filter (active_of user) (rows (location_shares db')) = []
  /\ (forall t, current_share user t db' = None)
  /\ filter (fun s => negb (LocationShare.user s =? user))
       (rows (location_shares db'))
     = filter (fun s => negb (LocationShare.user s =? user))
         (rows (location_shares db))
  /\ snd (fst r) = [(success, "Location sharing stopped")]
  /\ snd r
     = option_map
         (fun p => (Location.location_id (snd p),
                    Location.location_name (snd p)))
         (current_share user (now 1%nat) db).
Proof.
  intros r db'.
  assert (E : rows (location_shares db')
              = qs_update (active_of user) LocationShare.deactivate
                  (rows (location_shares db))).
  { unfold db', r, stop_sharing.
    destruct (current_share user (now 1%nat) db) as [[s l]|]; reflexivity. }
  assert (F : filter (active_of user) (rows (location_shares db')) = []).
  { rewrite E. apply deactivate_user_clears. }
  split; [exact F|]. split; [intros t; apply current_share_none; exact F|].
  split; [|split].
  - rewrite E. apply filter_qs_update. intros s Hs.
    unfold active_of in Hs. apply andb_true_iff in Hs. destruct Hs as [Hs _].
    simpl. rewrite Hs. auto.
  - unfold r, stop_sharing.
    destruct (current_share user (now 1%nat) db) as [[s l]|]; reflexivity.
  - unfold r, stop_sharing.
    destruct (current_share user (now 1%nat) db) as [[s l]|]; reflexivity.
Qed.

Lemma find_map_same_key {A : Type} (p : A -> bool) (g : A -> A)
  (l : list A) :
  (forall x, p (g x) = p x) ->
  find p (map g l) = option_map g (find p l).
Proof.
  intros H. induction l as [|a l IH]; simpl; [reflexivity|].
  rewrite H. destruct (p a); [reflexivity | exact IH].
Qed.

(** X10. A share that went through is the current share of its user for as
    long as it has not expired, also after a sweep: the lookup returns the
    new row joined to its location, whose stored occupancy is the number of
    active, unexpired shares there and counts the new share while the
    clock has not passed its expiry. *)
Theorem share_then_current_share (db : DB) (u : Z) (location_id : string)
  (status_message : option string) (now : Clock) (location : Location.t)
  (t0 t : DateTime) :
  truthy location_id = true ->
  get_object_or_404 (fun l => (Location.location_id l =? location_id)%string)
    (locations db) = Some location ->
  t0 < now 1%nat + timedelta_hours 4 ->
  t < now 1%nat + timedelta_hours 4 ->
  let db' :=
    fst (dashboard_post u (act_share_location location_id status_message)
           now db) in
  let new :=
    LocationShare.mk (next_id (location_shares db)) u
      (Location.location_id location) (now 2%nat)
      (now 1%nat + timedelta_hours 4) true "all_friends"
      (match status_message with Some s => s | None => "studying" end)
      "check_in" in
  let count :=
    active_users_at (Location.location_id location) (now 3%nat)
      (rows (location_shares db')) in
  current_share u t (sweep_expired t0 db')
  = Some (new, Location.set_active_users_count count location)
  /\ (now 3%nat < now 1%nat + timedelta_hours 4 -> 1 <= count).
Proof.
  intros Ht Hl Ht0 Hlt db' new count.
  pose proof (share_location_rows db u location_id status_message now
                location Ht Hl) as E. fold db' in E. fold new in E.
  assert (Hloc : locations db'
                 = Location.save_column (Location.location_id location)
                     (Location.set_active_users_count count) (locations db)).
  { unfold count, db', dashboard_post, share_location. rewrite Ht.
    rewrite locations_sweep_expired, Hl. reflexivity. }
  pose proof Hl as Hl'. unfold get_object_or_404 in Hl'.
  apply find_some in Hl'. destruct Hl' as [_ Hid].
  apply String.eqb_eq in Hid.
  split.
  - unfold current_share.
    rewrite shares_sweep_expired, locations_sweep_expired, E.
    set (q := fun s => (LocationShare.user s =? u)
                       && LocationShare.is_active s
                       && (t <? LocationShare.expires_at s)).
    assert (Hq : filter q
                   (qs_update
                      (fun s => (LocationShare.expires_at s <=? t0)
                                && LocationShare.is_active s)
                      LocationShare.deactivate
                      (qs_update (active_of u) LocationShare.deactivate
                         (rows (location_shares
                                  (sweep_expired (now 0%nat) db)))
                       ++ [new]))
                 = [new]).
    { unfold qs_update at 1. rewrite map_app, filter_app. simpl.
      assert (Hn1 : (now 1%nat + timedelta_hours 4 <=? t0) = false)
        by (apply Z.leb_gt; lia).
      rewrite Hn1. simpl.
      assert (Hn2 : q new = true).
      { unfold q. simpl. rewrite Z.eqb_refl. simpl. apply Z.ltb_lt. lia. }
      rewrite Hn2.
      rewrite filter_none; [reflexivity|].
      intros s Hs. apply in_map_iff in Hs. destruct Hs as [r [<- Hr]].
      unfold qs_update in Hr. apply in_map_iff in Hr.
      destruct Hr as [r0 [<- _]].
      unfold q, active_of.
      destruct (LocationShare.user r0 =? u) eqn:Eu;
        destruct (LocationShare.is_active r0) eqn:Ea; simpl;
        rewrite ?Eu, ?Ea; simpl;
        try (destruct (LocationShare.expires_at r0 <=? t0); simpl;
             rewrite ?Eu, ?Ea; reflexivity);
        reflexivity. }
    fold q. rewrite Hq. simpl.
    rewrite Hloc. unfold Location.save_column.
    rewrite find_map_same_key.
    + rewrite Hid. unfold get_object_or_404 in Hl. rewrite Hl. simpl.
      rewrite Hid, String.eqb_refl. reflexivity.
    + intros x. simpl.
      destruct (Location.location_id x =? _)%string eqn:Ex; simpl;
        rewrite ?Ex; reflexivity.
  - intros H3. unfold count, active_users_at. rewrite E, filter_app.
    simpl. rewrite String.eqb_refl. simpl.
    assert (H : (now 3%nat <? now 1%nat + timedelta_hours 4) = true)
      by (apply Z.ltb_lt; lia).
    rewrite H. rewrite length_app. simpl. lia.
Qed.

Lemma share_then_current_share_witness :
  current_share 1 5000
    (sweep_expired 4000
       (fst (dashboard_post 1 (act_share_location "P01_A" None) demo_clock
               empty_db)))
  = Some (LocationShare.mk 1 1 "P01_A" 1002 (1001 + timedelta_hours 4) true
            "all_friends" "studying" "check_in",
          Location.mk "P01_A" "Pillar 1" true 1 "light").
Proof.
  refine (proj1 (share_then_current_share empty_db 1 "P01_A" None demo_clock
                   (Location.mk "P01_A" "Pillar 1" true 0 "light")
                   4000 5000 eq_refl eq_refl _ _)); reflexivity.
Defined.

(** X11. [time_since_shared] looks at the seconds of the last, unfinished
    day first: a share made a whole number of days and less than a minute
    ago reads Just now, and one made a whole number of days and between one
    and two minutes ago reads 1 minute ago, whatever the number of days. *)
Theorem time_since_shared_ignores_days (s : LocationShare.t) (days us : Z) :
  0 <= us < 60 * 1000000 ->
  LocationShareMethods.time_since_shared s
    (LocationShare.shared_at s + days * day_us + us) = "Just now"
  /\ LocationShareMethods.time_since_shared s
       (LocationShare.shared_at s + days * day_us + 60 * 1000000 + us)
     = "1 minute ago".
Proof.
  intros Hus. unfold LocationShareMethods.time_since_shared, td_seconds.
  replace (LocationShare.shared_at s + days * day_us + us
           - LocationShare.shared_at s) with (us + days * day_us) by lia.
  replace (LocationShare.shared_at s + days * day_us + 60 * 1000000 + us
           - LocationShare.shared_at s)
    with (60 * 1000000 + us + days * day_us) by lia.
  assert (Hd : day_us = 86400000000) by reflexivity.
  rewrite !Z.mod_add by (rewrite Hd; lia).
  rewrite !Z.mod_small by (rewrite Hd; lia).
  assert (H1 : us / 1000000 < 60)
    by (apply Z.div_lt_upper_bound; lia).
  assert (H2 : (60 * 1000000 + us) / 1000000 = 60 + us / 1000000).
  { replace (60 * 1000000 + us) with (us + 60 * 1000000) by lia.
    rewrite Z.div_add by lia. lia. }
  assert (H0 : 0 <= us / 1000000) by (apply Z.div_pos; lia).
  split.
  - apply Z.ltb_lt in H1. rewrite H1. reflexivity.
  - rewrite H2.
    assert (Ha : (60 + us / 1000000 <? 60) = false) by (apply Z.ltb_ge; lia).
    assert (Hb : (60 + us / 1000000 <? 3600) = true) by (apply Z.ltb_lt; lia).
    rewrite Ha, Hb.
    assert (Hm : (60 + us / 1000000) / 60 = 1).
    { symmetry. apply (Z.div_unique _ _ 1 (us / 1000000)); lia. }
    rewrite Hm. reflexivity.
Qed.

Lemma time_since_shared_ignores_days_witness :
  LocationShareMethods.time_since_shared
    (LocationShare.mk 1 1 "P01_A" 1000 20000 true "all_friends" "studying"
       "check_in")
    (1000 + 3 * day_us + 5000000) = "Just now".
Proof.
  refine (proj1 (time_since_shared_ignores_days _ 3 5000000 _)). lia.
Defined.

(** ** Events *)

Lemma list_remove_NoDup (x : Z) (l : list Z) :
  NoDup l -> NoDup (Event.list_remove x l).
Proof.
  induction l as [|y l IH]; simpl; intros H; [constructor|].
  inversion H as [|? ? Hni Hnd]; subst.
  destruct (y =? x); [exact Hnd|].
  constructor; [|apply IH; exact Hnd].
  intros Hin. apply Hni. clear - Hin.
  induction l as [|z l IH]; simpl in *; [exact Hin|].
  destruct (z =? x); [right; exact Hin|].
  destruct Hin as [-> | Hin]; [left; reflexivity | right; auto].
Qed.

Lemma list_remove_length (x : Z) (l : list Z) :
  (List.length (Event.list_remove x l) <= List.length l)%nat.
Proof.
  induction l as [|y l IH]; simpl; [lia|].
  destruct (y =? x); simpl; lia.
Qed.


(** An [event.save()] of an instance with its organizer in the roster
    writes that instance. *)
Lemma save_event_keeps (P : Event.t -> Prop) (event : Event.t) (db : DB) :
  Forall P (rows (events db)) ->
  In (Event.organizer event) (Event.participant_user_ids event) ->
  P event ->
  Forall P (rows (events (save_event event db))).
Proof.
  intros Hdb Ho He. simpl. unfold Event.save.
  apply Forall_save_row; [exact Hdb|].
  rewrite save_instance_fixed; assumption.
Qed.

Lemma dashboard_post_roster_ok (user : Z) (a : Action) (now : Clock)
  (db : DB) :
  Forall event_inv (rows (events db)) ->
  Forall roster_ok (rows (events db)) ->
  Forall roster_ok (rows (events (fst (dashboard_post user a now db)))).
Proof.
  intros Hinv H. unfold dashboard_post.
  assert (Hs : Forall roster_ok
                 (rows (events (sweep_expired (now 0%nat) db)))) by exact H.
  assert (Hi : Forall event_inv
                 (rows (events (sweep_expired (now 0%nat) db)))) by exact Hinv.
  set (d := sweep_expired (now 0%nat) db) in *. clearbody d.
  assert (Hget : forall id extra e, get_event id extra d = Some e ->
                   event_inv e /\ roster_ok e).
  { intros id extra e Hg. apply get_event_In in Hg.
    rewrite Forall_forall in Hs, Hi. auto. }
  destruct a; try exact Hs.
  - rewrite events_share_location. exact Hs.
  - rewrite events_stop_sharing. exact Hs.
  - rewrite events_submit_review. exact Hs.
  - unfold create_event.
    destruct (negb _); [exact Hs|].
    destruct (or_default 1 _); try exact Hs.
    destruct (or_default 2 _); try exact Hs.
    destruct (EventForm.max_participants form) as [| | |m]; try exact Hs.
    destruct (_ || _) eqn:Ev; [exact Hs|].
    destruct (get_object_or_404 _ _); [|exact Hs].
    destruct (negb _); [exact Hs|].
    simpl. apply Forall_app. split; [exact Hs|].
    constructor; [|constructor].
    rewrite save_instance_fixed by (simpl; auto).
    apply orb_false_iff in Ev. destruct Ev as [_ Ev]. apply Z.ltb_ge in Ev.
    split; simpl; [|lia].
    constructor; [intros [] | constructor].
  - unfold start_event.
    destruct (get_event event_id _ d) as [e|] eqn:Hg; [|exact Hs].
    destruct (Event.is_started e); [exact Hs|].
    destruct (Hget _ _ _ Hg) as [[Ho _] Hr].
    apply (save_event_keeps roster_ok _ d Hs); [exact Ho | exact Hr].
  - unfold join_event.
    destruct (get_event event_id _ d) as [e|] eqn:Hg; [|exact Hs].
    destruct (Event.participates user e) eqn:Ep; [exact Hs|].
    destruct (negb _) eqn:Ec; [exact Hs|].
    destruct (Hget _ _ _ Hg) as [[Ho _] [Hnd Hcap]].
    apply (save_event_keeps roster_ok _ d Hs).
    + simpl. apply in_or_app. left. exact Ho.
    + split; simpl.
      * apply NoDup_app_fresh; [exact Hnd|].
        intros Hin. apply participates_In in Hin. congruence.
      * apply negb_false_iff in Ec. unfold Event.can_join in Ec.
        rewrite get_current_participants_length in Ec.
        apply Z.ltb_lt in Ec. rewrite length_app. simpl. lia.
  - unfold leave_event.
    destruct (get_event event_id _ d) as [e|] eqn:Hg; [|exact Hs].
    destruct (negb _); [exact Hs|].
    destruct (Z.eqb_spec (Event.organizer e) user) as [E|E]; [exact Hs|].
    destruct (Hget _ _ _ Hg) as [[Ho _] [Hnd Hcap]].
    apply (save_event_keeps roster_ok _ d Hs).
    + simpl. apply list_remove_keeps; assumption.
    + split; simpl.
      * apply list_remove_NoDup. exact Hnd.
      * pose proof (list_remove_length user (Event.participant_user_ids e)).
        lia.
  - unfold cancel_event.
    destruct (get_event event_id _ d) as [e|] eqn:Hg; [|exact Hs].
    destruct (Hget _ _ _ Hg) as [[Ho _] Hr].
    apply (save_event_keeps roster_ok _
             (log_activity user e "cancelled" (now 1%nat) d) Hs);
      [exact Ho | exact Hr].
Qed.

(** X12. In every database the dashboard reaches, the roster of each event
    names no user twice and is no longer than [max_participants]. *)
Theorem roster_within_capacity (db : DB) :
  reachable db -> Forall roster_ok (rows (events db)).
Proof.
  intros Hr. induction Hr as [db H0 | db user a now Hr IH].
  - rewrite H0. constructor.
  - apply dashboard_post_roster_ok; [apply reachable_inv; exact Hr | exact IH].
Qed.

Lemma roster_within_capacity_witness :
  Forall roster_ok (rows (events full_event_db)).
Proof.
  apply roster_within_capacity.
  unfold full_event_db. apply reach_step. apply reach_step.
  apply reach_init. reflexivity.
Defined.







Lemma frame_share_location (user : Z) (location_id : string)
  (status_message : option string) (now : Clock) (db : DB) :
  let db' := fst (share_location user location_id status_message now db) in
  event_activities db' = event_activities db
  /\ friendships db' = friendships db
  /\ memories db' = memories db
  /\ users db' = users db.
Proof.
  unfold share_location. destruct (truthy location_id); [|simpl; auto].
  destruct (get_object_or_404 _ _); simpl; auto.
Qed.

Lemma frame_stop_sharing (user : Z) (now : Clock) (db : DB) :
  let db' := fst (fst (stop_sharing user now db)) in
  event_activities db' = event_activities db
  /\ friendships db' = friendships db
  /\ memories db' = memories db
  /\ users db' = users db.
Proof.
  unfold stop_sharing.
  destruct (current_share _ _ _) as [[s l]|]; simpl; auto.
Qed.

Lemma frame_update_location_crowd_level (l : string) (t : DateTime)
  (db : DB) :
  let db' := update_location_crowd_level l t db in
  event_activities db' = event_activities db
  /\ friendships db' = friendships db
  /\ memories db' = memories db
  /\ users db' = users db
  /\ location_shares db' = location_shares db.
Proof.
  unfold update_location_crowd_level.
  destruct (fold_left _ _ _); simpl; auto.
Qed.

Lemma frame_submit_review (user : Z) (form : ReviewForm.t) (now : Clock)
  (db : DB) :
  let db' := fst (submit_review user form now db) in
  event_activities db' = event_activities db
  /\ friendships db' = friendships db
  /\ memories db' = memories db
  /\ users db' = users db
  /\ location_shares db' = location_shares db.
Proof.
  unfold submit_review.
  destruct (negb _); [simpl; auto|].
  destruct (ReviewForm.wifi_rating form); try (simpl; auto; fail).
  destruct (ReviewForm.cleanliness_rating form); try (simpl; auto; fail).
  destruct (ReviewForm.noise_rating form); try (simpl; auto; fail).
  destruct (ReviewForm.general_rating form) as [| | |[g|]];
    try (simpl; auto; fail).
  destruct (negb _); [simpl; auto|].
  destruct (get_object_or_404 _ _); [|simpl; auto].
  destruct (first _); simpl;
    match goal with
    | |- context [update_location_crowd_level ?l ?t ?d] =>
        destruct (frame_update_location_crowd_level l t d)
          as [-> [-> [-> [-> ->]]]]
    end; simpl; auto.
Qed.

(** X15. The activity log is append-only: whatever the action posted to
    the dashboard, one of the ten the dispatcher names or any other, the
    rows of the log stay in place and at most one is added at the end.  No
    action of the dashboard touches the friendships, the memories or the
    users. *)
Theorem activity_log_append_only (user : Z) (a : Action) (now : Clock)
  (db : DB) :
  let db' := fst (dashboard_post user a now db) in
  grown_by_at_most_one (rows (event_activities db))
    (rows (event_activities db'))
  /\ friendships db' = friendships db
  /\ memories db' = memories db
  /\ users db' = users db.
Proof.
  unfold dashboard_post.
  set (d := sweep_expired (now 0%nat) db).
  assert (Hd : event_activities d = event_activities db
               /\ friendships d = friendships db
               /\ memories d = memories db /\ users d = users db)
    by (repeat split; reflexivity).
  destruct Hd as [<- [<- [<- <-]]]. clearbody d.
  destruct a; simpl; try (split; [left; reflexivity | auto]; fail).
  - destruct (frame_share_location user location_id status_message now d)
      as [-> [-> [-> ->]]]. split; [left; reflexivity | auto].
  - destruct (frame_stop_sharing user now d) as [-> [-> [-> ->]]].
    split; [left; reflexivity | auto].
  - destruct (frame_submit_review user form now d) as [-> [-> [-> [-> _]]]].
    split; [left; reflexivity | auto].
  - unfold create_event.
    destruct (negb _); [split; [left; reflexivity | auto]|].
    destruct (or_default 1 _); try (split; [left; reflexivity | auto]; fail).
    destruct (or_default 2 _); try (split; [left; reflexivity | auto]; fail).
    destruct (EventForm.max_participants form);
      try (split; [left; reflexivity | auto]; fail).
    destruct (_ || _); [split; [left; reflexivity | auto]|].
    destruct (get_object_or_404 _ _); [|split; [left; reflexivity | auto]].
    destruct (negb _); [split; [left; reflexivity | auto]|].
    simpl. split; [right; eexists; reflexivity | auto].
  - unfold start_event.
    destruct (get_event _ _ d); [|split; [left; reflexivity | auto]].
    destruct (Event.is_started t); [split; [left; reflexivity | auto]|].
    simpl. split; [right; eexists; reflexivity | auto].
  - unfold join_event.
    destruct (get_event _ _ d); [|split; [left; reflexivity | auto]].
    destruct (Event.participates user t);
      [split; [left; reflexivity | auto]|].
    destruct (negb _); [split; [left; reflexivity | auto]|].
    simpl. split; [right; eexists; reflexivity | auto].
  - unfold leave_event.
    destruct (get_event _ _ d); [|split; [left; reflexivity | auto]].
    destruct (negb _); [split; [left; reflexivity | auto]|].
    destruct (Event.organizer t =? user);
      [split; [left; reflexivity | auto]|].
    simpl. split; [right; eexists; reflexivity | auto].
  - unfold cancel_event.
    destruct (get_event _ _ d); [|split; [left; reflexivity | auto]].
    simpl. split; [right; eexists; reflexivity | auto].
Qed.

(** X16. Starting and cancelling are the organizer's: on the key of an
    event of somebody else, or of no event, both are refused and the
    database stays.  An event started once stays started: a second start
    by the organizer is answered that the event has started already, and
    changes nothing. *)
Theorem start_and_cancel_are_the_organizers :
  (forall db user id now,
     (forall e, In e (rows (events db)) -> Event.event_id e = id ->
                Event.organizer e <> user) ->
     start_event user (Parsed id) now db
     = (db, [(error, "Error starting event")])
     /\ cancel_event user (Parsed id) now db
        = (db, [(error, "Error cancelling event")]))
  /\ (forall db user id now now' m,
        NoDup (map Event.event_id (rows (events db))) ->
        snd (start_event user (Parsed id) now db) = [(success, m)] ->
        let db' := fst (start_event user (Parsed id) now db) in
        start_event user (Parsed id) now' db'
        = (db', [(info, "Event is already started")])).
Proof.
  split.
  - intros db user id now Hno.
    assert (Hg : get_event (Parsed id) (fun e => Event.organizer e =? user) db
                 = None).
    { simpl. unfold get_object_or_404.
      destruct (find _ _) as [e|] eqn:Hf; [|reflexivity].
      apply find_some in Hf. destruct Hf as [Hin Hp].
      apply andb_true_iff in Hp. destruct Hp as [Hid Ho].
      apply Z.eqb_eq in Hid, Ho. exfalso. exact (Hno e Hin Hid Ho). }
    unfold start_event, cancel_event. rewrite Hg. split; reflexivity.
  - intros db user id now now' m Hnd Hs db'.
    unfold db', start_event in *.
    destruct (get_event (Parsed id) _ db) as [e|] eqn:Hg; [|discriminate Hs].
    destruct (Event.is_started e) eqn:Est; [discriminate Hs|].
    clear Hs. simpl in Hg. unfold get_object_or_404 in Hg.
    apply find_some in Hg. destruct Hg as [Hin Hp].
    apply andb_true_iff in Hp. destruct Hp as [Hid Ho].
    apply Z.eqb_eq in Hid, Ho.
    set (e' := Event.save_instance (Event.set_started (now 1%nat) e)).
    assert (He' : Event.event_id e' = id /\ Event.organizer e' = user
                  /\ Event.is_started e' = true).
    { unfold e', Event.save_instance.
      destruct (negb _ && _); simpl; auto. }
    destruct He' as [Hid' [Ho' Hst']].
    destruct (save_row_split Event.event_id e' e _ Hnd Hin)
      as [l1 [l2 [El El']]]; [rewrite Hid', Hid; reflexivity|].
    assert (Hg' : get_event (Parsed id)
                    (fun e => Event.organizer e =? user)
                    (log_activity user (Event.set_started (now 1%nat) e)
                       "started" (now 2%nat)
                       (save_event (Event.set_started (now 1%nat) e) db))
                  = Some e').
    { simpl. unfold get_object_or_404, Event.save. fold e'. rewrite El'.
      rewrite find_skip.
      - simpl. rewrite Hid', Ho', !Z.eqb_refl. reflexivity.
      - intros x Hx.
        destruct (Z.eqb_spec (Event.event_id x) id) as [E|E]; [|reflexivity].
        exfalso. rewrite El, map_app in Hnd. simpl in Hnd.
        apply NoDup_remove_2 in Hnd. apply Hnd. apply in_or_app. left.
        rewrite Hid, <- E. apply in_map. exact Hx. }
    simpl fst. rewrite Hg', Hst'. reflexivity.
Qed.

Lemma start_and_cancel_are_the_organizers_witness :
  start_event 2 (Parsed 1) demo_clock trio_db
  = (trio_db, [(error, "Error starting event")]).
Proof.
  refine (proj1 (proj1 start_and_cancel_are_the_organizers trio_db 2 1
                   demo_clock _)).
  intros e [<- | []] _. simpl. discriminate.
Defined.

(** ** Reviews *)

Lemma rating_in_range_true (n : Z) :
  rating_in_range n = true <-> 1 <= n <= 10.
Proof.
  unfold rating_in_range. rewrite andb_true_iff, !Z.leb_le. tauto.
Qed.

(** What an accepted form must have been. *)
Lemma submit_review_accepted (user : Z) (form : ReviewForm.t) (now : Clock)
  (db : DB) (m : string) :
  snd (submit_review user form now db) = [(success, m)] ->
  review_acceptable form db.
Proof.
  unfold review_acceptable, submit_review. intros H.
  destruct (truthy (ReviewForm.location_id form)) eqn:E1;
    [|discriminate H].
  destruct (sent (ReviewForm.wifi_rating form)); [|discriminate H].
  destruct (sent (ReviewForm.cleanliness_rating form)); [|discriminate H].
  destruct (sent (ReviewForm.noise_rating form)); [|discriminate H].
  destruct (truthy (ReviewForm.crowd_level form)) eqn:E2;
    [|discriminate H].
  simpl in H.
  destruct (ReviewForm.wifi_rating form) as [| | |w]; try discriminate H.
  destruct (ReviewForm.cleanliness_rating form) as [| | |c];
    try discriminate H.
  destruct (ReviewForm.noise_rating form) as [| | |n]; try discriminate H.
  destruct (ReviewForm.general_rating form) as [| | |[g|]];
    try discriminate H.
  destruct (rating_in_range w) eqn:Rw; [|discriminate H].
  destruct (rating_in_range c) eqn:Rc; [|discriminate H].
  destruct (rating_in_range n) eqn:Rn; [|discriminate H].
  destruct (Qle_bool (inject_Z 1) g) eqn:G1; [|discriminate H].
  destruct (Qle_bool g (inject_Z 10)) eqn:G2; [|discriminate H].
  simpl in H.
  destruct (get_object_or_404 _ _) as [location|] eqn:Hl;
    [|discriminate H].
  apply find_some in Hl. destruct Hl as [Hin Hid].
  apply String.eqb_eq in Hid.
  split; [apply truthy_true; exact E1|].
  split; [apply truthy_true; exact E2|].
  split; [exists location; auto|].
  exists w, c, n, g. repeat split; try reflexivity;
    try (apply rating_in_range_true; assumption);
    try (apply Qle_bool_iff; assumption).
Qed.

(** X17. [submit_review] accepts a form exactly when the location key and
    the crowd level are not empty, the three sub-ratings parse to whole
    numbers from 1 to 10, the overall rating parses to a finite number
    from 1 to 10, and the location exists.  The crowd level is not checked against
    the three choices of the model. *)
Theorem submit_review_accepts_iff (user : Z) (form : ReviewForm.t)
  (now : Clock) (db : DB) :
  (exists m, snd (submit_review user form now db) = [(success, m)])
  <-> review_acceptable form db.
Proof.
  split.
  - intros [m H]. exact (submit_review_accepted user form now db m H).
  - unfold review_acceptable, submit_review.
    intros [H1 [H2 [[l [Hin Hid]] [w [c [n [g Hr]]]]]]].
    destruct Hr as [-> [-> [-> [-> [Hw [Hc [Hn [G1 G2]]]]]]]].
    apply truthy_true in H1, H2. rewrite H1, H2. simpl.
    apply rating_in_range_true in Hw, Hc, Hn. rewrite Hw, Hc, Hn.
    apply Qle_bool_iff in G1, G2.
    change (inject_Z 1) with 1%Q. change (inject_Z 10) with 10%Q.
    rewrite G1, G2. simpl.
    destruct (find_present
                (fun l0 => (Location.location_id l0
                            =? ReviewForm.location_id form)%string)
                (locations db) l Hin) as [y Hy].
    { apply String.eqb_eq. exact Hid. }
    unfold get_object_or_404. rewrite Hy.
    destruct (first _); simpl; eexists; reflexivity.
Qed.

Lemma submit_review_accepts_iff_witness :
  exists m,
    snd (submit_review 1 odd_review demo_clock empty_db) = [(success, m)].
Proof.
  apply (proj2 (submit_review_accepts_iff 1 odd_review demo_clock empty_db)).
  split; [discriminate|]. split; [discriminate|]. split.
  - exists (Location.mk "P01_A" "Pillar 1" true 0 "light"). simpl. auto.
  - exists 10, 10, 10, (1 # 1)%Q. repeat split; try lia;
      apply Qle_bool_iff; reflexivity.
Defined.

Lemma dict_get_count_level (k k' : string) (d : list (string * Z)) :
  dict_get k' (count_level k d)
  = dict_get k' d + (if (k =? k')%string then 1 else 0).
Proof.
  unfold dict_get. induction d as [|[k0 n] d IH]; simpl.
  - destruct (k =? k')%string; reflexivity.
  - destruct (String.eqb_spec k0 k) as [E|E]; simpl.
    + subst k0. destruct (k =? k')%string; simpl; lia.
    + destruct (String.eqb_spec k0 k') as [E'|E']; simpl.
      * subst k0. destruct (String.eqb_spec k k'); [congruence | lia].
      * exact IH.
Qed.

Lemma keys_count_level (k : string) (d : list (string * Z)) :
  NoDup (map fst d) -> NoDup (map fst (count_level k d))
  /\ forall x, In x (map fst (count_level k d)) -> x = k \/ In x (map fst d).
Proof.
  induction d as [|[k0 n] d IH]; simpl; intros H.
  - split; [constructor; [intros [] | constructor]|].
    intros x [<- | []]. left. reflexivity.
  - inversion H as [|? ? Hni Hnd]; subst.
    destruct (String.eqb_spec k0 k) as [E|E]; simpl.
    + split; [exact H | tauto].
    + destruct (IH Hnd) as [IH1 IH2]. split.
      * constructor; [|exact IH1]. intros Hin.
        destruct (IH2 _ Hin) as [E' | Hin']; [congruence | contradiction].
      * intros x [<- | Hx]; [right; left; reflexivity|].
        destruct (IH2 _ Hx); tauto.
Qed.

Lemma crowd_counts_spec (l : list LocationReview.t) (d : list (string * Z)) :
  NoDup (map fst d) ->
  let d' :=
    fold_left (fun d r => count_level (LocationReview.crowd_level r) d) l d in
  NoDup (map fst d')
  /\ forall k, dict_get k d' = dict_get k d + Z.of_nat (level_count k l).
Proof.
  revert d. induction l as [|r l IH]; intros d Hd; simpl.
  - split; [exact Hd | intros k; unfold level_count; simpl; lia].
  - destruct (keys_count_level (LocationReview.crowd_level r) d Hd)
      as [Hd1 _].
    destruct (IH _ Hd1) as [H1 H2]. split; [exact H1|].
    intros k. rewrite H2, dict_get_count_level. unfold level_count. simpl.
    destruct (LocationReview.crowd_level r =? k)%string; simpl; lia.
Qed.

Lemma dict_get_In (x : string * Z) (d : list (string * Z)) :
  NoDup (map fst d) -> In x d -> dict_get (fst x) d = snd x.
Proof.
  unfold dict_get. induction d as [|y d IH]; simpl; intros Hnd Hin;
    [destruct Hin|].
  inversion Hnd as [|? ? Hni Hnd']; subst.
  destruct Hin as [-> | Hin].
  - rewrite String.eqb_refl. reflexivity.
  - destruct (String.eqb_spec (fst y) (fst x)) as [E|E].
    + exfalso. apply Hni. rewrite E. apply in_map. exact Hin.
    + apply IH; assumption.
Qed.

Lemma max_item_spec (b : string * Z) (d : list (string * Z)) :
  In (max_item b d) (b :: d)
  /\ forall y, In y (b :: d) -> snd y <= snd (max_item b d).
Proof.
  revert b. induction d as [|x d IH]; intros b; simpl.
  - split; [left; reflexivity | intros y [<- | []]; lia].
  - destruct (Z.ltb_spec (snd b) (snd x)) as [H|H].
    + destruct (IH x) as [H1 H2]. split.
      * right. exact H1.
      * intros y [<- | Hy]; [|apply H2; exact Hy].
        specialize (H2 x (or_introl eq_refl)). lia.
    + destruct (IH b) as [H1 H2]. split.
      * destruct H1 as [H1 | H1]; [left; exact H1 | right; right; exact H1].
      * intros y [<- | [<- | Hy]].
        -- apply H2. left. reflexivity.
        -- specialize (H2 b (or_introl eq_refl)). lia.
        -- apply H2. right. exact Hy.
Qed.

Lemma level_count_perm (c : string) (l l' : list LocationReview.t) :
  Permutation l l' -> level_count c l = level_count c l'.
Proof.
  unfold level_count. induction 1; simpl.
  - reflexivity.
  - destruct (_ =? c)%string; simpl; congruence.
  - destruct (LocationReview.crowd_level x =? c)%string;
      destruct (LocationReview.crowd_level y =? c)%string; reflexivity.
  - congruence.
Qed.

(** X18. [update_location_crowd_level] gives the location the crowd level
    that most of the reviews of the last two hours report: no other level
    is reported by more of them.  Without such a review it changes
    nothing. *)
Theorem crowd_level_is_the_mode (location_id : string) (t : DateTime)
  (db : DB) :
  let recent := recent_reviews_of location_id t db in
  (recent = [] -> update_location_crowd_level location_id t db = db)
  /\ (recent <> [] ->
      exists c,
        (0 < level_count c recent)%nat
        /\ (forall c', (level_count c' recent <= level_count c recent)%nat)
        /\ update_location_crowd_level location_id t db
           = set_locations
               (Location.save_column location_id
                  (Location.set_current_crowd_level c) (locations db)) db).
Proof.
  intros recent. unfold update_location_crowd_level.
  fold (recent_reviews_of location_id t db). fold recent.
  set (sorted := order_by_desc LocationReview.created_at recent).
  assert (Hperm : Permutation sorted recent) by apply order_by_desc_perm.
  destruct (crowd_counts_spec sorted [] (NoDup_nil _)) as [Hnd Hget].
  simpl in Hnd, Hget.
  split.
  - intros E. unfold sorted. rewrite E. reflexivity.
  - intros Hne.
    set (d := fold_left
                (fun d r => count_level (LocationReview.crowd_level r) d)
                sorted []) in *.
    assert (Hcount : forall k,
               dict_get k d = Z.of_nat (level_count k recent)).
    { intros k. rewrite Hget. unfold dict_get. simpl.
      rewrite (level_count_perm k sorted recent Hperm). reflexivity. }
    destruct d as [|x d'] eqn:Ed.
    + exfalso. destruct recent as [|r rs] eqn:Er; [apply Hne; reflexivity|].
      specialize (Hcount (LocationReview.crowd_level r)).
      unfold dict_get, level_count in Hcount. simpl in Hcount.
      rewrite String.eqb_refl in Hcount. simpl in Hcount. lia.
    + destruct (max_item_spec x d') as [Hin Hmax].
      set (best := max_item x d') in *.
      assert (Hbest : dict_get (fst best) (x :: d') = snd best)
        by (apply dict_get_In; assumption).
      assert (Hle : forall c',
                 (level_count c' recent <= level_count (fst best) recent)%nat).
      { intros c'. apply Nat2Z.inj_le. rewrite <- !Hcount, Hbest.
        unfold dict_get.
        destruct (find _ (x :: d')) as [y|] eqn:Hf.
        - apply find_some in Hf. apply Hmax. apply Hf.
        - rewrite <- Hbest, Hcount. lia. }
      exists (fst best). split; [|split; [exact Hle | reflexivity]].
      destruct recent as [|r rs] eqn:Er; [exfalso; apply Hne; reflexivity|].
      specialize (Hle (LocationReview.crowd_level r)).
      unfold level_count in Hle at 1. simpl in Hle.
      rewrite String.eqb_refl in Hle. simpl in Hle. lia.
Qed.

Lemma crowd_level_is_the_mode_witness :
  locations (update_location_crowd_level "P01_A" 1000 crowd_db)
  = [Location.mk "P01_A" "Pillar 1" true 0 "heavy"]
  /\ exists c,
       (0 < level_count c (recent_reviews_of "P01_A" 1000%Z crowd_db))%nat
       /\ (forall c',
             (level_count c' (recent_reviews_of "P01_A" 1000%Z crowd_db)
              <= level_count c (recent_reviews_of "P01_A" 1000%Z crowd_db))%nat)
       /\ update_location_crowd_level "P01_A" 1000 crowd_db
          = set_locations
              (Location.save_column "P01_A"
                 (Location.set_current_crowd_level c) (locations crowd_db))
              crowd_db.
Proof.
  split; [reflexivity|].
  apply (proj2 (crowd_level_is_the_mode "P01_A" 1000 crowd_db)).
  discriminate.
Defined.

Lemma rounded_mean_bounds_all :
  forallb (fun s => rating_bounds (py_round1 (inject_Z s / inject_Z 3)))
    rating_sums = true.
Proof. vm_compute. reflexivity. Qed.

Lemma rounded_mean_bounds (w c n : Z) :
  1 <= w <= 10 -> 1 <= c <= 10 -> 1 <= n <= 10 ->
  rating_bounds (py_round1 (mean3 w c n)) = true.
Proof.
  intros Hw Hc Hn. unfold mean3.
  pose proof rounded_mean_bounds_all as H. rewrite forallb_forall in H.
  apply H. unfold rating_sums. apply in_map_iff.
  exists (Z.to_nat (w + c + n)). split; [lia|]. apply in_seq. lia.
Qed.

(** X19. The overall rating the [save] override computes from sub-ratings
    between 1 and 10 lies between 1 and 10 itself, as the validators of the
    field ask; so does the overall rating of the row an accepted
    submission writes, whose sub-ratings are between 1 and 10. *)
Theorem saved_rating_within_bounds :
  (forall r : LocationReview.t,
     1 <= LocationReview.wifi_rating r <= 10 ->
     1 <= LocationReview.cleanliness_rating r <= 10 ->
     1 <= LocationReview.noise_rating r <= 10 ->
     (1 <= LocationReview.general_rating (LocationReview.save_instance r)
      /\ LocationReview.general_rating (LocationReview.save_instance r)
         <= 10)%Q)
  /\ (forall db user form now m,
        snd (submit_review user form now db) = [(success, m)] ->
        exists row,
          In row (rows (reviews (fst (submit_review user form now db))))
          /\ LocationReview.user row = user
          /\ LocationReview.location row = ReviewForm.location_id form
          /\ 1 <= LocationReview.wifi_rating row <= 10
          /\ 1 <= LocationReview.cleanliness_rating row <= 10
          /\ 1 <= LocationReview.noise_rating row <= 10
          /\ (1 <= LocationReview.general_rating row
              /\ LocationReview.general_rating row <= 10)%Q).
Proof.
  assert (Hb : forall w c n,
             1 <= w <= 10 -> 1 <= c <= 10 -> 1 <= n <= 10 ->
             (1 <= py_round1 (mean3 w c n)
              /\ py_round1 (mean3 w c n) <= 10)%Q).
  { intros w c n Hw Hc Hn.
    pose proof (rounded_mean_bounds w c n Hw Hc Hn) as H.
    unfold rating_bounds in H. apply andb_true_iff in H.
    destruct H as [H1 H2]. apply Qle_bool_iff in H1, H2. auto. }
  split.
  - intros r Hw Hc Hn. apply (Hb _ _ _ Hw Hc Hn).
  - intros db user form now m Hs.
    destruct (submit_review_written user form now db m Hs)
      as [row [Hin [Hu [Hl [Ew [Ec [En [_ [_ Eg]]]]]]]]].
    destruct (submit_review_accepted user form now db m Hs)
      as [_ [_ [_ [w [c [n [g Hr]]]]]]].
    destruct Hr as [Fw [Fc [Fn [_ [Hw [Hc [Hn _]]]]]]].
    rewrite Fw in Ew. rewrite Fc in Ec. rewrite Fn in En.
    injection Ew as Ew. injection Ec as Ec. injection En as En.
    exists row. rewrite <- Ew, <- Ec, <- En, Eg.
    repeat split; try assumption; try lia;
      rewrite <- Ew, <- Ec, <- En; apply (Hb w c n Hw Hc Hn).
Qed.

Lemma saved_rating_within_bounds_witness :
  (1 <= LocationReview.general_rating
          (LocationReview.save_instance overrated_review)
   /\ LocationReview.general_rating
        (LocationReview.save_instance overrated_review) <= 10)%Q.
Proof.
  apply (proj1 saved_rating_within_bounds); simpl; lia.
Defined.

Lemma reviews_share_location (user : Z) (location_id : string)
  (status_message : option string) (now : Clock) (db : DB) :
  reviews (fst (share_location user location_id status_message now db))
  = reviews db.
Proof.
  unfold share_location. destruct (truthy location_id); [|reflexivity].
  destruct (get_object_or_404 _ _); reflexivity.
Qed.

Lemma reviews_stop_sharing (user : Z) (now : Clock) (db : DB) :
  reviews (fst (fst (stop_sharing user now db))) = reviews db.
Proof.
  unfold stop_sharing. destruct (current_share _ _ _) as [[s l]|]; reflexivity.
Qed.

Lemma reviews_event_actions (user : Z) (now : Clock) (db : DB) :
  (forall form, reviews (fst (create_event user form now db)) = reviews db)
  /\ (forall id, reviews (fst (start_event user id now db)) = reviews db)
  /\ (forall id, reviews (fst (join_event user id now db)) = reviews db)
  /\ (forall id, reviews (fst (leave_event user id now db)) = reviews db)
  /\ (forall id, reviews (fst (cancel_event user id now db)) = reviews db).
Proof.
  split; [|split; [|split; [|split]]].
  - intros form. unfold create_event.
    destruct (negb _); [reflexivity|].
    destruct (or_default 1 _); try reflexivity.
    destruct (or_default 2 _); try reflexivity.
    destruct (EventForm.max_participants form); try reflexivity.
    destruct (_ || _); [reflexivity|].
    destruct (get_object_or_404 _ _); [|reflexivity].
    destruct (negb _); reflexivity.
  - intros id. unfold start_event.
    destruct (get_event _ _ db) as [e|]; [|reflexivity].
    destruct (Event.is_started e); reflexivity.
  - intros id. unfold join_event.
    destruct (get_event _ _ db) as [e|]; [|reflexivity].
    destruct (Event.participates user e); [reflexivity|].
    destruct (negb _); reflexivity.
  - intros id. unfold leave_event.
    destruct (get_event _ _ db) as [e|]; [|reflexivity].
    destruct (negb _); [reflexivity|].
    destruct (Event.organizer e =? user); reflexivity.
  - intros id. unfold cancel_event.
    destruct (get_event _ _ db) as [e|]; reflexivity.
Qed.

Lemma submit_review_keeps_rating_unset (user : Z) (form : ReviewForm.t)
  (now : Clock) (db : DB) :
  Forall (fun r => LocationReview.rating r = None) (rows (reviews db)) ->
  Forall (fun r => LocationReview.rating r = None)
    (rows (reviews (fst (submit_review user form now db)))).
Proof.
  intros H.
  destruct (submit_review_cases user form now db) as [[m Hm] | E];
    [|rewrite E; exact H].
  destruct (submit_review_success user form now db m Hm)
    as [w [c [n [g [_ [_ [_ [_ E]]]]]]]].
  rewrite E. destruct (first _) as [r0|] eqn:Hf.
  - apply first_order_by_desc_some, filter_In in Hf. destruct Hf as [Hin _].
    simpl. apply Forall_save_row; [exact H|]. simpl.
    rewrite Forall_forall in H. apply (H r0 Hin).
  - simpl. apply Forall_app. split; [exact H|].
    constructor; [reflexivity | constructor].
Qed.

(** X20. No action posted to the dashboard, of the ten the dispatcher names
    or any other, ever sets the legacy field [rating] of a review: while
    every review has it unset, it stays unset, and the average rating the
    dashboard shows to a user is 0 however many reviews the user has
    written. *)
Theorem legacy_rating_stays_unset (db : DB) :
  Forall (fun r => LocationReview.rating r = None) (rows (reviews db)) ->
  (forall user a now,
     Forall (fun r => LocationReview.rating r = None)
       (rows (reviews (fst (dashboard_post user a now db)))))
  /\ (forall user, snd (user_review_stats user db) = 0%Q).
Proof.
  intros H. split.
  - intros user a now. unfold dashboard_post.
    set (d := sweep_expired (now 0%nat) db).
    assert (Hd : Forall (fun r => LocationReview.rating r = None)
                   (rows (reviews d))) by exact H.
    clearbody d.
    destruct (reviews_event_actions user now d) as [H1 [H2 [H3 [H4 H5]]]].
    destruct a; try exact Hd.
    + rewrite reviews_share_location. exact Hd.
    + rewrite reviews_stop_sharing. exact Hd.
    + apply submit_review_keeps_rating_unset. exact Hd.
    + rewrite H1. exact Hd.
    + rewrite H2. exact Hd.
    + rewrite H3. exact Hd.
    + rewrite H4. exact Hd.
    + rewrite H5. exact Hd.
  - intros user. unfold user_review_stats.
    assert (E : ratings_set
                  (filter (fun r => LocationReview.user r =? user)
                     (rows (reviews db))) = []).
    { induction (rows (reviews db)) as [|r l IH]; [reflexivity|].
      inversion H as [|? ? Hr Hl]; subst. simpl.
      destruct (LocationReview.user r =? user); [|apply IH; exact Hl].
      simpl. rewrite Hr. simpl. apply IH. exact Hl. }
    rewrite E. reflexivity.
Qed.

Lemma legacy_rating_stays_unset_witness :
  snd (user_review_stats 1
         (fst (dashboard_post 1 (act_submit_review first_review) demo_clock
                 empty_db))) = 0%Q.
Proof.
  refine (proj2 (legacy_rating_stays_unset
                   (fst (dashboard_post 1 (act_submit_review first_review)
                           demo_clock empty_db)) _) 1).
  exact (proj1 (legacy_rating_stays_unset empty_db (Forall_nil _)) 1
           (act_submit_review first_review) demo_clock).
Defined.

(** The average the dashboard shows is that of the floats: the mean 2.45 of
    the twenty ratings of [rated_db] is a float just above 2.45, and is
    shown as 2.5. *)
Example user_avg_rating_rounds_the_float :
  fst (user_review_stats 1 rated_db) = 20
  /\ (snd (user_review_stats 1 rated_db) == 5 # 2)%Q.
Proof. split; vm_compute; reflexivity. Qed.

(** The review prompt of the session: set when a current share is stopped,
    deleted by an accepted review of that location, kept by a refused
    one. *)
Example review_prompt_cycle :
  dashboard_session 2 act_stop_sharing demo_clock sharing_db None
  = Some ("P01_A", "Pillar 1")
  /\ dashboard_session 2 (act_submit_review first_review) demo_clock
       sharing_db (Some ("P01_A", "Pillar 1")) = None
  /\ dashboard_session 2
       (act_submit_review
          (ReviewForm.mk "P01_A" (Parsed 7) (Parsed 8) (Parsed 8)
             (Parsed NotFinite) "heavy" ""))
       demo_clock sharing_db (Some ("P01_A", "Pillar 1"))
     = Some ("P01_A", "Pillar 1").
Proof. repeat split. Qed.

(** ** Memories *)

Lemma save_instance_fields (year_of : DateTime -> Z) (m : Memory.t) :
  let m' := MemorySave.save_instance year_of m in
  Memory.memory_id m' = Memory.memory_id m
  /\ Memory.likes_count m' = Memory.likes_count m
  /\ Memory.liked_by_user_ids m' = Memory.liked_by_user_ids m
  /\ Memory.view_count m' = Memory.view_count m
  /\ Memory.visibility m' = Memory.visibility m
  /\ Memory.user m' = Memory.user m.
Proof.
  unfold MemorySave.save_instance.
  destruct (MemorySave.year_unset m); simpl; auto 10.
Qed.

(** [save(update_fields=...)] of an instance with the key of the row [m],
    on a table with distinct keys: [m] alone takes the named columns. *)
Lemma memory_save_split (year_of : DateTime -> Z)
  (fields : list MemorySave.field) (self m : Memory.t)
  (table : list Memory.t) :
  NoDup (map Memory.memory_id table) -> In m table ->
  Memory.memory_id self = Memory.memory_id m ->
  replaced m
    (fold_left (MemorySave.write_field (MemorySave.save_instance year_of self))
       fields m)
    table (MemorySave.save year_of fields self table).
Proof.
  intros Hnd Hin Hid.
  destruct (update_key_split Memory.memory_id
              (fun r => fold_left
                          (MemorySave.write_field
                             (MemorySave.save_instance year_of self))
                          fields r)
              m table Hnd Hin) as [l1 [l2 [El Em]]].
  exists l1, l2. split; [exact El|]. rewrite <- Em.
  unfold MemorySave.save.
  destruct (save_instance_fields year_of self) as [-> _]. rewrite Hid.
  reflexivity.
Qed.

Lemma is_liked_by_In (m : Memory.t) (id : Z) :
  MemoryMethods.is_liked_by m (AuthUser id) = true
  <-> In id (Memory.liked_by_user_ids m).
Proof.
  simpl. rewrite existsb_exists. split.
  - intros [y [Hy E]]. apply Z.eqb_eq in E. subst y. exact Hy.
  - intros H. exists id. split; [exact H | apply Z.eqb_refl].
Qed.

Lemma list_remove_drops (x : Z) (l : list Z) :
  NoDup l -> ~ In x (Event.list_remove x l).
Proof.
  induction l as [|y l IH]; simpl; intros H; [tauto|].
  inversion H as [|? ? Hni Hnd]; subst.
  destruct (Z.eqb_spec y x) as [E|E]; [subst; exact Hni|].
  intros [E' | Hin]; [contradiction | exact (IH Hnd Hin)].
Qed.

Lemma list_remove_length_In (x : Z) (l : list Z) :
  In x l -> S (List.length (Event.list_remove x l)) = List.length l.
Proof.
  induction l as [|y l IH]; simpl; intros H; [destruct H|].
  destruct (Z.eqb_spec y x) as [E|E]; [reflexivity|].
  destruct H as [H | H]; [contradiction|]. simpl. rewrite IH; auto.
Qed.

(** X21. [toggle_like] answers with the new state, the opposite of the old
    one, and keeps the counter equal to the number of likers and the list
    free of repetitions; in the table the row of the memory takes the new
    list and counter and nothing else.  The anonymous user is answered
    [False] and changes nothing. *)
Theorem toggle_like_keeps_count (year_of : DateTime -> Z) (self : Memory.t)
  (id : Z) (table : list Memory.t) :
  likes_consistent self ->
  NoDup (map Memory.memory_id table) -> In self table ->
  let r := MemoryMethods.toggle_like year_of self (AuthUser id) table in
  let liked := fst (fst r) in
  let self' := snd (fst r) in
  liked = negb (MemoryMethods.is_liked_by self (AuthUser id))
  /\ liked = MemoryMethods.is_liked_by self' (AuthUser id)
  /\ likes_consistent self'
  /\ replaced self
       (with_likes (Memory.liked_by_user_ids self') (Memory.likes_count self')
          self)
       table (snd r)
  /\ MemoryMethods.toggle_like year_of self AnonymousUser table
     = (false, self, table).
Proof.
  intros [Hc Hnd] Hk Hin r liked self'.
  unfold liked, self', r, MemoryMethods.toggle_like.
  destruct (existsb (Z.eqb id) (Memory.liked_by_user_ids self)) eqn:E.
  - assert (Hl : In id (Memory.liked_by_user_ids self))
      by (apply (is_liked_by_In self id); exact E).
    cbv beta iota zeta. simpl fst. simpl snd.
    match goal with
    | |- context [MemorySave.save_instance year_of ?s] => set (s1 := s)
    end.
    destruct (save_instance_fields year_of s1) as [_ [E1 [E2 _]]].
    pose proof (list_remove_length_In id _ Hl) as Hlen.
    split; [simpl; rewrite E; reflexivity|]. split.
    { symmetry. apply not_true_is_false. intros H.
      apply is_liked_by_In in H. rewrite E2 in H. simpl in H.
      exact (list_remove_drops id _ Hnd H). }
    split.
    { unfold likes_consistent. rewrite E1, E2. simpl. split.
      - rewrite Hc. lia.
      - apply list_remove_NoDup. exact Hnd. }
    split; [|reflexivity].
    pose proof (memory_save_split year_of
                  [MemorySave.f_liked_by_user_ids; MemorySave.f_likes_count]
                  s1 self table Hk Hin eq_refl) as Hs.
    cbn [fold_left MemorySave.write_field] in Hs. exact Hs.
  - cbv beta iota zeta. simpl fst. simpl snd.
    match goal with
    | |- context [MemorySave.save_instance year_of ?s] => set (s1 := s)
    end.
    destruct (save_instance_fields year_of s1) as [_ [E1 [E2 _]]].
    split; [simpl; rewrite E; reflexivity|]. split.
    { symmetry. apply is_liked_by_In. rewrite E2. simpl.
      apply in_or_app. right. left. reflexivity. }
    split.
    { unfold likes_consistent. rewrite E1, E2. simpl. split.
      - rewrite Hc, length_app. simpl. lia.
      - apply NoDup_app_fresh; [exact Hnd|]. intros H.
        apply (is_liked_by_In self id) in H. simpl in H. congruence. }
    split; [|reflexivity].
    pose proof (memory_save_split year_of
                  [MemorySave.f_liked_by_user_ids; MemorySave.f_likes_count]
                  s1 self table Hk Hin eq_refl) as Hs.
    cbn [fold_left MemorySave.write_field] in Hs. exact Hs.
Qed.

Lemma toggle_like_keeps_count_witness :
  fst (fst (MemoryMethods.toggle_like demo_year
              (Memory.mk 1 1 "P01_A" 500 "Exam week" "Notes" None "none"
                 "friends" false false [] (Some 2024) 1 [2] 0 500)
              (AuthUser 2) (rows (memories liked_db))))
  = negb (MemoryMethods.is_liked_by
            (Memory.mk 1 1 "P01_A" 500 "Exam week" "Notes" None "none"
               "friends" false false [] (Some 2024) 1 [2] 0 500)
            (AuthUser 2)).
Proof.
  refine (proj1 (toggle_like_keeps_count demo_year _ 2
                   (rows (memories liked_db)) _ _ _)).
  - split; simpl; [reflexivity|]. constructor; [intros [] | constructor].
  - simpl. constructor; [intros [H | []]; discriminate H|].
    constructor; [intros [] | constructor].
  - simpl. left. reflexivity.
Defined.





Lemma can_view_private_other (fs : list Friendship.t) (m : Memory.t)
  (user : Z) :
  Memory.visibility m = "private" -> Memory.user m <> user ->
  Memory.can_view fs m (AuthUser user) = false.
Proof.
  intros Hv Hu. unfold Memory.can_view. rewrite Hv. simpl.
  apply Z.eqb_neq. exact Hu.
Qed.

(** X23. A private memory is closed to everybody but its author: another
    user who asks to like it is refused and one who asks for its details
    gets status 403, and in both cases the database, likes and view counter
    included, stays as it was. *)
Theorem private_memory_is_closed (year_of : DateTime -> Z) (db : DB)
  (user id : Z) (xhr : bool) (memory : Memory.t) :
  get_object_or_404 (fun m => Memory.memory_id m =? id) (rows (memories db))
  = Some memory ->
  Memory.visibility memory = "private" ->
  Memory.user memory <> user ->
  toggle_like_action year_of user (Parsed id) xhr db
  = (db, like_redirect [(error, "You cannot like this memory")])
  /\ memory_detail_ajax year_of user (Parsed id) db = (db, 403).
Proof.
  intros Hg Hv Hu.
  pose proof (can_view_private_other (rows (friendships db)) memory user
                Hv Hu) as Hc.
  unfold toggle_like_action, memory_detail_ajax. rewrite Hg, Hc.
  split; reflexivity.
Qed.

Lemma private_memory_is_closed_witness :
  memory_detail_ajax demo_year 1 (Parsed 2) liked_db = (liked_db, 403).
Proof.
  refine (proj2 (private_memory_is_closed demo_year liked_db 1 2 true
    (Memory.mk 2 3 "P01_A" 700 "Diary" "Mine" None "none" "private" false
       true [] (Some 2024) 0 [] 0 700) eq_refl eq_refl _)).
  simpl. discriminate.
Defined.



Lemma get_own_memory (id user : Z) (table : list Memory.t) (m : Memory.t) :
  get_object_or_404
    (fun x => (Memory.memory_id x =? id) && (Memory.user x =? user)) table
  = Some m ->
  In m table /\ Memory.memory_id m = id /\ Memory.user m = user.
Proof.
  unfold get_object_or_404. intros H. apply find_some in H.
  destruct H as [Hin Hp]. apply andb_true_iff in Hp. destruct Hp as [H1 H2].
  apply Z.eqb_eq in H1, H2. auto.
Qed.

Lemma get_own_memory_none (id user : Z) (table : list Memory.t) :
  (forall m, In m table -> Memory.memory_id m = id -> Memory.user m <> user) ->
  get_object_or_404
    (fun x => (Memory.memory_id x =? id) && (Memory.user x =? user)) table
  = None.
Proof.
  intros Hno. destruct (get_object_or_404 _ table) as [m|] eqn:Hg;
    [|reflexivity].
  apply get_own_memory in Hg. destruct Hg as [Hin [Hid Hu]].
  exfalso. exact (Hno m Hin Hid Hu).
Qed.

(** X25. Only the owner changes the visibility of a memory, and only to one
    of the three choices: any other value, and any other user, leave the
    database as it was.  The change rewrites the visibility of that row
    alone; once it is private no other viewer can view the memory, and once
    it is public every viewer can. *)
Theorem update_visibility_effect :
  (forall year_of db user id v memory,
     NoDup (map Memory.memory_id (rows (memories db))) ->
     get_object_or_404
       (fun m => (Memory.memory_id m =? id) && (Memory.user m =? user))
       (rows (memories db)) = Some memory ->
     visibility_choice (Some v) = true ->
     let r := update_visibility year_of user (Parsed id) (Some v) db in
     let memory' := MemorySave.set_visibility v memory in
     (exists l1 l2,
        rows (memories db) = l1 ++ memory :: l2
        /\ fst r = set_memories
                     (mkTable (l1 ++ memory' :: l2) (next_id (memories db)))
                     db)
     /\ (v = "private" ->
         forall viewer, viewer <> AuthUser user ->
           Memory.can_view (rows (friendships (fst r))) memory' viewer
           = false)
     /\ (v = "public" ->
         forall viewer,
           Memory.can_view (rows (friendships (fst r))) memory' viewer
           = true))
  /\ (forall year_of db user id v,
        visibility_choice v = false ->
        fst (update_visibility year_of user (Parsed id) v db) = db)
  /\ (forall year_of db user id v,
        (forall m, In m (rows (memories db)) ->
                   Memory.memory_id m = id -> Memory.user m <> user) ->
        update_visibility year_of user (Parsed id) v db
        = (db, [(error, "Error updating visibility")])).
Proof.
  split; [|split].
  - intros year_of db user id v memory Hnd Hg Hv r memory'.
    destruct (get_own_memory id user _ memory Hg) as [Hin [Hid Hu]].
    destruct (save_instance_fields year_of memory')
      as [_ [_ [_ [_ [E1 _]]]]].
    pose proof (memory_save_split year_of [MemorySave.f_visibility]
                  memory' memory _ Hnd Hin eq_refl) as Hs.
    cbn [fold_left MemorySave.write_field] in Hs. rewrite E1 in Hs.
    destruct Hs as [l1 [l2 [El El1]]].
    assert (Er : fst r = set_memories
                           (mkTable (l1 ++ memory' :: l2)
                              (next_id (memories db))) db).
    { unfold r, update_visibility. rewrite Hg, Hv. simpl fst.
      fold memory'. rewrite El1. reflexivity. }
    split; [exists l1, l2; auto|]. split.
    + intros -> viewer Hne. unfold Memory.can_view. simpl.
      destruct viewer as [|x]; simpl; [reflexivity|].
      apply Z.eqb_neq. intros E. apply Hne. rewrite <- E, Hu. reflexivity.
    + intros -> viewer. unfold Memory.can_view. simpl.
      destruct viewer; reflexivity.
  - intros year_of db user id v Hv. unfold update_visibility.
    destruct (get_object_or_404 _ _); [|reflexivity].
    destruct v as [s|]; [|reflexivity]. rewrite Hv. reflexivity.
  - intros year_of db user id v Hno. unfold update_visibility.
    rewrite (get_own_memory_none id user _ Hno). reflexivity.
Qed.

Lemma update_visibility_effect_witness :
  Memory.can_view
    (rows (friendships
             (fst (update_visibility demo_year 1 (Parsed 1) (Some "private")
                     liked_db))))
    (MemorySave.set_visibility "private"
       (Memory.mk 1 1 "P01_A" 500 "Exam week" "Notes" None "none" "friends"
          false false [] (Some 2024) 1 [2] 0 500))
    (AuthUser 2) = false.
Proof.
  refine (proj1 (proj2 (proj1 update_visibility_effect demo_year liked_db 1 1
                          "private" _ _ eq_refl eq_refl)) eq_refl
            (AuthUser 2) _).
  - simpl. constructor; [intros [H | []]; discriminate H|].
    constructor; [intros [] | constructor].
  - discriminate.
Defined.

(** X26. Only the owner deletes a memory: for any other user the database
    stays as it was.  The deletion takes that one row out of the table, the
    others keeping their order, and the key is then in the feed of no
    viewer. *)
Theorem delete_memory_effect :
  (forall db user id memory,
     NoDup (map Memory.memory_id (rows (memories db))) ->
     get_object_or_404
       (fun m => (Memory.memory_id m =? id) && (Memory.user m =? user))
       (rows (memories db)) = Some memory ->
     let r := delete_memory user (Parsed id) db in
     (exists l1 l2,
        rows (memories db) = l1 ++ memory :: l2
        /\ fst r = set_memories (mkTable (l1 ++ l2) (next_id (memories db)))
                     db)
     /\ forall viewer m, In m (memories_feed viewer (fst r)) ->
          Memory.memory_id m <> id)
  /\ (forall db user id,
        (forall m, In m (rows (memories db)) ->
                   Memory.memory_id m = id -> Memory.user m <> user) ->
        delete_memory user (Parsed id) db
        = (db, [(error, "Error deleting memory")])).
Proof.
  split.
  - intros db user id memory Hnd Hg r.
    destruct (get_own_memory id user _ memory Hg) as [Hin [Hid Hu]].
    destruct (in_split _ _ Hin) as [l1 [l2 El]].
    assert (Hno : ~ In id (map Memory.memory_id l1 ++ map Memory.memory_id l2)).
    { rewrite El, map_app in Hnd. simpl in Hnd. apply NoDup_remove_2 in Hnd.
      rewrite <- Hid. exact Hnd. }
    assert (Ef : filter (fun m => negb (Memory.memory_id m
                                        =? Memory.memory_id memory))
                   (rows (memories db)) = l1 ++ l2).
    { rewrite El, filter_app. simpl. rewrite Z.eqb_refl. simpl.
      f_equal; apply filter_all; intros x Hx; apply negb_true_iff;
        apply Z.eqb_neq; intros E; apply Hno; rewrite <- Hid, <- E;
        apply in_or_app; [left | right]; apply in_map; exact Hx. }
    assert (Er : fst r = set_memories
                           (mkTable (l1 ++ l2) (next_id (memories db))) db).
    { unfold r, delete_memory. rewrite Hg. simpl fst. rewrite Ef.
      reflexivity. }
    split; [exists l1, l2; auto|].
    intros viewer m Hm E. apply memories_feed_In in Hm.
    destruct Hm as [Hm _]. rewrite Er in Hm. simpl in Hm.
    apply Hno. rewrite <- E. rewrite <- map_app. apply in_map. exact Hm.
  - intros db user id Hno. unfold delete_memory.
    rewrite (get_own_memory_none id user _ Hno). reflexivity.
Qed.

Lemma delete_memory_effect_witness :
  delete_memory 2 (Parsed 1) liked_db
  = (liked_db, [(error, "Error deleting memory")]).
Proof.
  apply (proj2 delete_memory_effect).
  intros m [<- | [<- | []]]; simpl; intros H; try discriminate H.
  discriminate.
Defined.

(** X27. The listings of public memories never show what a stranger may
    not see: every memory among the public memories of a location or among
    the featured memories is a row of the table, is not archived, and can
    be viewed by every viewer, the anonymous one included; both listings
    are ordered newest first. *)
Theorem public_listings_are_viewable (table : list Memory.t)
  (location : string) (m : Memory.t) :
  In m (MemoryQueries.get_public_memories_for_location table location)
  \/ In m (MemoryQueries.get_featured_memories table) ->
  In m table
  /\ Memory.is_archived m = false
  /\ (forall fs viewer, Memory.can_view fs m viewer = true)
  /\ StronglySorted newer_or_same
       (MemoryQueries.get_public_memories_for_location table location)
  /\ StronglySorted newer_or_same (MemoryQueries.get_featured_memories table).
Proof.
  intros H.
  assert (Hm : In m table /\ Memory.is_archived m = false
               /\ Memory.visibility m = "public").
  { destruct H as [H | H].
    - unfold MemoryQueries.get_public_memories_for_location in H.
      apply order_by_desc_In, filter_In in H. destruct H as [Hin Hp].
      apply andb_true_iff in Hp. destruct Hp as [Hp _].
      apply andb_true_iff in Hp. destruct Hp as [Hp Ha].
      apply andb_true_iff in Hp. destruct Hp as [_ Hv].
      apply negb_true_iff in Ha. apply String.eqb_eq in Hv. auto.
    - unfold MemoryQueries.get_featured_memories in H.
      apply order_by_desc_In, filter_In in H. destruct H as [Hin Hp].
      apply andb_true_iff in Hp. destruct Hp as [Hp Ha].
      apply andb_true_iff in Hp. destruct Hp as [_ Hv].
      apply negb_true_iff in Ha. apply String.eqb_eq in Hv. auto. }
  destruct Hm as [Hin [Ha Hv]].
  split; [exact Hin|]. split; [exact Ha|]. split; [|split].
  - intros fs viewer. unfold Memory.can_view. rewrite Hv.
    destruct viewer; reflexivity.
  - apply (order_by_desc_sorted Memory.creation_date).
  - apply (order_by_desc_sorted Memory.creation_date).
Qed.

Lemma public_listings_are_viewable_witness :
  Memory.can_view []
    (Memory.mk 2 3 "P01_A" 700 "Graduation" "Hats" None "none" "public"
       false true [] (Some 2024) 0 [] 0 700) AnonymousUser = true.
Proof.
  refine (proj1 (proj2 (proj2
    (public_listings_are_viewable
       [Memory.mk 2 3 "P01_A" 700 "Graduation" "Hats" None "none" "public"
          false true [] (Some 2024) 0 [] 0 700] "P01_A" _ _))) []
    AnonymousUser).
  right. simpl. left. reflexivity.
Defined.

Lemma filter_split_length {A : Type} (p : A -> bool) (l : list A) :
  (List.length (filter p l) + List.length (filter (fun x => negb (p x)) l)
   = List.length l)%nat.
Proof.
  induction l as [|a l IH]; simpl; [reflexivity|].
  destruct (p a); simpl; lia.
Qed.

(** X28. The statistics of a user's memories agree with the two listings of
    the page: the total is the length of the listing with the archived
    memories, the active count the length of the listing without them,
    and archived and active add up to the total.  Both listings hold
    memories of the user only, newest first. *)
Theorem memory_stats_match_listings (user : Z) (db : DB) :
  let stats := memory_stats user db in
  total_memories stats
  = Z.of_nat (List.length (my_memories_list user true db))
  /\ active_count stats
     = Z.of_nat (List.length (my_memories_list user false db))
  /\ archived_count stats + active_count stats = total_memories stats
  /\ forall show_archived,
       StronglySorted newer_or_same (my_memories_list user show_archived db)
       /\ forall m, In m (my_memories_list user show_archived db) ->
            In m (rows (memories db))
            /\ Memory.user m = user
            /\ Memory.can_edit m (AuthUser user) = true
            /\ (show_archived = false -> Memory.is_archived m = false).
Proof.
  intros stats. unfold stats, memory_stats, my_memories_list,
    MemoryQueries.get_user_memories. simpl.
  set (own := filter (fun m => Memory.user m =? user) (rows (memories db))).
  assert (Hact : filter (fun m => (Memory.user m =? user)
                                  && negb (Memory.is_archived m))
                   (rows (memories db))
                 = filter (fun m => negb (Memory.is_archived m)) own).
  { unfold own. apply filter_and. }
  pose proof (filter_split_length Memory.is_archived own) as Hsplit.
  split; [|split; [|split]].
  - f_equal. symmetry. apply Permutation_length, order_by_desc_perm.
  - rewrite (Permutation_length (order_by_desc_perm _ _)), Hact. lia.
  - lia.
  - intros show_archived. split.
    + destruct show_archived;
        apply (order_by_desc_sorted Memory.creation_date).
    + intros m Hm. destruct show_archived.
      * apply order_by_desc_In, filter_In in Hm. destruct Hm as [Hin Hu].
        apply Z.eqb_eq in Hu. repeat split; try assumption.
        -- unfold Memory.can_edit. simpl. apply Z.eqb_eq. exact Hu.
        -- discriminate.
      * apply order_by_desc_In, filter_In in Hm. destruct Hm as [Hin Hp].
        apply andb_true_iff in Hp. destruct Hp as [Hu Ha].
        apply Z.eqb_eq in Hu. apply negb_true_iff in Ha.
        repeat split; try assumption; [|intros _; exact Ha].
        unfold Memory.can_edit. simpl. apply Z.eqb_eq. exact Hu.
Qed.

Lemma memory_stats_match_listings_witness :
  Memory.can_edit
    (Memory.mk 1 1 "P01_A" 500 "Exam week" "Notes" None "none" "friends"
       false false [] (Some 2024) 1 [2] 0 500) (AuthUser 1) = true.
Proof.
  refine (proj1 (proj2 (proj2
    (proj2 (proj2 (proj2 (proj2
       (memory_stats_match_listings 1 liked_db))) false) _ _)))).
  simpl. left. reflexivity.
Defined.

Lemma can_view_union (db : DB) (viewer : Z) (m : Memory.t) :
  Memory.can_view (rows (friendships db)) m (AuthUser viewer) = true
  <-> (Memory.visibility m = "public"
       \/ (Memory.visibility m = "friends"
           /\ close_to db viewer (Memory.user m))
       \/ (Memory.visibility m = "private" /\ Memory.user m = viewer)).
Proof.
  unfold Memory.can_view, close_to. simpl.
  destruct (String.eqb_spec (Memory.visibility m) "public") as [E1|E1].
  { split; [left; exact E1 | reflexivity]. }
  destruct (String.eqb_spec (Memory.visibility m) "private") as [E2|E2].
  { rewrite Z.eqb_eq. split.
    - intros H. right. right. auto.
    - intros [H | [[H _] | [_ H]]]; [contradiction | | exact H].
      rewrite E2 in H. discriminate H. }
  destruct (String.eqb_spec (Memory.visibility m) "friends") as [E3|E3].
  { destruct (Z.eqb_spec (Memory.user m) viewer) as [E|E].
    - split; [intros _; right; left; auto | reflexivity].
    - split.
      + intros H. right. left. auto.
      + intros [H | [[_ [H | H]] | [H _]]]; try contradiction; exact H. }
  split; [discriminate|].
  intros [H | [[H _] | [H _]]]; contradiction.
Qed.

(** X29. The feed and the permission check agree: with every author in the
    user table, the feed of a viewer holds exactly the memories that are
    not archived and that [can_view] lets this viewer see. *)
Theorem feed_agrees_with_can_view (db : DB) (viewer : Z) :
  authors_exist db ->
  forall m,
    In m (memories_feed viewer db)
    <-> In m (rows (memories db))
        /\ Memory.is_archived m = false
        /\ Memory.can_view (rows (friendships db)) m (AuthUser viewer) = true.
Proof.
  intros Hfk m. rewrite memories_feed_In. split.
  - intros [Hin [Ha Hv]]. split; [exact Hin|]. split; [exact Ha|].
    apply can_view_union. apply visible_to_union; [apply Hfk; exact Hin|].
    exact Hv.
  - intros [Hin [Ha Hv]]. split; [exact Hin|]. split; [exact Ha|].
    apply visible_to_union; [apply Hfk; exact Hin|].
    apply can_view_union. exact Hv.
Qed.

Lemma feed_agrees_with_can_view_witness :
  In (Memory.mk 1 1 "P01_A" 500 "Exam week" "Notes" None "none" "friends"
        false false [] (Some 2024) 0 [] 0 500)
     (memories_feed 2 friends_db).
Proof.
  refine (proj2 (feed_agrees_with_can_view friends_db 2 _ _) _).
  - intros m [<- | [<- | []]]; simpl.
    + exists (User.mk 1 "ann"). simpl. auto.
    + exists (User.mk 3 "cy"). simpl. auto.
  - split; [simpl; left; reflexivity|]. split; reflexivity.
Defined.

(** X30. Whoever may edit a memory may view it, as long as its visibility
    is one of the three choices: [can_edit] holds for the author alone,
    never for the anonymous user, and [can_delete] is the same permission.
    A memory stored with any other visibility can be viewed by nobody, its
    author included. *)
Theorem can_edit_implies_can_view (fs : list Friendship.t) (m : Memory.t)
  (viewer : RequestUser) :
  (Memory.can_edit m viewer = true <-> viewer = AuthUser (Memory.user m))
  /\ MemoryMethods.can_delete m viewer = Memory.can_edit m viewer
  /\ (Memory.can_edit m viewer = true ->
      (Memory.visibility m = "public" \/ Memory.visibility m = "friends"
       \/ Memory.visibility m = "private") ->
      Memory.can_view fs m viewer = true)
  /\ (Memory.visibility m <> "public" -> Memory.visibility m <> "friends" ->
      Memory.visibility m <> "private" ->
      Memory.can_view fs m viewer = false).
Proof.
  unfold Memory.can_edit, MemoryMethods.can_delete, Memory.can_edit,
    Memory.can_view.
  split; [|split; [reflexivity|split]].
  - destruct viewer as [|x]; simpl; [split; discriminate|].
    rewrite Z.eqb_eq. split; [intros ->; reflexivity|].
    intros H. injection H as ->. reflexivity.
  - destruct viewer as [|x]; simpl; [discriminate|].
    intros H [-> | [-> | ->]]; simpl; rewrite ?H; reflexivity.
  - intros H1 H2 H3.
    apply String.eqb_neq in H1, H2, H3. rewrite H1, H2, H3.
    destruct viewer; reflexivity.
Qed.

Lemma can_edit_implies_can_view_witness :
  Memory.can_view [] private_note (AuthUser 1) = true.
Proof.
  refine (proj1 (proj2 (proj2
    (can_edit_implies_can_view [] private_note (AuthUser 1))))
    eq_refl _).
  right. right. reflexivity.
Defined.
